(** * kvmd / live777: STUN client and Live777 runner

    A shallow embedding of [kvmd/apps/live777/stun.py] and
    [kvmd/apps/live777/runner.py], and the properties of the NAT probe, of the
    STUN wire format and of the child-process supervisor proved over it.

    Layout: the Python runtime pieces the two files rely on ([Py]), the STUN
    client ([Stun]), the runner ([Live777Runner]), then the theorems. *)

From Stdlib Require Import ZArith NArith List Ascii String Lia DecimalString.
From Stdlib.Strings Require Byte.
From Stdlib Require Import QArith_base.
From stdpp Require Import base tactics option list strings gmap.

Open Scope Z_scope.

(* ===================================================================== *)
(** * Python runtime model                                                *)
(* ===================================================================== *)

Module Py.

(** Exceptions deriving from [Exception]; [str(err)] is the carried message.
    [asyncio.CancelledError] derives from [BaseException] and is not one of
    them. [NotModelled] is not an exception: it marks an input outside the
    modelled fragment of a library function, about which the pure model says
    nothing. *)
Inductive ExnClass :=
| RuntimeError | OSError | StructError | AssertionError
| IndexError | KeyError | ValueError | NotModelled.

Record Exn := MkExn { exn_class : ExnClass; exn_str : string }.

#[global] Instance ExnClass_eq_dec : EqDecision ExnClass.
Proof. solve_decision. Defined.

#[global] Instance Exn_eq_dec : EqDecision Exn.
Proof. solve_decision. Defined.

(** A fallible pure computation: [inl e] raises [e]. *)
Definition result (A : Type) : Type := Exn + A.

Definition rbind {A B} (r : result A) (k : A -> result B) : result B :=
  match r with
  | inl e => inl e
  | inr a => k a
  end.

(** The outcome of running a piece of code: it returns, it raises, or the
    fuel given to a [while True] loop ran out before it did either. *)
Inductive outcome (A : Type) : Type :=
| Ret (a : A)
| Raise (e : Exn)
| OutOfFuel.
Arguments Ret {A} a.
Arguments Raise {A} e.
Arguments OutOfFuel {A}.

Definition of_result {A} (r : result A) : outcome A :=
  match r with
  | inl e => Raise e
  | inr a => Ret a
  end.

(** ** State and exceptions

    Code that reads and updates the fields of an object, talks to the outside
    and may raise: a state transformer over a state [S] that yields an
    [outcome]. *)

Definition M (S A : Type) : Type := S -> outcome A * S.

Definition ret {S A} (a : A) : M S A := fun w => (Ret a, w).

Definition bind {S A B} (m : M S A) (k : A -> M S B) : M S B :=
  fun w =>
    match m w with
    | (Ret a, w') => k a w'
    | (Raise e, w') => (Raise e, w')
    | (OutOfFuel, w') => (OutOfFuel, w')
    end.

Definition raise {S A} (e : Exn) : M S A := fun w => (Raise e, w).

Definition out_of_fuel {S A} : M S A := fun w => (OutOfFuel, w).

Definition lift {S A} (r : result A) : M S A := fun w => (of_result r, w).

Declare Scope py_scope.
Delimit Scope py_scope with py.
Notation "x <- m ;; k" := (bind m (fun x => k))
  (at level 100, m at next level, right associativity) : py_scope.
Notation "m ;; k" := (bind m (fun _ => k))
  (at level 100, right associativity) : py_scope.

(** [try: body except Exception as e: handler(e)] *)
Definition try_except {S A} (body : M S A) (handler : Exn -> M S A) : M S A :=
  fun w =>
    match body w with
    | (Raise e, w') => handler e w'
    | r => r
    end.

(** [try: body finally: fin] *)
Definition try_finally {S A} (body : M S A) (fin : M S unit) : M S A :=
  fun w =>
    match body w with
    | (OutOfFuel, w') => (OutOfFuel, w')
    | (o, w') =>
        match fin w' with
        | (Ret _, w'') => (o, w'')
        | (Raise e, w'') => (Raise e, w'')
        | (OutOfFuel, w'') => (OutOfFuel, w'')
        end
    end.

(** ** bytes *)

Abbreviation byte := Corelib.Init.Byte.byte.
Definition bytes := list byte.

#[global] Instance byte_eq_dec : EqDecision byte.
Proof. intros a b. destruct (Byte.byte_eq_dec a b); [left | right]; assumption. Defined.

Definition byte_of_N (n : N) : byte :=
  match Byte.of_N (n mod 256) with
  | Some b => b
  | None => Byte.x00
  end.

(** [a ^ b] on two bytes. *)
Definition byte_xor (a b : byte) : byte :=
  byte_of_N (N.lxor (Byte.to_N a) (Byte.to_N b)).

(** [data[a:b]] for non-negative [a] and [b]. *)
Definition slice {A} (a b : nat) (l : list A) : list A :=
  take (b - a) (drop a l).

(** [l * n] *)
Fixpoint repeat_list {A} (l : list A) (n : nat) : list A :=
  match n with
  | O => []
  | S n' => l ++ repeat_list l n'
  end.

(** [int.from_bytes(bs, "big")] *)
Definition int_from_bytes (bs : bytes) : N :=
  fold_left (fun acc b => (acc * 256 + Byte.to_N b)%N) bs 0%N.

(** ** struct *)

(** One unsigned big-endian field of [w] bytes; [struct.error] out of range. *)
Fixpoint be_bytes (w : nat) (v : N) : bytes :=
  match w with
  | O => []
  | S w' => be_bytes w' (v / 256) ++ [byte_of_N v]
  end.

Definition pack_uint (w : nat) (v : Z) : result bytes :=
  if bool_decide (0 <= v < 256 ^ Z.of_nat w)
  then inr (be_bytes w (Z.to_N v))
  else inl (MkExn StructError "argument out of range").

(** [struct.pack(">HHH", a, b, c)] *)
Definition pack_HHH (a b c : Z) : result bytes :=
  rbind (pack_uint 2 a) (fun x =>
  rbind (pack_uint 2 b) (fun y =>
  rbind (pack_uint 2 c) (fun z => inr (x ++ y ++ z)))).

(** [struct.pack(">HHI", a, b, c)] *)
Definition pack_HHI (a b c : Z) : result bytes :=
  rbind (pack_uint 2 a) (fun x =>
  rbind (pack_uint 2 b) (fun y =>
  rbind (pack_uint 4 c) (fun z => inr (x ++ y ++ z)))).

(** [struct.unpack(">H", bs)] *)
Definition unpack_H (bs : bytes) : result Z :=
  if bool_decide (length bs = 2%nat)
  then inr (Z.of_N (int_from_bytes bs))
  else inl (MkExn StructError "unpack requires a buffer of 2 bytes").

(** [struct.unpack(">HH", bs)] *)
Definition unpack_HH (bs : bytes) : result (Z * Z) :=
  if bool_decide (length bs = 4%nat)
  then inr (Z.of_N (int_from_bytes (take 2 bs)), Z.of_N (int_from_bytes (drop 2 bs)))
  else inl (MkExn StructError "unpack requires a buffer of 4 bytes").

(** ** str() of numbers and addresses *)

(** [str(n)] for an [int]. *)
Definition str_int (z : Z) : string := NilZero.string_of_int (Z.to_int z).

(** [str(ipaddress.IPv4Address(n))]: dotted quad. *)
Definition str_IPv4Address (n : N) : string :=
  str_int (Z.of_N (n / 16777216 mod 256)) +:+ "." +:+
  str_int (Z.of_N (n / 65536 mod 256)) +:+ "." +:+
  str_int (Z.of_N (n / 256 mod 256)) +:+ "." +:+
  str_int (Z.of_N (n mod 256)).

Definition hex_digit (n : N) : ascii :=
  match n with
  | 0 => "0" | 1 => "1" | 2 => "2" | 3 => "3" | 4 => "4" | 5 => "5"
  | 6 => "6" | 7 => "7" | 8 => "8" | 9 => "9" | 10 => "a" | 11 => "b"
  | 12 => "c" | 13 => "d" | 14 => "e" | _ => "f"
  end%N%char.

Fixpoint strip_zeros (ds : list N) : list N :=
  match ds with
  | 0%N :: ds' => strip_zeros ds'
  | _ => ds
  end.

(** ['%x' % h] for a 16-bit group. *)
Definition hextet_str (h : N) : string :=
  match strip_zeros [h / 4096 mod 16; h / 256 mod 16; h / 16 mod 16; h mod 16]%N with
  | [] => "0"
  | ds => string_of_list_ascii (map hex_digit ds)
  end.

(** The eight 16-bit groups of a 128-bit address, most significant first. *)
Definition hextets (n : N) : list N :=
  map (fun i => (n / 65536 ^ i) mod 65536)%N [7; 6; 5; 4; 3; 2; 1; 0]%N.

(** The scan of [ipaddress._BaseV6._compress_hextets]: the first longest run
    of zero groups, as (start, length). A current run of length 0 stands for
    [doublecolon_start == -1]. *)
Fixpoint best_zero_run (hs : list N) (index cur_start cur_len best_start best_len : nat)
  : nat * nat :=
  match hs with
  | [] => (best_start, best_len)
  | h :: hs' =>
      if bool_decide (h = 0%N) then
        let cur_len' := S cur_len in
        let cur_start' := if bool_decide (cur_len = 0%nat) then index else cur_start in
        if bool_decide (best_len < cur_len')%nat
        then best_zero_run hs' (S index) cur_start' cur_len' cur_start' cur_len'
        else best_zero_run hs' (S index) cur_start' cur_len' best_start best_len
      else best_zero_run hs' (S index) 0%nat 0%nat best_start best_len
  end.

Definition compress_hextets (hs : list N) : list string :=
  let strs := map hextet_str hs in
  let '(start, len) := best_zero_run hs 0 0 0 0 0 in
  if bool_decide (1 < len)%nat then
    let stop := (start + len)%nat in
    let strs1 := if bool_decide (stop = length strs) then strs ++ [""] else strs in
    let strs2 := take start strs1 ++ [""] ++ drop stop strs1 in
    if bool_decide (start = 0%nat) then "" :: strs2 else strs2
  else strs.

(** [sep.join(parts)] *)
Fixpoint join (sep : string) (parts : list string) : string :=
  match parts with
  | [] => ""
  | [p] => p
  | p :: ps => p +:+ sep +:+ join sep ps
  end.

(** [str(ipaddress.IPv6Address(n))], as [_string_from_ip_int] computes it:
    lower-case groups, the first longest run of two or more zero groups
    compressed. *)
Definition str_IPv6Address (n : N) : string :=
  join ":" (compress_hextets (hextets n)).

(** ** str.format *)

(** The fragment of [str.format] with keyword arguments [kw], all of them
    strings, that the command templates use: literal text, the doubled-brace
    escapes and the replacement fields [{name}], [{name!s}], [{name:}] and
    [{name!s:}], which all render a string as it is. A field with another
    conversion, a format spec that is not empty, an attribute or an index is
    outside the fragment: the result is then an error of class
    [NotModelled], which is no exception of the program and says nothing of
    what [str.format] does. Errors are raised left to right, as the formatter
    renders field by field. *)
Inductive fmt_state :=
| InText | SawOpen | SawClose | InField (name : string).

Definition is_digit (c : ascii) : bool :=
  bool_decide (48 <= nat_of_ascii c <= 57)%nat.

Definition is_field_syntax (c : ascii) : bool :=
  bool_decide (c ∈ ["."; "["; "!"; ":"; "{"]%char).

(** A printable ASCII character other than the quote (39) and the backslash
    (92): [repr] shows a string of such characters as it is, between quotes. *)
Definition is_plain (c : ascii) : bool :=
  bool_decide (32 <= nat_of_ascii c <= 126)%nat
  && negb (bool_decide (nat_of_ascii c = 39%nat))
  && negb (bool_decide (nat_of_ascii c = 92%nat)).

(** The text of a replacement field, cut before its first [!] or [:]. *)
Fixpoint split_field (cs : list ascii) : list ascii * list ascii :=
  match cs with
  | [] => ([], [])
  | c :: cs' =>
      if bool_decide (c = "!"%char) || bool_decide (c = ":"%char) then ([], cs)
      else let '(name, rest) := split_field cs' in (c :: name, rest)
  end.

(** The number written by a string of decimal digits. *)
Definition decimal (cs : list ascii) : Z :=
  fold_left (fun acc c => 10 * acc + (Z.of_nat (nat_of_ascii c) - 48)) cs 0.

(** The value of the replacement field [field]. An all-digit or empty name is
    an index into the positional arguments, of which there are none; an
    index that does not fit [Py_ssize_t] is refused when it is read, and
    whether it fits depends on the word size between [2^31] and [2^63]. *)
Definition get_field (field : string) (kw : gmap string string) : result string :=
  let '(cs, rest) := split_field (list_ascii_of_string field) in
  let name := string_of_list_ascii cs in
  if negb (bool_decide (string_of_list_ascii rest ∈ [""; "!s"; ":"; "!s:"]))
     || existsb is_field_syntax cs || negb (forallb is_plain cs)
  then inl (MkExn NotModelled ("replacement field " +:+ field))
  else if forallb is_digit cs
  then
    let n := decimal cs in
    if bool_decide (n <= 2 ^ 31 - 1)
    then inl (MkExn IndexError
                ("Replacement index " +:+ str_int n
                 +:+ " out of range for positional args tuple"))
    else if bool_decide (2 ^ 63 - 1 < n)
    then inl (MkExn ValueError "Too many decimal digits in format string")
    else inl (MkExn NotModelled ("replacement field " +:+ field))
  else match kw !! name with
       | Some v => inr v
       | None => inl (MkExn KeyError ("'" +:+ name +:+ "'"))
       end.

Fixpoint format_from (st : fmt_state) (s : string) (kw : gmap string string)
  : result string :=
  match s with
  | EmptyString =>
      match st with
      | InText => inr ""
      | SawOpen => inl (MkExn ValueError "Single '{' encountered in format string")
      | SawClose => inl (MkExn ValueError "Single '}' encountered in format string")
      | InField _ => inl (MkExn ValueError "expected '}' before end of string")
      end
  | String c s' =>
      match st with
      | InText =>
          if bool_decide (c = "{"%char) then format_from SawOpen s' kw
          else if bool_decide (c = "}"%char) then format_from SawClose s' kw
          else rbind (format_from InText s' kw) (fun r => inr (String c r))
      | SawOpen =>
          if bool_decide (c = "{"%char)
          then rbind (format_from InText s' kw) (fun r => inr (String c r))
          else if bool_decide (c = "}"%char)
          then rbind (get_field "" kw) (fun v =>
               rbind (format_from InText s' kw) (fun r => inr (v +:+ r)))
          else format_from (InField (String c "")) s' kw
      | SawClose =>
          if bool_decide (c = "}"%char)
          then rbind (format_from InText s' kw) (fun r => inr (String c r))
          else inl (MkExn ValueError "Single '}' encountered in format string")
      | InField name =>
          if bool_decide (c = "}"%char)
          then rbind (get_field name kw) (fun v =>
               rbind (format_from InText s' kw) (fun r => inr (v +:+ r)))
          else format_from (InField (name +:+ String c "")) s' kw
      end
  end.

(** [s.format] applied to the keyword arguments [kw]. *)
Definition format (s : string) (kw : gmap string string) : result string :=
  format_from InText s kw.

End Py.

Import Py.
Open Scope py_scope.

(* ===================================================================== *)
(** * stun.py                                                             *)
(* ===================================================================== *)

Module Stun.

Inductive StunNatType :=
| ERROR | BLOCKED | OPEN_INTERNET | SYMMETRIC_UDP_FW | FULL_CONE_NAT
| RESTRICTED_NAT | RESTRICTED_PORT_NAT | SYMMETRIC_NAT | CHANGED_ADDR_ERROR.

(** The enum values (the human-readable labels). *)
Definition StunNatType_value (t : StunNatType) : string :=
  match t with
  | ERROR => ""
  | BLOCKED => "Blocked"
  | OPEN_INTERNET => "Open Internet"
  | SYMMETRIC_UDP_FW => "Symmetric UDP Firewall"
  | FULL_CONE_NAT => "Full Cone NAT"
  | RESTRICTED_NAT => "Restricted NAT"
  | RESTRICTED_PORT_NAT => "Restricted Port NAT"
  | SYMMETRIC_NAT => "Symmetric NAT"
  | CHANGED_ADDR_ERROR => "Error when testing on Changed-IP and Port"
  end.

Record StunInfo := {
  nat_type : StunNatType;
  src_ip : string;
  ext_ip : string;
  stun_host : string;
  stun_ip : string;
  stun_port : Z;
}.

Record StunAddress := { ip : string; port : Z }.

Record StunResponse := {
  ok : bool;
  ext : option StunAddress;
  src : option StunAddress;
  changed : option StunAddress;
}.

#[global] Instance StunNatType_eq_dec : EqDecision StunNatType.
Proof. solve_decision. Defined.

#[global] Instance StunAddress_eq_dec : EqDecision StunAddress.
Proof. solve_decision. Defined.

(** ** The world a probe runs in *)

Inductive AddressFamily := AF_INET | AF_INET6.

#[global] Instance AddressFamily_eq_dec : EqDecision AddressFamily.
Proof. solve_decision. Defined.

Definition AddressFamily_name (f : AddressFamily) : string :=
  match f with
  | AF_INET => "AF_INET"
  | AF_INET6 => "AF_INET6"
  end.

(** A socket address tuple: [(ip, port)], followed by flow info and scope id
    for IPv6. *)
Record SockAddr := { sa_ip : string; sa_port : Z; sa_rest : list Z }.

(** One entry of [socket.getaddrinfo]: the family and the socket address (the
    type, protocol and canonical name are ignored by the code). *)
Record AddrInfo := { ai_family : AddressFamily; ai_addr : SockAddr }.

Inductive LogArg :=
| ArgStr (s : string)
| ArgInt (z : Z)
| ArgExn (e : Exn).

(** Everything a probe does to the outside, in the order it does it. *)
Inductive Event :=
| Getaddrinfo (host : string) (port : Z)
| Sleep (delay : Q)
| TokenBytes (n : Z)
| SocketOpen (fam : AddressFamily)
| Setsockopt
| Settimeout (t : Q)
| Bind (addr : SockAddr)
| Close
| Sendto (msg : bytes) (addr : string * Z)
| Recvfrom (bufsize : Z)
| LogError (fmt : string) (args : list LogArg).

(** The outside: what each call answers, given the history up to and
    including the call itself (newest event first). The answers of the
    resolver, of the random source and of the network are unconstrained. *)
Record Env := {
  getaddrinfo_result : list Event -> result (list AddrInfo);
  token_bytes_result : list Event -> bytes;
  socket_result : list Event -> option Exn;
  sendto_result : list Event -> option Exn;
  recvfrom_result : list Event -> result bytes;
}.

(** The fields of a [Stun] object. *)
Record Self := {
  self_host : string;
  self_port : Z;
  self_timeout : Q;
  self_retries : Z;
  self_retries_delay : Q;
  self_stun_ip : string;
  self_sock : option AddressFamily;
}.

(** [Stun.__init__] *)
Definition init (host : string) (port : Z) (timeout : Q) (retries : Z)
    (retries_delay : Q) : Self :=
  {| self_host := host; self_port := port; self_timeout := timeout;
     self_retries := retries; self_retries_delay := retries_delay;
     self_stun_ip := ""; self_sock := None |}.

Record World := { self : Self; trace : list Event }.

Definition set_stun_ip (v : string) (s : Self) : Self :=
  {| self_host := self_host s; self_port := self_port s;
     self_timeout := self_timeout s; self_retries := self_retries s;
     self_retries_delay := self_retries_delay s;
     self_stun_ip := v; self_sock := self_sock s |}.

Definition set_sock (v : option AddressFamily) (s : Self) : Self :=
  {| self_host := self_host s; self_port := self_port s;
     self_timeout := self_timeout s; self_retries := self_retries s;
     self_retries_delay := self_retries_delay s;
     self_stun_ip := self_stun_ip s; self_sock := v |}.

Abbreviation M := (Py.M World).

Definition get_self : M Self := fun w => (Ret (self w), w).

Definition put_self (f : Self -> Self) : M unit :=
  fun w => (Ret tt, {| self := f (self w); trace := trace w |}).

Definition emit (e : Event) : M unit :=
  fun w => (Ret tt, {| self := self w; trace := e :: trace w |}).

Definition history : M (list Event) := fun w => (Ret (trace w), w).

(** ** Calls to the outside *)

Section WithEnv.
Context (env : Env).

(** [socket.getaddrinfo(host, port, type=socket.SOCK_DGRAM)] *)
Definition getaddrinfo (host : string) (port : Z) : M (list AddrInfo) :=
  emit (Getaddrinfo host port);;
  h <- history;;
  lift (getaddrinfo_result env h).

(** [asyncio.sleep(delay)] *)
Definition sleep (delay : Q) : M unit := emit (Sleep delay).

(** [secrets.token_bytes(n)] *)
Definition token_bytes (n : Z) : M bytes :=
  emit (TokenBytes n);;
  h <- history;;
  ret (token_bytes_result env h).

(** [socket.socket(...)], [setsockopt], [settimeout] and [bind]. *)
Definition socket_call (e : Event) : M unit :=
  emit e;;
  h <- history;;
  match socket_result env h with
  | Some ex => raise ex
  | None => ret tt
  end.

(** [self.__sock.sendto(msg, addr)] *)
Definition sendto (msg : bytes) (addr : string * Z) : M unit :=
  emit (Sendto msg addr);;
  h <- history;;
  match sendto_result env h with
  | Some ex => raise ex
  | None => ret tt
  end.

(** [self.__sock.recvfrom(bufsize)]: at most [bufsize] bytes of the datagram. *)
Definition recvfrom (bufsize : Z) : M bytes :=
  emit (Recvfrom bufsize);;
  h <- history;;
  data <- lift (recvfrom_result env h);;
  ret (take (Z.to_nat bufsize) data).

(** [get_logger(0).error(fmt, *args)] *)
Definition log_error (fmt : string) (args : list LogArg) : M unit :=
  emit (LogError fmt args).

(** ** Address decoding *)

Definition magic : bytes := [Byte.x21; Byte.x12; Byte.xa4; Byte.x42].

(** [Stun.__trans_xor] *)
Definition trans_xor (data trans_id : bytes) : bytes :=
  match trans_id with
  | [] => data
  | _ =>
      let xor := repeat_list (magic ++ trans_id)
                   (length data / length (magic ++ trans_id) + 1)%nat in
      zip_with byte_xor data (take (length data) xor)
  end.

(** [Stun.__parse_address] *)
Definition parse_address (data trans_id : bytes) : result StunAddress :=
  if bool_decide (length data < 4)%nat
  then inl (MkExn RuntimeError "Address: data is too short")
  else
    let family := Z.of_N (Byte.to_N (nth 1 data Byte.x00)) in
    if negb (bool_decide (family ∈ [1; 2]))
    then inl (MkExn RuntimeError ("Invalid address family: " +:+ str_int family))
    else
      rbind (unpack_H (trans_xor (slice 2 4 data) trans_id)) (fun port =>
      if bool_decide (family = 1) then
        if bool_decide (length data < 8)%nat
        then inl (MkExn RuntimeError "IPv4 address: data is too short")
        else inr {| ip := str_IPv4Address
                            (int_from_bytes (trans_xor (slice 4 8 data) trans_id));
                    port := port |}
      else
        if bool_decide (length data < 20)%nat
        then inl (MkExn RuntimeError "IPv6 address: data is too short")
        else inr {| ip := str_IPv6Address
                            (int_from_bytes (trans_xor (slice 4 20 data) trans_id));
                    port := port |}).

(** ** The request layer *)

(** [Stun.__inner_make_request] *)
Definition inner_make_request (trans_id req : bytes) (addr : string * Z)
  : M (bytes * string) :=
  s <- get_self;;
  match self_sock s with
  | None => raise (MkExn AssertionError "")
  | Some _ =>
      hdr <- lift (pack_HHH 0x0001 (Z.of_nat (length req)) 0x2112);;
      let msg := hdr ++ trans_id ++ req in
      try_except
        (sendto msg addr;;
         data <- recvfrom 2048;;
         if bool_decide (length data < 20)%nat
         then raise (MkExn RuntimeError "Response is too short")
         else if bool_decide (slice 0 2 data <> [Byte.x01; Byte.x01])
         then raise (MkExn RuntimeError "Invalid response type")
         else if bool_decide (slice 4 20 data <> trans_id)
         then raise (MkExn RuntimeError "Transaction ID mismatch")
         else ret (drop 20 data, ""))
        (fun err => ret ([], exn_str err))
  end.

(** The [for _ in range(self.__retries)] loop of [__make_request]; [last] is
    the current value of [(resp, error)]. *)
Fixpoint request_loop (n : nat) (trans_id req : bytes) (addr_t : string * Z)
    (last : bytes * string) : M (bytes * string) :=
  match n with
  | O => ret last
  | S n' =>
      r <- inner_make_request trans_id req addr_t;;
      if bool_decide (snd r = "") then ret r
      else
        s <- get_self;;
        sleep (self_retries_delay s);;
        request_loop n' trans_id req addr_t r
  end.

(** The attribute table of [__make_request]. *)
Definition attr_field (attr_type : Z) : option string :=
  if bool_decide (attr_type = 0x0001) then Some "ext"
  else if bool_decide (attr_type = 0x0020) then Some "ext"
  else if bool_decide (attr_type = 0x0004) then Some "src"
  else if bool_decide (attr_type = 0x0005) then Some "changed"
  else None.

(** The [while remaining > 0] loop of [__make_request]. *)
Fixpoint parse_attrs (fuel : nat) (resp trans_id : bytes) (offset remaining : Z)
    (parsed : gmap string StunAddress) : outcome (gmap string StunAddress) :=
  match fuel with
  | O => if bool_decide (remaining > 0) then OutOfFuel else Ret parsed
  | S fuel' =>
      if bool_decide (remaining > 0) then
        match unpack_HH (slice (Z.to_nat offset) (Z.to_nat (offset + 4)) resp) with
        | inl e => Raise e
        | inr (attr_type, attr_len) =>
            let offset := offset + 4 in
            let stored :=
              match attr_field attr_type with
              | Some field =>
                  rbind (parse_address (drop (Z.to_nat offset) resp)
                           (if bool_decide (attr_type = 0x0020) then trans_id else []))
                        (fun a => inr (<[field := a]> parsed))
              | None => inr parsed
              end in
            match stored with
            | inl e => Raise e
            | inr parsed' =>
                parse_attrs fuel' resp trans_id (offset + attr_len)
                  (remaining - (4 + attr_len)) parsed'
            end
        end
      else Ret parsed
  end.

(** The address tuple [addr_t] of [__make_request]. *)
Definition addr_tuple (s : Self) (addr : StunAddress + string) : string * Z :=
  match addr with
  | inl a => (ip a, port a)
  | inr host => (host, self_port s)
  end.

(** [Stun.__make_request] *)
Definition make_request (ctx : string) (addr : StunAddress + string) (req : bytes)
  : M StunResponse :=
  s <- get_self;;
  let addr_t := addr_tuple s addr in
  tok <- token_bytes 12;;
  let trans_id := magic ++ tok in
  r <- request_loop (Z.to_nat (self_retries s)) trans_id req addr_t ([], "");;
  let '(resp, error) := r in
  if negb (bool_decide (error = "")) then
    log_error "%s: Can't perform STUN request after %d retries; last error: %s"
      [ArgStr ctx; ArgInt (self_retries s); ArgStr error];;
    ret {| ok := false; ext := None; src := None; changed := None |}
  else
    parsed <- (fun w => (parse_attrs (length resp) resp trans_id 0
                           (Z.of_nat (length resp)) ∅, w));;
    ret {| ok := true; ext := parsed !! "ext"; src := parsed !! "src";
           changed := parsed !! "changed" |}.

(** ** The classification dialogue *)

Definition repr_str (s : string) : string := "'" +:+ s +:+ "'".

Definition repr_address (a : option StunAddress) : string :=
  match a with
  | None => "None"
  | Some a => "_StunAddress(ip=" +:+ repr_str (ip a) +:+ ", port=" +:+ str_int (port a) +:+ ")"
  end.

Definition repr_response (r : StunResponse) : string :=
  "_StunResponse(ok=" +:+ (if ok r then "True" else "False") +:+
  ", ext=" +:+ repr_address (ext r) +:+
  ", src=" +:+ repr_address (src r) +:+
  ", changed=" +:+ repr_address (changed r) +:+ ")".

(** [first.ext is not None and first.ext.ip == src_ip] *)
Definition ext_ip_is (first : StunResponse) (src_ip : string) : bool :=
  match ext first with
  | Some a => bool_decide (ip a = src_ip)
  | None => false
  end.

(** [Stun.__get_nat_type] *)
Definition get_nat_type (src_ip : string) : M (StunNatType * StunResponse) :=
  s <- get_self;;
  first <- make_request "First probe" (inr (self_stun_ip s)) [];;
  if negb (ok first) then ret (BLOCKED, first)
  else
    req <- lift (pack_HHI 0x0003 0x0004 0x00000006);;
    s <- get_self;;
    resp <- make_request "Change request [ext_ip == src_ip]" (inr (self_stun_ip s)) req;;
    if ext_ip_is first src_ip then
      if ok resp then ret (OPEN_INTERNET, resp)
      else ret (SYMMETRIC_UDP_FW, resp)
    else if ok resp then ret (FULL_CONE_NAT, resp)
    else
      match changed first with
      | None => raise (MkExn RuntimeError ("Changed addr is None: " +:+ repr_response first))
      | Some first_changed =>
          resp <- make_request "Change request [ext_ip != src_ip]" (inl first_changed) [];;
          if negb (ok resp) then ret (CHANGED_ADDR_ERROR, resp)
          else if bool_decide (ext resp = ext first) then
            req <- lift (pack_HHI 0x0003 0x0004 0x00000002);;
            resp <- make_request "Change port" (inr (ip first_changed)) req;;
            if ok resp then ret (RESTRICTED_NAT, resp)
            else ret (RESTRICTED_PORT_NAT, resp)
          else ret (SYMMETRIC_NAT, resp)
      end.

(** ** Resolution and the probe *)

(** The [while True] loop of [__retried_getaddrinfo_udp], with the local
    variable [retries]; [fuel] bounds the number of iterations the model
    follows. *)
Fixpoint retried_loop (fuel : nat) (host : string) (port : Z) (retries : Z)
  : M (list AddrInfo) :=
  match fuel with
  | O => out_of_fuel
  | S fuel' =>
      r <- try_except
             (l <- getaddrinfo host port;; ret (Some l))
             (fun ex =>
                let retries := retries - 1 in
                if bool_decide (retries = 0) then raise ex
                else ret None);;
      match r with
      | Some l => ret l
      | None =>
          s <- get_self;;
          sleep (self_retries_delay s);;
          retried_loop fuel' host port (retries - 1)
      end
  end.

(** [Stun.__retried_getaddrinfo_udp] *)
Definition retried_getaddrinfo_udp (fuel : nat) (host : string) (port : Z)
  : M (list AddrInfo) :=
  s <- get_self;;
  retried_loop fuel host port (self_retries s).

(** [with socket.socket(src_fam, socket.SOCK_DGRAM) as self.__sock: body].
    Closing a datagram socket is taken not to fail. *)
Definition with_socket {A} (fam : AddressFamily) (body : M A) : M A :=
  socket_call (SocketOpen fam);;
  put_self (set_sock (Some fam));;
  try_finally body (emit Close).

(** The [try] block of [get_info]; it returns the values assigned to
    [nat_type] and [ext_ip], its last two statements. When it raises, the two
    variables still hold their initial values. *)
Definition get_info_try (fuel : nat) (src_ip : string) (src_port : Z)
  : M (StunNatType * string) :=
  src_infos <- retried_getaddrinfo_udp fuel src_ip src_port;;
  match src_infos with
  | [] => raise (MkExn IndexError "list index out of range")
  | src_info :: _ =>
      let src_fam := ai_family src_info in
      let src_addr := ai_addr src_info in
      s <- get_self;;
      stun_infos <- retried_getaddrinfo_udp fuel (self_host s) (self_port s);;
      let stun_ips :=
        map (fun i => sa_ip (ai_addr i))
            (filter (fun i => ai_family i = src_fam) stun_infos) in
      match stun_ips with
      | [] => raise (MkExn RuntimeError
                       ("Can't resolve " +:+ AddressFamily_name src_fam +:+ " address for STUN"))
      | first_ip :: _ =>
          s <- get_self;;
          (if bool_decide (self_stun_ip s = "")
              || negb (bool_decide (self_stun_ip s ∈ stun_ips))
           then put_self (set_stun_ip first_ip)
           else ret tt);;
          with_socket src_fam
            (socket_call Setsockopt;;
             s <- get_self;;
             socket_call (Settimeout (self_timeout s));;
             socket_call (Bind src_addr);;
             r <- get_nat_type src_ip;;
             let '(nat_type, resp) := r in
             ret (nat_type, match ext resp with
                            | Some a => ip a
                            | None => ""
                            end))
      end
  end.

(** [Stun.get_info] *)
Definition get_info (fuel : nat) (src_ip : string) (src_port : Z) : M StunInfo :=
  r <- try_finally
         (try_except
            (get_info_try fuel src_ip src_port)
            (fun ex =>
               log_error "Can't get STUN info: %s" [ArgExn ex];;
               ret (ERROR, "")))
         (put_self (set_sock None));;
  s <- get_self;;
  ret {| nat_type := fst r;
         src_ip := src_ip;
         ext_ip := snd r;
         stun_host := self_host s;
         stun_ip := self_stun_ip s;
         stun_port := self_port s |}.

(** ** Observations on a history (newest event first) *)

(** The world after one more event. *)
Definition log (e : Event) (w : World) : World :=
  {| self := self w; trace := e :: trace w |}.

(** The datagrams handed to [sendto], with their destinations. *)
Fixpoint sent_messages (h : list Event) : list (bytes * (string * Z)) :=
  match h with
  | [] => []
  | Sendto msg addr :: h' => (msg, addr) :: sent_messages h'
  | _ :: h' => sent_messages h'
  end.

(** The delays slept. *)
Fixpoint sleeps (h : list Event) : list Q :=
  match h with
  | [] => []
  | Sleep d :: h' => d :: sleeps h'
  | _ :: h' => sleeps h'
  end.

(** The history left by [n] resolver attempts with a sleep between each two:
    it reads the same in both directions. *)
Fixpoint resolver_attempts (host : string) (port : Z) (delay : Q) (n : nat) : list Event :=
  match n with
  | O => []
  | S O => [Getaddrinfo host port]
  | S n' => Getaddrinfo host port :: Sleep delay :: resolver_attempts host port delay n'
  end.

(** The history left by [n] resolver attempts each followed by a sleep. *)
Fixpoint resolver_spins (host : string) (port : Z) (delay : Q) (n : nat) : list Event :=
  match n with
  | O => []
  | S n' => Sleep delay :: Getaddrinfo host port :: resolver_spins host port delay n'
  end.

(** ** Properties of a piece of code *)

(** [m] changes the fields of the client only along [R]. *)
Definition preserves (R : Self -> Self -> Prop) {A} (m : M A) : Prop :=
  forall w, R (self w) (self (snd (m w))).

(** From a client that satisfies [I], [m] ends (it returns or raises) and
    leaves a client that satisfies [I]. *)
Definition ends (I : Self -> Prop) {A} (m : M A) : Prop :=
  forall w, I (self w) -> fst (m w) <> OutOfFuel /\ I (self (snd (m w))).

(** The constructor arguments are the same in [s] and [s']. *)
Definition same_config (s s' : Self) : Prop :=
  self_host s' = self_host s /\ self_port s' = self_port s
  /\ self_timeout s' = self_timeout s /\ self_retries s' = self_retries s
  /\ self_retries_delay s' = self_retries_delay s.

(** The resolver loop of a client [s] ends within [fuel] passes. *)
Definition enough_fuel (fuel : nat) (s : Self) : Prop :=
  1 <= self_retries s /\ (Z.to_nat (self_retries s) <= fuel)%nat.

(** ** Attempts that fail *)



(** The datagram [__inner_make_request] builds. *)
Definition request_message (trans_id req : bytes) : bytes :=
  ([Byte.x00; Byte.x01] ++ be_bytes 2 (N.of_nat (length req)) ++ [Byte.x21; Byte.x12])
  ++ trans_id ++ req.

(** ** The wire format as the specification words it *)

(** The XOR mask of XOR-MAPPED-ADDRESS: the 4-byte magic cookie followed by
    the 12-byte transaction id [tid], repeated as needed. *)
Definition spec_xor_mask (tid : bytes) (n : nat) : bytes :=
  take n (repeat_list (magic ++ tid) (S n)).

Definition spec_xor (data tid : bytes) : bytes :=
  zip_with byte_xor data (spec_xor_mask tid (length data)).

(** The Change-Request attribute (type [0x0003], length 4) with flags
    [0x00000006], change IP and port, and with flags [0x00000002], change
    port. *)
Definition change_ip_and_port : bytes :=
  [Byte.x00; Byte.x03; Byte.x00; Byte.x04; Byte.x00; Byte.x00; Byte.x00; Byte.x06].

Definition change_port : bytes :=
  [Byte.x00; Byte.x03; Byte.x00; Byte.x04; Byte.x00; Byte.x00; Byte.x00; Byte.x02].

(** The request envelope: a 20-byte header (type [0x0001], the payload
    length, the magic cookie, the 12-byte transaction id [tid]), then the
    payload. *)
Definition spec_request (tid payload : bytes) : bytes :=
  [Byte.x00; Byte.x01] ++ be_bytes 2 (N.of_nat (length payload)) ++ magic ++ tid ++ payload.

(** ** Vocabulary for the attribute walk and the address decoder *)

(** One attribute on the wire: type, length of the value, value. *)
Definition encode_attr (attr_type : N) (value : bytes) : bytes :=
  be_bytes 2 attr_type ++ be_bytes 2 (N.of_nat (length value)) ++ value.

(** The attribute walk of [__make_request] on the body [resp], started with
    the dictionary [parsed]. *)
Definition parse_body (resp trans_id : bytes) (parsed : gmap string StunAddress)
  : outcome (gmap string StunAddress) :=
  parse_attrs (length resp) resp trans_id 0 (Z.of_nat (length resp)) parsed.

(** The [trans_id] argument [__make_request] gives to [__parse_address] for
    an attribute of type [attr_type]. *)
Definition xor_key (attr_type : Z) (trans_id : bytes) : bytes :=
  if bool_decide (attr_type = 0x0020) then trans_id else [].

(** Four bytes in dotted-quad notation. *)
Definition dotted_quad (a b c d : byte) : string :=
  str_int (Z.of_N (Byte.to_N a)) +:+ "." +:+
  str_int (Z.of_N (Byte.to_N b)) +:+ "." +:+
  str_int (Z.of_N (Byte.to_N c)) +:+ "." +:+
  str_int (Z.of_N (Byte.to_N d)).

(** The candidate list [stun_ips] of [get_info]. *)
Definition stun_candidates (src_fam : AddressFamily) (stun_infos : list AddrInfo)
  : list string :=
  map (fun i => sa_ip (ai_addr i)) (filter (fun i => ai_family i = src_fam) stun_infos).

(** The server address [get_info] keeps: the remembered one while it is
    among the candidates, else the first candidate. *)
Definition sticky_choice (remembered : string) (candidates : list string) : string :=
  match candidates with
  | [] => remembered
  | first :: _ =>
      if bool_decide (remembered = "") || negb (bool_decide (remembered ∈ candidates))
      then first else remembered
  end.

(** ** Vocabulary for the socket

    The events that create and that close a socket. *)
Definition is_socket_open (e : Event) : bool :=
  match e with
  | SocketOpen _ => true
  | _ => false
  end.

Definition is_close (e : Event) : bool :=
  match e with
  | Close => true
  | _ => false
  end.

(** The calls of [socket.socket] in a history that returned a socket. *)
Fixpoint sockets_opened (h : list Event) : nat :=
  match h with
  | [] => 0
  | e :: h' =>
      (if is_socket_open e && bool_decide (socket_result env (e :: h') = None)
       then 1 else 0) + sockets_opened h'
  end%nat.

(** The sockets closed in a history. *)
Fixpoint sockets_closed (h : list Event) : nat :=
  match h with
  | [] => 0
  | e :: h' => (if is_close e then 1 else 0) + sockets_closed h'
  end%nat.

(** [m] takes a world to one related to it by [R]. *)
Definition relates (R : World -> World -> Prop) {A} (m : M A) : Prop :=
  forall w, R w (snd (m w)).

(** The history of the second world extends that of the first by events
    that neither open nor close a socket. *)
Definition quiet (w w' : World) : Prop :=
  exists new,
    trace w' = new ++ trace w
    /\ forallb (fun e => negb (is_socket_open e) && negb (is_close e)) new = true.

(** Between the two histories as many sockets are opened as are closed, and
    at most one. *)
Definition balanced (w w' : World) : Prop :=
  exists k : nat,
    (k <= 1)%nat
    /\ sockets_opened (trace w') = (sockets_opened (trace w) + k)%nat
    /\ sockets_closed (trace w') = (sockets_closed (trace w) + k)%nat.

(** The second client remembers the same server address as the first. *)
Definition same_stun_ip (s s' : Self) : Prop := self_stun_ip s' = self_stun_ip s.

End WithEnv.

End Stun.

(* ===================================================================== *)
(** * runner.py                                                           *)
(* ===================================================================== *)

Module Live777Runner.

Record Netcfg := {
  nat_type : Stun.StunNatType;
  src_ip : string;
  ext_ip : string;
  stun_host : string;
  stun_ip : string;
  stun_port : Z;
}.

#[global] Instance Netcfg_eq_dec : EqDecision Netcfg.
Proof. solve_decision. Defined.

(** [_Netcfg()] *)
Definition Netcfg_default : Netcfg :=
  {| nat_type := Stun.ERROR; src_ip := ""; ext_ip := ""; stun_host := "";
     stun_ip := ""; stun_port := 0 |}.

(** The fields of [dataclasses.asdict(info)] passed as keyword arguments to
    [_Netcfg]. *)
Definition Netcfg_of_info (info : Stun.StunInfo) : Netcfg :=
  {| nat_type := Stun.nat_type info; src_ip := Stun.src_ip info;
     ext_ip := Stun.ext_ip info; stun_host := Stun.stun_host info;
     stun_ip := Stun.stun_ip info; stun_port := Stun.stun_port info |}.

(** ** The world of the runner *)

(** What [netifaces] reports at one moment. [gateways] is the ["default"]
    entry of [netifaces.gateways()], if any, giving per family the interface
    name (element 1 of the gateway tuple); [ifaddresses] gives per family the
    list of address dictionaries, each reduced to its ["addr"] entry. *)
Record Netifaces := {
  gateways : result (option (Stun.AddressFamily -> option string));
  interfaces : result (list string);
  ifaddresses : string -> result (Stun.AddressFamily -> option (list (option string)));
}.

(** A supervisory task of the event loop: the configuration it was created
    for, and whether it is waiting on the output of a child it launched. *)
Record Task := { task_id : nat; task_netcfg : Netcfg; task_tailing : bool }.

Inductive Event :=
| LogInfo (fmt : string)
| LogError (fmt : string)
| Sleep (delay : Q)
| QueryNetifaces
| Enter_start_live777 (netcfg : Netcfg)
| Enter_stop_live777
| CreateTask (tid : nat) (netcfg : Netcfg)
| CancelTask (tid : nat)
| GatherTask (tid : nat)
| RunProcess (cmd : list string) (environ : list (string * string))
| KillProcess (pid : Z) (wait : Z).

Record Env := {
  stun_env : Stun.Env;
  netifaces_result : list Event -> Netifaces;
  run_process_result : list Event -> result Z;
  format_result : list Event -> list string -> Netcfg -> result (list string);
}.

(** The constructor arguments kept by the runner; [cmd] is the result of
    [tools.build_cmd(cmd, cmd_remove, cmd_append)]. *)
Record Config := {
  check_interval : Z;
  check_retries : Z;
  check_retries_delay : Q;
  cmd : list string;
}.

(** The runner object ([stun], [live777_task], [live777_proc]) together with
    what exists outside of it: the unfinished tasks of the event loop that
    it created and the child processes it spawned that are not yet reaped. *)
Record World := {
  stun : Stun.World;
  live777_task : option nat;
  live777_proc : option Z;
  tasks : list Task;
  children : list Z;
  next_task : nat;
  trace : list Event;
}.

Abbreviation M := (Py.M World).

Definition set_stun (v : Stun.World) (w : World) : World :=
  {| stun := v; live777_task := live777_task w; live777_proc := live777_proc w;
     tasks := tasks w; children := children w; next_task := next_task w;
     trace := trace w |}.

Definition set_live777_task (v : option nat) (w : World) : World :=
  {| stun := stun w; live777_task := v; live777_proc := live777_proc w;
     tasks := tasks w; children := children w; next_task := next_task w;
     trace := trace w |}.

Definition set_live777_proc (v : option Z) (w : World) : World :=
  {| stun := stun w; live777_task := live777_task w; live777_proc := v;
     tasks := tasks w; children := children w; next_task := next_task w;
     trace := trace w |}.

Definition set_tasks (v : list Task) (w : World) : World :=
  {| stun := stun w; live777_task := live777_task w; live777_proc := live777_proc w;
     tasks := v; children := children w; next_task := next_task w;
     trace := trace w |}.

Definition set_children (v : list Z) (w : World) : World :=
  {| stun := stun w; live777_task := live777_task w; live777_proc := live777_proc w;
     tasks := tasks w; children := v; next_task := next_task w;
     trace := trace w |}.

Definition set_next_task (v : nat) (w : World) : World :=
  {| stun := stun w; live777_task := live777_task w; live777_proc := live777_proc w;
     tasks := tasks w; children := children w; next_task := v;
     trace := trace w |}.

Definition get : M World := fun w => (Ret w, w).

Definition modify (f : World -> World) : M unit := fun w => (Ret tt, f w).

Definition emit (e : Event) : M unit :=
  fun w =>
    (Ret tt,
     {| stun := stun w; live777_task := live777_task w;
        live777_proc := live777_proc w; tasks := tasks w; children := children w;
        next_task := next_task w; trace := e :: trace w |}).

(** [Live777Runner.__init__] with an empty event loop. *)
Definition init (stun_host : string) (stun_port : Z) (stun_timeout : Q)
    (stun_retries : Z) (stun_retries_delay : Q) : World :=
  {| stun := {| Stun.self := Stun.init stun_host stun_port stun_timeout
                               stun_retries stun_retries_delay;
                Stun.trace := [] |};
     live777_task := None; live777_proc := None;
     tasks := []; children := []; next_task := 0%nat; trace := [] |}.

Section WithEnv.
Context (env : Env) (config : Config).

Definition history : M (list Event) := fun w => (Ret (trace w), w).

(** [asyncio.sleep(delay)] *)
Definition sleep (delay : Q) : M unit := emit (Sleep delay).

(** A call of a method of [self.__stun]. *)
Definition lift_stun {A} (m : Stun.M A) : M A :=
  fun w => let '(o, sw) := m (stun w) in (o, set_stun sw w).

(** ** Local address discovery *)

(** [addrs[proto][0]["addr"]] *)
Definition first_addr (addrs : Stun.AddressFamily -> option (list (option string)))
    (proto : Stun.AddressFamily) : result string :=
  match addrs proto with
  | None => inl (MkExn KeyError (Stun.AddressFamily_name proto))
  | Some [] => inl (MkExn IndexError "list index out of range")
  | Some (None :: _) => inl (MkExn KeyError "'addr'")
  | Some (Some a :: _) => inr a
  end.

(** The first of [socket.AF_INET], [socket.AF_INET6] that is a key of [d]. *)
Definition first_proto {A} (d : Stun.AddressFamily -> option A) : option Stun.AddressFamily :=
  List.find (fun proto => bool_decide (is_Some (d proto))) [Stun.AF_INET; Stun.AF_INET6].

(** [iface.startswith(("lo", "docker"))] *)
Definition is_skipped (iface : string) : bool :=
  String.prefix "lo" iface || String.prefix "docker" iface.

(** The [for iface in netifaces.interfaces()] loop; [None] when it ends
    without a [return]. *)
Fixpoint scan_interfaces (ni : Netifaces) (ifaces : list string) : result (option string) :=
  match ifaces with
  | [] => inr None
  | iface :: rest =>
      if negb (is_skipped iface) then
        rbind (ifaddresses ni iface) (fun addrs =>
        match first_proto addrs with
        | Some proto => rbind (first_addr addrs proto) (fun a => inr (Some a))
        | None => scan_interfaces ni rest
        end)
      else scan_interfaces ni rest
  end.

(** The [try] block of [__get_default_ip]; [None] when it ends without a
    [return]. *)
Definition get_default_ip_try (ni : Netifaces) : result (option string) :=
  rbind (gateways ni) (fun gws =>
  match gws with
  | Some default =>
      match first_proto default with
      | Some proto =>
          match default proto with
          | Some iface =>
              rbind (ifaddresses ni iface) (fun addrs =>
              rbind (first_addr addrs proto) (fun a => inr (Some a)))
          | None => inl (MkExn KeyError (Stun.AddressFamily_name proto))
          end
      | None => rbind (interfaces ni) (scan_interfaces ni)
      end
  | None => rbind (interfaces ni) (scan_interfaces ni)
  end).

(** [Live777Runner.__get_default_ip] *)
Definition get_default_ip : M string :=
  emit QueryNetifaces;;
  h <- history;;
  match get_default_ip_try (netifaces_result env h) with
  | inr (Some a) => ret a
  | inr None => ret ""
  | inl ex => emit (LogError "Can't get default IP: %s");; ret ""
  end.

(** [Live777Runner.__get_netcfg] *)
Definition get_netcfg (fuel : nat) : M Netcfg :=
  ip <- get_default_ip;;
  let src_ip := if bool_decide (ip = "") then "0.0.0.0" else ip in
  info <- lift_stun (Stun.get_info (stun_env env) fuel src_ip 0);;
  ret (Netcfg_of_info info).

(** ** Rendering the command line *)

(** [str(value)] for a member of [StunNatType]. *)
Definition str_StunNatType (t : Stun.StunNatType) : string :=
  "StunNatType." +:+
  match t with
  | Stun.ERROR => "ERROR"
  | Stun.BLOCKED => "BLOCKED"
  | Stun.OPEN_INTERNET => "OPEN_INTERNET"
  | Stun.SYMMETRIC_UDP_FW => "SYMMETRIC_UDP_FW"
  | Stun.FULL_CONE_NAT => "FULL_CONE_NAT"
  | Stun.RESTRICTED_NAT => "RESTRICTED_NAT"
  | Stun.RESTRICTED_PORT_NAT => "RESTRICTED_PORT_NAT"
  | Stun.SYMMETRIC_NAT => "SYMMETRIC_NAT"
  | Stun.CHANGED_ADDR_ERROR => "CHANGED_ADDR_ERROR"
  end.

(** [(key, str(value))] for the items of [dataclasses.asdict(netcfg)]. *)
Definition asdict_str (netcfg : Netcfg) : list (string * string) :=
  [("nat_type", str_StunNatType (nat_type netcfg));
   ("src_ip", src_ip netcfg);
   ("ext_ip", ext_ip netcfg);
   ("stun_host", stun_host netcfg);
   ("stun_ip", stun_ip netcfg);
   ("stun_port", str_int (stun_port netcfg))].

(** The dictionary display that builds [placeholders]: later keys override
    earlier ones. *)
Definition placeholders (netcfg : Netcfg) : gmap string string :=
  foldl (fun d kv => <[fst kv := snd kv]> d)
    (<["o_stun_server" :=
         "--stun-server=" +:+ stun_ip netcfg +:+ ":" +:+ str_int (stun_port netcfg)]> ∅)
    (asdict_str netcfg).

(** [l.remove(x)] for an [x] that occurs in [l]: the first occurrence goes. *)
Fixpoint list_remove (x : string) (l : list string) : list string :=
  match l with
  | [] => []
  | y :: l' => if bool_decide (y = x) then l' else y :: list_remove x l'
  end.

(** [while x in l: l.remove(x)], followed for at most [fuel] iterations. *)
Fixpoint remove_while (fuel : nat) (x : string) (l : list string) : list string :=
  match fuel with
  | O => l
  | S fuel' =>
      if bool_decide (x ∈ l) then remove_while fuel' x (list_remove x l) else l
  end.

(** The list comprehension that formats every part of [cmd] with the
    placeholders. *)
Fixpoint format_all (parts : list string) (kw : gmap string string) : result (list string) :=
  match parts with
  | [] => inr []
  | part :: rest =>
      rbind (format part kw) (fun r =>
      rbind (format_all rest kw) (fun rs => inr (r :: rs)))
  end.

(** The argv computed by [__start_live777_proc] from the template. *)
Definition render_cmd (template : list string) (netcfg : Netcfg) : result (list string) :=
  let kw := placeholders netcfg in
  if bool_decide (ext_ip netcfg = "") then
    format_all (remove_while (length template) "{o_stun_server}" template)
               (<["o_stun_server" := ""]> kw)
  else format_all template kw.

(** The argv of the child at history [h]. For a template within the modelled
    fragment of [str.format] it is [render_cmd]. For a template outside of
    it (a field with a conversion other than [!s], a format spec, an
    attribute or an index), what the statements that compute [cmd] give, an
    argv or an exception, is left to the environment: [format_result] is
    unconstrained. *)
Definition child_argv (h : list Event) (netcfg : Netcfg) : result (list string) :=
  match render_cmd (cmd config) netcfg with
  | inl ex =>
      if bool_decide (exn_class ex = NotModelled)
      then format_result env h (cmd config) netcfg
      else inl ex
  | inr argv => inr argv
  end.

(** The environment of the child. *)
Definition child_environ (netcfg : Netcfg) : list (string * string) :=
  [("LIVE777_STUN_URL",
    "stun:" +:+ stun_host netcfg +:+ ":" +:+ str_int (stun_port netcfg));
   ("LIVE777_VIDEO_SOURCE", "kvmd::ustreamer::h264");
   ("LIVE777_AUDIO_SOURCE", "hw:tc358743,0")].

(** ** The child process *)

(** Modelled from the spec: [aioproc.run_process] is not part of the sources.
    The child is launched as a subprocess with the rendered argv and
    environment; the launch either fails or yields the new process. *)
Definition run_process (argv : list string) (environ : list (string * string)) : M Z :=
  emit (RunProcess argv environ);;
  h <- history;;
  pid <- lift (run_process_result env h);;
  modify (fun w => set_children (pid :: children w) w);;
  ret pid.

(** Modelled from the spec: [aioproc.kill_process] is not part of the sources.
    Per the kill protocol the child is terminated, given [wait] seconds to
    exit, killed and always reaped; it does not raise. *)
Definition kill_process (pid : Z) (wait : Z) : M unit :=
  emit (KillProcess pid wait);;
  modify (fun w => set_children (filter (fun p => p <> pid) (children w)) w).

(** [Live777Runner.__kill_live777_proc] *)
Definition kill_live777_proc : M unit :=
  w <- get;;
  match live777_proc w with
  | Some pid => kill_process pid 5
  | None => ret tt
  end;;
  modify (set_live777_proc None).

(** [Live777Runner.__start_live777_proc] *)
Definition start_live777_proc (netcfg : Netcfg) : M unit :=
  w <- get;;
  match live777_proc w with
  | Some _ => raise (MkExn AssertionError "")
  | None =>
      h <- history;;
      argv <- lift (child_argv h netcfg);;
      pid <- run_process argv (child_environ netcfg);;
      modify (set_live777_proc (Some pid));;
      emit (LogInfo "Started Live777 pid=%d: %s")
  end.

(** ** The supervisory task *)

(** [asyncio.create_task(self.__live777_task_loop(netcfg))]: a new task
    enters the event loop, at the head of its loop. *)
Definition create_task (netcfg : Netcfg) : M nat :=
  w <- get;;
  let tid := next_task w in
  emit (CreateTask tid netcfg);;
  modify (fun w => set_next_task (S tid)
                     (set_tasks ({| task_id := tid; task_netcfg := netcfg;
                                    task_tailing := false |} :: tasks w) w));;
  ret tid.

(** [task.cancel()] followed by [await asyncio.gather(task,
    return_exceptions=True)]: [CancelledError] is raised in the task at the
    point where it waits; the loop catches it and breaks (or, in the handler,
    lets it end the task), and [gather] returns once the task is finished,
    the cancellation being returned, not raised. The task touches neither
    handle on its way out. *)
Definition cancel_and_gather (tid : nat) : M unit :=
  emit (CancelTask tid);;
  emit (GatherTask tid);;
  modify (fun w => set_tasks (filter (fun t => task_id t <> tid) (tasks w)) w).

(** [Live777Runner.__start_live777]. The decorator [aiotools.atomic_fg] is
    not part of the sources. Modelled from the spec: start and stop are
    atomic in the foreground, so each call is one step of the machine. *)
Definition start_live777 (netcfg : Netcfg) : M unit :=
  emit (Enter_start_live777 netcfg);;
  emit (LogInfo "Starting Live777 ...");;
  w <- get;;
  match live777_task w with
  | Some _ => raise (MkExn AssertionError "")
  | None =>
      tid <- create_task netcfg;;
      modify (set_live777_task (Some tid))
  end.

(** [Live777Runner.__stop_live777] *)
Definition stop_live777 : M unit :=
  emit Enter_stop_live777;;
  w <- get;;
  match live777_task w with
  | Some tid =>
      emit (LogInfo "Stopping Live777 ...");;
      cancel_and_gather tid
  | None => ret tt
  end;;
  kill_live777_proc;;
  modify (set_live777_task None).

Definition set_tailing (tid : nat) (b : bool) : M unit :=
  modify (fun w =>
    set_tasks (map (fun t => if bool_decide (task_id t = tid)
                             then {| task_id := tid; task_netcfg := task_netcfg t;
                                     task_tailing := b |}
                             else t) (tasks w)) w).

(** The [except Exception] handler of [__live777_task_loop]. *)
Definition task_handler : M unit :=
  w <- get;;
  match live777_proc w with
  | Some _ => emit (LogError "Unexpected Live777 error: pid=%d")
  | None => emit (LogError "Can't start Live777")
  end;;
  kill_live777_proc;;
  sleep 1.

(** One pass of [__live777_task_loop] from the head of the loop to the point
    where it waits for the output of the child it launched; when the launch
    fails, through the handler back to the head. *)
Definition live777_task_launch (t : Task) : M unit :=
  try_except
    (start_live777_proc (task_netcfg t);;
     w <- get;;
     match live777_proc w with
     | None => raise (MkExn AssertionError "")
     | Some _ => set_tailing (task_id t) true
     end)
    (fun _ => task_handler).

(** The rest of the pass, when [aioproc.log_stdout_infinite] comes back: the
    child died, which raises [RuntimeError] into the handler. *)
Definition live777_task_died (t : Task) : M unit :=
  set_tailing (task_id t) false;;
  try_except
    (raise (MkExn RuntimeError "Live777 unexpectedly died"))
    (fun _ => task_handler).

(** ** The main loop *)

(** The [for retry in range(...)] loop of [__run]: [i] is the value [retry]
    takes in the next pass, [retry] and [netcfg] the current values of the
    two variables. *)
Fixpoint probe_loop (fuel : nat) (n : nat) (i : nat) (retry : nat) (netcfg : Netcfg)
  : M (nat * Netcfg) :=
  match n with
  | O => ret (retry, netcfg)
  | S n' =>
      netcfg <- get_netcfg fuel;;
      if negb (bool_decide (ext_ip netcfg = "")) then ret (i, netcfg)
      else
        sleep (check_retries_delay config);;
        probe_loop fuel n' (S i) i netcfg
  end.

(** Lines 95-103 of [__run]: the probe with its retries. *)
Definition run_probe (fuel : nat) (prev_netcfg : option Netcfg) : M Netcfg :=
  r <- probe_loop fuel
         (match prev_netcfg with
          | None => 1%nat
          | Some _ => Z.to_nat (check_retries config)
          end) 0%nat 0%nat Netcfg_default;;
  let '(retry, netcfg) := r in
  (if negb (bool_decide (retry = 0%nat)) && negb (bool_decide (ext_ip netcfg = ""))
   then emit (LogInfo "I'm fine, continue working ...")
   else ret tt);;
  ret netcfg.

(** Lines 105-113 of [__run]: the reaction to the probed configuration; it
    returns the new value of [prev_netcfg]. *)
Definition run_react (prev_netcfg : option Netcfg) (netcfg : Netcfg) : M (option Netcfg) :=
  if bool_decide (Some netcfg <> prev_netcfg) then
    emit (LogInfo "Got new %s");;
    (if negb (bool_decide (src_ip netcfg = "")) then
       stop_live777;;
       start_live777 netcfg
     else
       emit (LogError "Empty src_ip; stopping Live777 ...");;
       stop_live777);;
    ret (Some netcfg)
  else ret prev_netcfg.

(** One pass of the [while True] loop of [__run]. *)
Definition run_iteration (fuel : nat) (prev_netcfg : option Netcfg) : M (option Netcfg) :=
  netcfg <- run_probe fuel prev_netcfg;;
  prev_netcfg <- run_react prev_netcfg netcfg;;
  sleep (inject_Z (check_interval config));;
  ret prev_netcfg.

(** [Live777Runner.__run], followed for [iterations] passes. *)
Fixpoint run_loop (iterations fuel : nat) (prev_netcfg : option Netcfg) : M unit :=
  match iterations with
  | O => out_of_fuel
  | S k =>
      prev_netcfg <- run_iteration fuel prev_netcfg;;
      run_loop k fuel prev_netcfg
  end.

Definition run (iterations fuel : nat) : M unit :=
  emit (LogInfo "Probing the network first time ...");;
  run_loop iterations fuel None.

(** ** The runner as a transition system

    The moves of the main loop (a whole pass, or a start or a stop on its
    own, as on shutdown) interleaved with the moves of the supervisory tasks
    that are alive. *)
Inductive Label :=
| DoIteration (fuel : nat) (prev_netcfg : option Netcfg)
| DoStart (netcfg : Netcfg)
| DoStop
| TaskLaunch (tid : nat)
| TaskDied (tid : nat).

Definition find_task (tid : nat) (tailing : bool) (w : World) : option Task :=
  List.find (fun t => bool_decide (task_id t = tid) && bool_decide (task_tailing t = tailing))
            (tasks w).

Definition step (l : Label) (w : World) : World :=
  match l with
  | DoIteration fuel prev_netcfg => snd (run_iteration fuel prev_netcfg w)
  | DoStart netcfg => snd (start_live777 netcfg w)
  | DoStop => snd (stop_live777 w)
  | TaskLaunch tid =>
      match find_task tid false w with
      | Some t => snd (live777_task_launch t w)
      | None => w
      end
  | TaskDied tid =>
      match find_task tid true w with
      | Some t => snd (live777_task_died t w)
      | None => w
      end
  end.

Definition steps (ls : list Label) (w : World) : World :=
  foldl (fun w l => step l w) w ls.

End WithEnv.

(** ** Observations *)

(** The calls of [__start_live777] and [__stop_live777] in a history, in the
    order they were made. *)
Inductive Call :=
| CallStart (netcfg : Netcfg)
| CallStop.

Fixpoint lifecycle_calls (h : list Event) : list Call :=
  match h with
  | [] => []
  | Enter_start_live777 netcfg :: h' => lifecycle_calls h' ++ [CallStart netcfg]
  | Enter_stop_live777 :: h' => lifecycle_calls h' ++ [CallStop]
  | _ :: h' => lifecycle_calls h'
  end.

(** The probes of the network in a history: each call of [__get_netcfg]
    starts with one query of the interfaces. *)
Fixpoint probes (h : list Event) : nat :=
  match h with
  | [] => 0
  | QueryNetifaces :: h' => S (probes h')
  | _ :: h' => probes h'
  end.

(** The delays slept by the runner, latest first. *)
Fixpoint slept (h : list Event) : list Q :=
  match h with
  | [] => []
  | Sleep d :: h' => d :: slept h'
  | _ :: h' => slept h'
  end.

(** The messages logged at level info, latest first. *)
Fixpoint infos (h : list Event) : list string :=
  match h with
  | [] => []
  | LogInfo fmt :: h' => fmt :: infos h'
  | _ :: h' => infos h'
  end.

(** The two handles track what exists: the unfinished supervisory tasks are
    exactly the one [live777_task] refers to, if any, and the child
    processes not yet reaped are exactly the one [live777_proc] refers to,
    if any. *)
Definition tracked (w : World) : Prop :=
  map task_id (tasks w) = option_list (live777_task w)
  /\ children w = option_list (live777_proc w).

(** The handles and the supervisory tasks agree: besides [tracked], a child
    is held only while a task is, and a task waits on the output of a child
    exactly when the runner holds one. *)
Definition supervised (w : World) : Prop :=
  tracked w
  /\ (live777_task w = None -> live777_proc w = None)
  /\ (forall t, t ∈ tasks w ->
       task_tailing t = bool_decide (is_Some (live777_proc w))).

(** What [__stop_live777] does to the outside from [w], latest first: the
    kill of the child [live777_proc] refers to, before it the cancellation
    of the task [live777_task] refers to and the wait for its end. *)
Definition stop_events (w : World) : list Event :=
  match live777_proc w with
  | Some pid => [KillProcess pid 5]
  | None => []
  end
  ++ match live777_task w with
     | Some tid => [GatherTask tid; CancelTask tid; LogInfo "Stopping Live777 ..."]
     | None => []
     end
  ++ [Enter_stop_live777].

(** [m] maintains the invariant [P] of the world. *)
Definition maintains (P : World -> Prop) {A} (m : M A) : Prop :=
  forall w, P w -> P (snd (m w)).

End Live777Runner.

(* ===================================================================== *)
(** * Scenarios                                                           *)
(* ===================================================================== *)

Module Scenario.
Import Stun.

(** A 12-byte transaction token. *)
Definition tok : bytes :=
  [Byte.x01; Byte.x02; Byte.x03; Byte.x04; Byte.x05; Byte.x06;
   Byte.x07; Byte.x08; Byte.x09; Byte.x0a; Byte.x0b; Byte.x0c].

(** A resolver that answers every name with itself, as an IPv4 address. *)
Definition resolve_self (h : list Event) : result (list AddrInfo) :=
  match h with
  | Getaddrinfo host p :: _ =>
      inr [{| ai_family := AF_INET;
              ai_addr := {| sa_ip := host; sa_port := p; sa_rest := [] |} |}]
  | _ => inl (MkExn OSError "[Errno -2] Name or service not known")
  end.

(** A network on which no answer ever arrives. *)
Definition silent : Env :=
  {| getaddrinfo_result := resolve_self;
     token_bytes_result := fun _ => tok;
     socket_result := fun _ => None;
     sendto_result := fun _ => None;
     recvfrom_result := fun _ => inl (MkExn OSError "timed out") |}.

(** A resolver that fails on every name, on every attempt. *)
Definition no_dns : Env :=
  {| getaddrinfo_result :=
       fun _ => inl (MkExn OSError "[Errno -3] Temporary failure in name resolution");
     token_bytes_result := fun _ => tok;
     socket_result := fun _ => None;
     sendto_result := fun _ => None;
     recvfrom_result := fun _ => inl (MkExn OSError "timed out") |}.

(** A server whose answers pass the header checks for the transaction id
    made from [tok], but whose body is a MAPPED-ADDRESS attribute that
    announces 8 bytes of value and carries 2. *)
Definition truncated_attribute : Env :=
  {| getaddrinfo_result := resolve_self;
     token_bytes_result := fun _ => tok;
     socket_result := fun _ => None;
     sendto_result := fun _ => None;
     recvfrom_result :=
       fun _ => inr ([Byte.x01; Byte.x01; Byte.x00; Byte.x06] ++ (magic ++ tok)
                       ++ [Byte.x00; Byte.x01; Byte.x00; Byte.x08; Byte.x00; Byte.x01]) |}.

(** A resolver that finds the STUN server under IPv6 only. *)
Definition other_family : Env :=
  {| getaddrinfo_result :=
       fun h =>
         match h with
         | Getaddrinfo "stun.example" p :: _ =>
             inr [{| ai_family := AF_INET6;
                     ai_addr := {| sa_ip := "2001:db8::5"; sa_port := p; sa_rest := [0; 0] |} |}]
         | _ => resolve_self h
         end;
     token_bytes_result := fun _ => tok;
     socket_result := fun _ => None;
     sendto_result := fun _ => None;
     recvfrom_result := fun _ => inl (MkExn OSError "timed out") |}.

(** The local address cannot be bound. *)
Definition bind_fails : Env :=
  {| getaddrinfo_result := resolve_self;
     token_bytes_result := fun _ => tok;
     socket_result :=
       fun h =>
         match h with
         | Bind _ :: _ => Some (MkExn OSError "[Errno 99] Cannot assign requested address")
         | _ => None
         end;
     sendto_result := fun _ => None;
     recvfrom_result := fun _ => inl (MkExn OSError "timed out") |}.

(** A server that answers every request of the transaction id made from
    [tok] with a MAPPED-ADDRESS attribute: [203.0.113.7], port 3478. *)
Definition answering : Env :=
  {| getaddrinfo_result := resolve_self;
     token_bytes_result := fun _ => tok;
     socket_result := fun _ => None;
     sendto_result := fun _ => None;
     recvfrom_result :=
       fun _ => inr ([Byte.x01; Byte.x01; Byte.x00; Byte.x0c] ++ (magic ++ tok)
                       ++ encode_attr 1 [Byte.x00; Byte.x01; Byte.x0d; Byte.x96;
                                         Byte.xcb; Byte.x00; Byte.x71; Byte.x07]) |}.

(** A new client for [stun.example:3478] with the given number of retries. *)
Definition fresh (retries : Z) : World :=
  {| self := init "stun.example" 3478 (5 # 1) retries (1 # 1); trace := [] |}.

(** A client for [stun.example:3478] with the given number of retries, its
    socket open and [192.0.2.1] as the server address in use. *)
Definition probing (retries : Z) : World :=
  {| self := set_sock (Some AF_INET)
               (set_stun_ip "192.0.2.1" (init "stun.example" 3478 (5 # 1) retries (1 # 1)));
     trace := [] |}.

(** The IPv6 address [2001:db8::1]. *)
Definition addr6 : bytes :=
  [Byte.x20; Byte.x01; Byte.x0d; Byte.xb8; Byte.x00; Byte.x00; Byte.x00; Byte.x00;
   Byte.x00; Byte.x00; Byte.x00; Byte.x00; Byte.x00; Byte.x00; Byte.x00; Byte.x01].

(** The value of a XOR-MAPPED-ADDRESS attribute carrying [2001:db8::1], port
    3478, as a server computes it for the transaction id [tok]. *)
Definition xor_mapped6 : bytes :=
  [Byte.x00; Byte.x02] ++ spec_xor [Byte.x0d; Byte.x96] tok ++ spec_xor addr6 tok.

End Scenario.

(** ** The runner *)

Module RunnerScenario.
Import Live777Runner.

(** No interface can be enumerated. *)
Definition no_netifaces : Netifaces :=
  {| gateways := inl (MkExn OSError "netifaces: cannot read the routing table");
     interfaces := inl (MkExn OSError "netifaces: cannot list interfaces");
     ifaddresses := fun _ => inl (MkExn ValueError "You must specify a valid interface name.") |}.

(** What the formatter says of a format spec it does not know. *)
Definition unsupported_format : Exn := MkExn ValueError "Invalid format specifier".

(** A host without network: address discovery fails and no STUN answer
    arrives; every launch of the child succeeds, with pid 4242. *)
Definition offline : Env :=
  {| stun_env := Scenario.silent;
     netifaces_result := fun _ => no_netifaces;
     run_process_result := fun _ => inr 4242;
     format_result := fun _ _ _ => inl unsupported_format |}.

(** One address of the given family, and none of the other. *)
Definition only (fam : Stun.AddressFamily) (a : string)
  : Stun.AddressFamily -> option (list (option string)) :=
  fun f => if bool_decide (f = fam) then Some [Some a] else None.

(** A host with no default route: a loopback interface, a container bridge
    and a wireless interface, one IPv4 address each. *)
Definition laptop : Netifaces :=
  {| gateways := inr None;
     interfaces := inr ["lo"; "docker0"; "wlan0"];
     ifaddresses :=
       fun iface =>
         if bool_decide (iface = "lo") then inr (only Stun.AF_INET "127.0.0.1")
         else if bool_decide (iface = "docker0") then inr (only Stun.AF_INET "172.17.0.1")
         else if bool_decide (iface = "wlan0") then inr (only Stun.AF_INET "10.0.0.2")
         else inl (MkExn ValueError "You must specify a valid interface name.") |}.

(** A host whose IPv4 default route leaves through [eth0], which has an IPv6
    address only; [wlan0] has an IPv4 address. *)
Definition routed : Netifaces :=
  {| gateways :=
       inr (Some (fun f => if bool_decide (f = Stun.AF_INET) then Some "eth0" else None));
     interfaces := inr ["lo"; "eth0"; "wlan0"];
     ifaddresses :=
       fun iface =>
         if bool_decide (iface = "lo") then inr (only Stun.AF_INET "127.0.0.1")
         else if bool_decide (iface = "eth0") then inr (only Stun.AF_INET6 "2001:db8::2")
         else if bool_decide (iface = "wlan0") then inr (only Stun.AF_INET "10.0.0.2")
         else inl (MkExn ValueError "You must specify a valid interface name.") |}.

(** A host on which the child cannot be launched; the STUN server answers. *)
Definition no_binary : Env :=
  {| stun_env := Scenario.answering;
     netifaces_result := fun _ => laptop;
     run_process_result :=
       fun _ => inl (MkExn OSError "[Errno 2] No such file or directory: 'live777'");
     format_result := fun _ _ _ => inl unsupported_format |}.

(** A host with the misleading default route, otherwise as [offline]. *)
Definition misrouted : Env :=
  {| stun_env := Scenario.silent;
     netifaces_result := fun _ => routed;
     run_process_result := fun _ => inr 4242;
     format_result := fun _ _ _ => inl unsupported_format |}.

(** A runner that is told not to probe again. *)
Definition never_recheck : Config :=
  {| check_interval := 30; check_retries := 0; check_retries_delay := 1 # 1;
     cmd := ["live777"; "{o_stun_server}"; "--from={src_ip}"] |}.

Definition config : Config :=
  {| check_interval := 30; check_retries := 3; check_retries_delay := 1 # 1;
     cmd := ["live777"; "{o_stun_server}"; "--from={src_ip}"] |}.

(** A runner just constructed, for a STUN client with two retries. *)
Definition fresh : World := init "stun.example" 3478 (5 # 1) 2 (1 # 1).

(** A configuration with an external address, and one without. *)
Definition reachable : Netcfg :=
  {| nat_type := Stun.FULL_CONE_NAT; src_ip := "10.0.0.2"; ext_ip := "203.0.113.7";
     stun_host := "stun.example"; stun_ip := "192.0.2.1"; stun_port := 3478 |}.

Definition unreachable : Netcfg :=
  {| nat_type := Stun.BLOCKED; src_ip := "10.0.0.2"; ext_ip := "";
     stun_host := "stun.example"; stun_ip := "192.0.2.1"; stun_port := 3478 |}.

End RunnerScenario.

(* ===================================================================== *)
(** * Theorems: the STUN wire format                                      *)
(* ===================================================================== *)

Section WireFormat.
Import Stun.

Lemma trans_xor_plain (data : bytes) : trans_xor data [] = data.
Proof. reflexivity. Qed.

(** With the 16-byte [trans_id] that [__make_request] passes (the magic
    cookie followed by a 12-byte token), two port bytes are XORed with the
    first half of the cookie. *)
Lemma trans_xor_port (a b : byte) (token : bytes) :
  trans_xor [a; b] (magic ++ token) = [byte_xor a Byte.x21; byte_xor b Byte.x12].
Proof. reflexivity. Qed.

(** ... and four address bytes with the cookie, as the specification says. *)
Lemma trans_xor_ipv4 (a b c d : byte) (token : bytes) :
  trans_xor [a; b; c; d] (magic ++ token) = spec_xor [a; b; c; d] token.
Proof. reflexivity. Qed.

(** Sixteen address bytes, however, are XORed with the cookie twice and
    then the first eight bytes of the token. *)
Lemma trans_xor_ipv6 (data token : bytes) :
  length data = 16%nat ->
  length token = 12%nat ->
  trans_xor data (magic ++ token) = zip_with byte_xor data (magic ++ magic ++ take 8 token).
Proof.
  intros Hdata Htoken.
  do 17 (destruct data as [| ? data]; try discriminate Hdata).
  do 13 (destruct token as [| ? token]; try discriminate Htoken).
  reflexivity.
Qed.

(** The datagram is the six bytes of [">HHH"], then [trans_id], then the
    payload. *)
Lemma request_message_length (trans_id req : bytes) :
  length (request_message trans_id req) = (6 + length trans_id + length req)%nat.
Proof.
  unfold request_message. rewrite !length_app. cbn [length be_bytes app]. lia.
Qed.

(** C2, the code at the first Change-Request of a probe: the datagram is 30
    bytes for an 8-byte payload. The header is 22 bytes long: the format
    [">HHH"] writes [21 12] after the length, and the 16-byte [trans_id] that
    follows starts with the magic cookie again, so offsets 4..8 hold
    [21 12 21 12], the token sits at 10..22 and the payload starts at 22. *)
Theorem request_header_is_22_bytes :
  exists msg,
    sent_messages
      (trace (snd (make_request Scenario.silent "Change request [ext_ip == src_ip]"
                     (inr "192.0.2.1") change_ip_and_port (Scenario.probing 1))))
      = [(msg, ("192.0.2.1", 3478))]
    /\ length msg = 30%nat
    /\ msg <> spec_request Scenario.tok change_ip_and_port
    /\ slice 0 4 msg = [Byte.x00; Byte.x01; Byte.x00; Byte.x08]
    /\ slice 4 8 msg = [Byte.x21; Byte.x12; Byte.x21; Byte.x12]
    /\ slice 4 8 msg <> magic
    /\ slice 8 20 msg <> Scenario.tok
    /\ slice 10 22 msg = Scenario.tok
    /\ drop 20 msg <> change_ip_and_port
    /\ drop 22 msg = change_ip_and_port.
Proof.
  eexists. split; [vm_compute; reflexivity |].
  repeat split; try reflexivity; vm_compute; discriminate.
Qed.

(** C6, the code at an IPv6 XOR-MAPPED-ADDRESS: the attribute carries
    [2001:db8::1], port 3478, masked with the magic cookie followed by the
    12-byte transaction id. [__trans_xor] prepends the cookie to a [trans_id]
    that already starts with it, so bytes 4..16 of the address are unmasked
    with the wrong bytes: the port is right, the address is not. Without the
    XOR (MAPPED-ADDRESS) the same bytes decode as they are. *)
Theorem xor_mapped_ipv6_is_misdecoded :
  parse_address Scenario.xor_mapped6 (magic ++ Scenario.tok)
    = inr {| ip := "2001:db8:2010:a746:404:40c:c0c:c05"; port := 3478 |}
  /\ str_IPv6Address (int_from_bytes (spec_xor (slice 4 20 Scenario.xor_mapped6) Scenario.tok))
    = "2001:db8::1"
  /\ trans_xor (slice 4 20 Scenario.xor_mapped6) (magic ++ Scenario.tok)
    <> spec_xor (slice 4 20 Scenario.xor_mapped6) Scenario.tok
  /\ parse_address ([Byte.x00; Byte.x02; Byte.x0d; Byte.x96] ++ Scenario.addr6) []
    = inr {| ip := "2001:db8::1"; port := 3478 |}.
Proof.
  repeat split; try reflexivity. vm_compute. discriminate.
Qed.

End WireFormat.

(* ===================================================================== *)
(** * Theorems: the resolution retry                                      *)
(* ===================================================================== *)

Section Resolver.
Import Stun.
Context (env : Env).

Lemma world_eta (w : World) : {| self := self w; trace := trace w |} = w.
Proof. destruct w; reflexivity. Qed.

(** One pass of the loop: the attempt, then either the result, the re-raised
    failure, or a sleep and the next pass with one retry less. *)
Lemma retried_loop_S fuel host port r w :
  retried_loop env (S fuel) host port r w =
  let w1 := {| self := self w; trace := Getaddrinfo host port :: trace w |} in
  match getaddrinfo_result env (trace w1) with
  | inr l => (Ret l, w1)
  | inl e =>
      if bool_decide (r - 1 = 0) then (Raise e, w1)
      else retried_loop env fuel host port (r - 1)
             {| self := self w;
                trace := Sleep (self_retries_delay (self w)) :: trace w1 |}
  end.
Proof.
  cbn [retried_loop].
  unfold bind, try_except, getaddrinfo, emit, history, lift, ret, raise, get_self, sleep.
  cbn. destruct (getaddrinfo_result env _) as [e | l]; cbn; [| reflexivity].
  destruct (bool_decide (r - 1 = 0)); reflexivity.
Qed.

Lemma resolver_attempts_SS host port d n :
  resolver_attempts host port d (S (S n)) =
  Getaddrinfo host port :: Sleep d :: resolver_attempts host port d (S n).
Proof. reflexivity. Qed.

Lemma resolver_attempts_snoc host port d n :
  resolver_attempts host port d (S (S n)) =
  resolver_attempts host port d (S n) ++ [Sleep d; Getaddrinfo host port].
Proof.
  induction n as [| n IH]; [reflexivity |].
  rewrite resolver_attempts_SS, IH at 1.
  rewrite (resolver_attempts_SS host port d n). reflexivity.
Qed.

Lemma resolver_spins_snoc host port d n :
  resolver_spins host port d (S n) =
  resolver_spins host port d n ++ [Sleep d; Getaddrinfo host port].
Proof.
  induction n as [| n IH]; [reflexivity |].
  change (resolver_spins host port d (S (S n)))
    with (Sleep d :: Getaddrinfo host port :: resolver_spins host port d (S n)).
  rewrite IH at 1. reflexivity.
Qed.

(** With at least one retry left the loop ends within that many attempts. *)
Lemma retried_loop_bounded fuel : forall host port r w,
  1 <= r -> (Z.to_nat r <= fuel)%nat ->
  exists n o w',
    retried_loop env fuel host port r w = (o, w')
    /\ (1 <= n <= Z.to_nat r)%nat
    /\ self w' = self w
    /\ trace w' = resolver_attempts host port (self_retries_delay (self w)) n ++ trace w
    /\ (forall k, (S k < n)%nat ->
          exists e, getaddrinfo_result env
                      (resolver_attempts host port (self_retries_delay (self w)) (S k)
                         ++ trace w) = inl e)
    /\ match o with
       | Ret l => getaddrinfo_result env (trace w') = inr l
       | Raise e => n = Z.to_nat r /\ getaddrinfo_result env (trace w') = inl e
       | OutOfFuel => False
       end.
Proof.
  induction fuel as [| fuel IH]; intros host port r w Hr Hfuel; [lia |].
  rewrite retried_loop_S. cbn zeta. cbn [trace].
  destruct (getaddrinfo_result env (Getaddrinfo host port :: trace w)) as [e | l] eqn:Hres.
  - case_bool_decide as Hlast.
    + exists 1%nat, (Raise e), {| self := self w; trace := Getaddrinfo host port :: trace w |}.
      split_and!; try reflexivity; try exact Hres; try (intros k Hk; lia); cbn; lia.
    + destruct (IH host port (r - 1)
                  {| self := self w;
                     trace := Sleep (self_retries_delay (self w))
                                :: Getaddrinfo host port :: trace w |})
        as (n & o & w' & Hrun & Hn & Hself & Htrace & Hearlier & Hout); [lia | lia |].
      cbn [self trace] in *.
      exists (S n), o, w'. split; [exact Hrun |].
      destruct n as [| n]; [lia |].
      repeat split; try lia; try assumption.
      * rewrite Htrace, resolver_attempts_snoc, <- app_assoc. reflexivity.
      * intros k Hk. destruct k as [| k]; [exists e; exact Hres |].
        destruct (Hearlier k) as [e' He']; [lia |]. exists e'.
        rewrite resolver_attempts_snoc, <- app_assoc. exact He'.
      * destruct o as [l | e' |]; [exact Hout | | exact Hout].
        destruct Hout as [Hn' He']. split; [lia | exact He'].
  - exists 1%nat, (Ret l), {| self := self w; trace := Getaddrinfo host port :: trace w |}.
    split_and!; try reflexivity; try exact Hres; try (intros k Hk; lia); cbn; lia.
Qed.

(** Without a retry left to count down to zero, a resolver that keeps
    failing keeps the loop going for as long as it is followed. *)
Lemma retried_loop_spins fuel : forall host port r w,
  r <= 0 ->
  (forall h, exists e, getaddrinfo_result env h = inl e) ->
  retried_loop env fuel host port r w =
  (OutOfFuel,
   {| self := self w;
      trace := resolver_spins host port (self_retries_delay (self w)) fuel ++ trace w |}).
Proof.
  induction fuel as [| fuel IH]; intros host port r w Hr Hfail.
  - cbn. unfold out_of_fuel. rewrite world_eta. reflexivity.
  - rewrite retried_loop_S. cbn zeta. cbn [trace].
    destruct (Hfail (Getaddrinfo host port :: trace w)) as [e ->].
    case_bool_decide as Hlast; [lia |].
    rewrite IH by (first [lia | assumption]). cbn [self trace].
    rewrite resolver_spins_snoc, <- app_assoc. reflexivity.
Qed.

(** C10. [__retried_getaddrinfo_udp] with [retries >= 1] ends within
    [retries] attempts, separated by sleeps of [retries_delay]: every attempt
    before the last one failed, and it returns the answer of the last attempt
    or, after [retries] attempts, re-raises its failure. With [retries <= 0]
    and a resolver that fails every time, the counter is decremented past
    zero without ever being equal to it: however long the loop is followed,
    it has neither returned nor raised, and has made that many attempts. *)
Theorem retried_getaddrinfo_udp_needs_positive_retries host port w :
  let retries := self_retries (self w) in
  let delay := self_retries_delay (self w) in
  (1 <= retries ->
   forall fuel, (Z.to_nat retries <= fuel)%nat ->
   exists n o w',
     retried_getaddrinfo_udp env fuel host port w = (o, w')
     /\ (1 <= n <= Z.to_nat retries)%nat
     /\ trace w' = resolver_attempts host port delay n ++ trace w
     /\ (forall k, (S k < n)%nat ->
           exists e, getaddrinfo_result env
                       (resolver_attempts host port delay (S k) ++ trace w) = inl e)
     /\ match o with
        | Ret l => getaddrinfo_result env (trace w') = inr l
        | Raise e => n = Z.to_nat retries /\ getaddrinfo_result env (trace w') = inl e
        | OutOfFuel => False
        end)
  /\ (retries <= 0 ->
      (forall h, exists e, getaddrinfo_result env h = inl e) ->
      forall fuel,
        retried_getaddrinfo_udp env fuel host port w =
        (OutOfFuel, {| self := self w; trace := resolver_spins host port delay fuel ++ trace w |})).
Proof.
  cbn zeta. split.
  - intros Hr fuel Hfuel.
    destruct (retried_loop_bounded fuel host port (self_retries (self w)) w Hr Hfuel)
      as (n & o & w' & Hrun & Hn & _ & Htrace & Hearlier & Hout).
    exists n, o, w'. repeat split; try assumption; lia.
  - intros Hr Hfail fuel.
    unfold retried_getaddrinfo_udp, bind, get_self.
    apply retried_loop_spins; assumption.
Qed.

End Resolver.

(** With [retries = 0] and no name service, seven passes of the loop leave
    it still running. *)
Lemma retried_getaddrinfo_udp_spins_example :
  fst (Stun.retried_getaddrinfo_udp Scenario.no_dns 7 "stun.example" 3478
         (Scenario.probing 0)) = OutOfFuel
  /\ (exists n o w',
        Stun.retried_getaddrinfo_udp Scenario.silent 3 "stun.example" 3478
          (Scenario.probing 3) = (o, w')
        /\ (1 <= n <= 3)%nat).
Proof.
  split.
  - rewrite (proj2 (retried_getaddrinfo_udp_needs_positive_retries
                      Scenario.no_dns "stun.example" 3478 (Scenario.probing 0))).
    + reflexivity.
    + cbn. lia.
    + intros h. eexists. reflexivity.
  - destruct (proj1 (retried_getaddrinfo_udp_needs_positive_retries
                       Scenario.silent "stun.example" 3478 (Scenario.probing 3))
                ltac:(cbn; lia) 3%nat ltac:(cbn; lia))
      as (n & o & w' & Hrun & Hn & _).
    exists n, o, w'. split; [exact Hrun | exact Hn].
Defined.

(* ===================================================================== *)
(** * Theorems: the request layer                                         *)
(* ===================================================================== *)

Section RequestLayer.
Import Stun.
Context (env : Env).

Lemma pack_HHH_header (n : nat) :
  Z.of_nat n < 65536 ->
  pack_HHH 1 (Z.of_nat n) 8466 =
  inr ([Byte.x00; Byte.x01] ++ be_bytes 2 (N.of_nat n) ++ [Byte.x21; Byte.x12]).
Proof.
  intros Hn. unfold pack_HHH, pack_uint.
  change (256 ^ Z.of_nat 2) with 65536.
  rewrite !bool_decide_eq_true_2 by lia.
  cbn [rbind].
  replace (Z.to_N (Z.of_nat n)) with (N.of_nat n) by lia.
  reflexivity.
Qed.

(** One attempt, step by step. *)
Lemma inner_make_request_eq trans_id req addr w fam :
  self_sock (self w) = Some fam ->
  Z.of_nat (length req) < 65536 ->
  inner_make_request env trans_id req addr w =
  let w1 := log (Sendto (request_message trans_id req) addr) w in
  match sendto_result env (trace w1) with
  | Some ex => (Ret ([], exn_str ex), w1)
  | None =>
      let w2 := log (Recvfrom 2048) w1 in
      match recvfrom_result env (trace w2) with
      | inl ex => (Ret ([], exn_str ex), w2)
      | inr data =>
          let data := take 2048 data in
          if bool_decide (length data < 20)%nat
          then (Ret ([], "Response is too short"), w2)
          else if bool_decide (slice 0 2 data <> [Byte.x01; Byte.x01])
          then (Ret ([], "Invalid response type"), w2)
          else if bool_decide (slice 4 20 data <> trans_id)
          then (Ret ([], "Transaction ID mismatch"), w2)
          else (Ret (drop 20 data, ""), w2)
      end
  end.
Proof.
  intros Hsock Hlen. unfold inner_make_request, bind at 1, get_self at 1.
  rewrite Hsock. unfold bind at 1, lift at 1.
  rewrite pack_HHH_header by assumption. cbn [of_result].
  fold (request_message trans_id req).
  cbv beta iota zeta delta
    [try_except bind sendto recvfrom emit history lift ret raise log trace self].
  destruct (sendto_result env _) as [ex |]; [reflexivity |].
  destruct (recvfrom_result env _) as [ex | data]; [reflexivity |].
  cbn [of_result]. change (Z.to_nat 2048) with 2048%nat.
  repeat (case_bool_decide; [reflexivity |]). reflexivity.
Qed.

Lemma sent_messages_app h1 h2 :
  sent_messages (h1 ++ h2) = sent_messages h1 ++ sent_messages h2.
Proof.
  induction h1 as [| e h1 IH]; [reflexivity |].
  destruct e; cbn; rewrite ?IH; reflexivity.
Qed.

Lemma sleeps_app h1 h2 : sleeps (h1 ++ h2) = sleeps h1 ++ sleeps h2.
Proof.
  induction h1 as [| e h1 IH]; [reflexivity |].
  destruct e; cbn; rewrite ?IH; reflexivity.
Qed.

Lemma replicate_snoc {A} (n : nat) (x : A) : replicate n x ++ [x] = replicate (S n) x.
Proof. induction n as [| n IH]; [reflexivity |]. cbn. rewrite IH. reflexivity. Qed.



(** [__make_request] up to the end of its retry loop. *)
Lemma make_request_eq ctx addr req w :
  make_request env ctx addr req w =
  let w1 := log (TokenBytes 12) w in
  let trans_id := magic ++ token_bytes_result env (trace w1) in
  match request_loop env (Z.to_nat (self_retries (self w))) trans_id req
          (addr_tuple (self w) addr) ([], "") w1 with
  | (Ret (resp, error), w2) =>
      if negb (bool_decide (error = "")) then
        (Ret {| ok := false; ext := None; src := None; changed := None |},
         log (LogError "%s: Can't perform STUN request after %d retries; last error: %s"
                [ArgStr ctx; ArgInt (self_retries (self w)); ArgStr error]) w2)
      else
        match parse_attrs (length resp) resp trans_id 0 (Z.of_nat (length resp)) ∅ with
        | Ret parsed =>
            (Ret {| ok := true; ext := parsed !! "ext"; src := parsed !! "src";
                    changed := parsed !! "changed" |}, w2)
        | Raise e => (Raise e, w2)
        | OutOfFuel => (OutOfFuel, w2)
        end
  | (Raise e, w2) => (Raise e, w2)
  | (OutOfFuel, w2) => (OutOfFuel, w2)
  end.
Proof.
  unfold make_request.
  cbv beta iota zeta delta [bind get_self token_bytes emit history ret log_error log self trace].
  destruct (request_loop env _ _ _ _ _ _) as [[[resp error] | e |] w2]; try reflexivity.
  destruct (bool_decide (error = "")); cbn [negb]; [| reflexivity].
  destruct (parse_attrs _ _ _ _ _ _); reflexivity.
Qed.


End RequestLayer.



(* ===================================================================== *)
(** * Theorems: the classification dialogue                               *)
(* ===================================================================== *)

Section Preservation.
Import Stun.
Context (R : Self -> Self -> Prop) `{!PreOrder R}.
#[local] Abbreviation preserves := (Stun.preserves R).

Lemma preserves_ret {A} (a : A) : preserves (ret a).
Proof. intros w. reflexivity. Qed.

Lemma preserves_raise {A} e : preserves (@raise World A e).
Proof. intros w. reflexivity. Qed.

Lemma preserves_out_of_fuel {A} : preserves (@out_of_fuel World A).
Proof. intros w. reflexivity. Qed.

Lemma preserves_lift {A} (r : result A) : preserves (lift r).
Proof. intros w. reflexivity. Qed.

Lemma preserves_emit e : preserves (emit e).
Proof. intros w. reflexivity. Qed.

Lemma preserves_history : preserves history.
Proof. intros w. reflexivity. Qed.

Lemma preserves_get_self : preserves get_self.
Proof. intros w. reflexivity. Qed.

Lemma preserves_put_self f : (forall s, R s (f s)) -> preserves (put_self f).
Proof. intros Hf w. apply Hf. Qed.

Lemma preserves_pure {A} (o : outcome A) : preserves (fun w => (o, w)).
Proof. intros w. reflexivity. Qed.

Lemma preserves_bind {A B} (m : M A) (k : A -> M B) :
  preserves m -> (forall a, preserves (k a)) -> preserves (bind m k).
Proof.
  intros Hm Hk w. unfold bind. specialize (Hm w).
  destruct (m w) as [[a | e |] w']; cbn [snd] in *; try assumption.
  etransitivity; [exact Hm | apply Hk].
Qed.

Lemma preserves_try_except {A} (m : M A) (h : Exn -> M A) :
  preserves m -> (forall e, preserves (h e)) -> preserves (try_except m h).
Proof.
  intros Hm Hh w. unfold try_except. specialize (Hm w).
  destruct (m w) as [[a | e |] w']; cbn [snd] in *; try assumption.
  etransitivity; [exact Hm | apply Hh].
Qed.

Lemma preserves_try_finally {A} (m : M A) (f : M unit) :
  preserves m -> preserves f -> preserves (try_finally m f).
Proof.
  intros Hm Hf w. unfold try_finally. specialize (Hm w).
  destruct (m w) as [[a | e |] w']; cbn [snd] in *; try assumption;
    specialize (Hf w'); destruct (f w') as [[[] | e' |] w'']; cbn [snd] in *;
    etransitivity; eassumption.
Qed.

End Preservation.

(** Decompose a goal [preserves R m] along the structure of [m]. *)
Ltac preserves_step :=
  match goal with
  | |- PreOrder _ => typeclasses eauto
  | |- forall _, _ => intros ?
  | |- Stun.preserves _ (bind _ _) => apply preserves_bind
  | |- Stun.preserves _ (try_except _ _) => apply preserves_try_except
  | |- Stun.preserves _ (try_finally _ _) => apply preserves_try_finally
  | |- Stun.preserves _ (ret _) => apply preserves_ret
  | |- Stun.preserves _ (raise _) => apply preserves_raise
  | |- Stun.preserves _ out_of_fuel => apply preserves_out_of_fuel
  | |- Stun.preserves _ (lift _) => apply preserves_lift
  | |- Stun.preserves _ (Stun.emit _) => apply preserves_emit
  | |- Stun.preserves _ Stun.history => apply preserves_history
  | |- Stun.preserves _ Stun.get_self => apply preserves_get_self
  | |- Stun.preserves _ (fun w => (_, w)) => apply preserves_pure
  | |- Stun.preserves _ (match ?x with _ => _ end) => destruct x
  end.

Ltac preserves_tac := repeat preserves_step.

Section Dialogue.
Import Stun.
Context (env : Env).

Lemma inner_make_request_keeps_self trans_id req addr :
  preserves eq (inner_make_request env trans_id req addr).
Proof. unfold inner_make_request, sendto, recvfrom. preserves_tac. Qed.

Lemma request_loop_keeps_self n : forall trans_id req addr last,
  preserves eq (request_loop env n trans_id req addr last).
Proof.
  induction n as [| n IH]; intros; cbn [request_loop]; unfold sleep.
  - preserves_tac.
  - preserves_tac; try apply inner_make_request_keeps_self; apply IH.
Qed.

(** The request layer leaves the fields of the client as they are: the
    server address in use and the configured port are the same before and
    after a logical request. *)
Lemma make_request_keeps_self ctx addr req : preserves eq (make_request env ctx addr req).
Proof.
  unfold make_request, token_bytes, log_error.
  preserves_tac; apply request_loop_keeps_self.
Qed.


End Dialogue.

(* ===================================================================== *)
(** * Theorems: the probe                                                 *)
(* ===================================================================== *)

Section Termination.
Import Stun.
Context (I : Self -> Prop).
#[local] Abbreviation ends := (Stun.ends I).

Lemma ends_pure {A} (o : outcome A) : o <> OutOfFuel -> ends (fun w => (o, w)).
Proof. intros Ho w Hw. split; assumption. Qed.

Lemma ends_ret {A} (a : A) : ends (ret a).
Proof. apply ends_pure. discriminate. Qed.

Lemma ends_raise {A} e : ends (@raise World A e).
Proof. apply ends_pure. discriminate. Qed.

Lemma ends_lift {A} (r : result A) : ends (lift r).
Proof. intros w Hw. unfold lift. destruct r; split; cbn; first [discriminate | assumption]. Qed.

Lemma ends_emit e : ends (emit e).
Proof. intros w Hw. split; [discriminate | assumption]. Qed.

Lemma ends_history : ends history.
Proof. intros w Hw. split; [discriminate | assumption]. Qed.

Lemma ends_get_self : ends get_self.
Proof. intros w Hw. split; [discriminate | assumption]. Qed.

Lemma ends_put_self f : (forall s, I s -> I (f s)) -> ends (put_self f).
Proof. intros Hf w Hw. split; [discriminate | apply Hf; assumption]. Qed.

Lemma ends_bind {A B} (m : M A) (k : A -> M B) :
  ends m -> (forall a, ends (k a)) -> ends (bind m k).
Proof.
  intros Hm Hk w Hw. unfold bind. destruct (Hm w Hw) as [Hfuel Hself].
  destruct (m w) as [[a | e |] w']; cbn [fst snd] in *.
  - apply Hk. assumption.
  - split; [discriminate | assumption].
  - congruence.
Qed.

Lemma ends_try_except {A} (m : M A) (h : Exn -> M A) :
  ends m -> (forall e, ends (h e)) -> ends (try_except m h).
Proof.
  intros Hm Hh w Hw. unfold try_except. destruct (Hm w Hw) as [Hfuel Hself].
  destruct (m w) as [[a | e |] w']; cbn [fst snd] in *.
  - split; [discriminate | assumption].
  - apply Hh. assumption.
  - congruence.
Qed.

Lemma ends_try_finally {A} (m : M A) (f : M unit) :
  ends m -> ends f -> ends (try_finally m f).
Proof.
  intros Hm Hf w Hw. unfold try_finally. destruct (Hm w Hw) as [Hfuel Hself].
  destruct (m w) as [[a | e |] w']; cbn [fst snd] in *; [| | congruence];
    destruct (Hf w' Hself) as [Hfuel' Hself'];
    destruct (f w') as [[[] | e' |] w'']; cbn [fst snd] in *;
    first [congruence | split; [discriminate | assumption]].
Qed.

End Termination.

(** Decompose a goal [ends I m] along the structure of [m]. *)
Ltac ends_step :=
  match goal with
  | |- forall _, _ => intros ?
  | |- Stun.ends _ (bind _ _) => apply ends_bind
  | |- Stun.ends _ (try_except _ _) => apply ends_try_except
  | |- Stun.ends _ (try_finally _ _) => apply ends_try_finally
  | |- Stun.ends _ (ret _) => apply ends_ret
  | |- Stun.ends _ (raise _) => apply ends_raise
  | |- Stun.ends _ (lift _) => apply ends_lift
  | |- Stun.ends _ (Stun.emit _) => apply ends_emit
  | |- Stun.ends _ Stun.history => apply ends_history
  | |- Stun.ends _ Stun.get_self => apply ends_get_self
  | |- Stun.ends _ (match ?x with _ => _ end) => destruct x
  end.

Ltac ends_tac := repeat ends_step.

Section Probe.
Import Stun.
Context (env : Env).

#[local] Instance same_config_preorder : PreOrder same_config.
Proof.
  split.
  - intros s. repeat split.
  - intros s1 s2 s3 (H1 & H2 & H3 & H4 & H5) (K1 & K2 & K3 & K4 & K5).
    unfold same_config. split_and!; congruence.
Qed.

(** The attribute walk consumes at least four bytes per pass: the length of
    the body is fuel enough. *)
Lemma parse_attrs_ends fuel : forall resp trans_id offset remaining parsed,
  remaining <= Z.of_nat fuel ->
  parse_attrs fuel resp trans_id offset remaining parsed <> OutOfFuel.
Proof.
  induction fuel as [| fuel IH]; intros resp trans_id offset remaining parsed Hrem.
  - cbn. rewrite bool_decide_eq_false_2 by lia. discriminate.
  - cbn [parse_attrs]. case_bool_decide as Hpos; [| discriminate].
    destruct (unpack_HH _) as [e | [attr_type attr_len]] eqn:Hunpack; [discriminate |].
    assert (0 <= attr_len) as Hlen.
    { unfold unpack_HH in Hunpack. case_bool_decide; [| discriminate].
      injection Hunpack as _ <-. lia. }
    destruct (attr_field attr_type) as [field |].
    + destruct (parse_address _ _) as [e | a]; cbn [rbind]; [discriminate |].
      apply IH. lia.
    + apply IH. lia.
Qed.

Section AnyInvariant.
Context (I : Self -> Prop).

Lemma inner_make_request_ends trans_id req addr :
  ends I (inner_make_request env trans_id req addr).
Proof. unfold inner_make_request, sendto, recvfrom. ends_tac. Qed.

Lemma request_loop_ends n : forall trans_id req addr last,
  ends I (request_loop env n trans_id req addr last).
Proof.
  induction n as [| n IH]; intros; cbn [request_loop]; unfold sleep.
  - ends_tac.
  - ends_tac; try apply inner_make_request_ends; apply IH.
Qed.

Lemma make_request_ends ctx addr req : ends I (make_request env ctx addr req).
Proof.
  unfold make_request, token_bytes, log_error.
  ends_tac; try apply request_loop_ends.
  apply ends_pure. apply parse_attrs_ends. lia.
Qed.

Lemma get_nat_type_ends src_ip : ends I (get_nat_type env src_ip).
Proof. unfold get_nat_type. ends_tac; apply make_request_ends. Qed.

Lemma socket_call_ends e : ends I (socket_call env e).
Proof. unfold socket_call. ends_tac. Qed.

End AnyInvariant.

Lemma retried_getaddrinfo_udp_ends fuel host port :
  ends (enough_fuel fuel) (retried_getaddrinfo_udp env fuel host port).
Proof.
  intros w [Hr Hfuel].
  unfold retried_getaddrinfo_udp, bind, get_self.
  destruct (retried_loop_bounded env fuel host port (self_retries (self w)) w Hr Hfuel)
    as (n & o & w' & Hrun & _ & Hself & _ & _ & Hout).
  rewrite Hrun. cbn [fst snd]. rewrite Hself. split; [| split; assumption].
  destruct o; [discriminate | discriminate | contradiction].
Qed.

Lemma enough_fuel_set_stun_ip fuel v s : enough_fuel fuel s -> enough_fuel fuel (set_stun_ip v s).
Proof. intros H. exact H. Qed.

Lemma enough_fuel_set_sock fuel v s : enough_fuel fuel s -> enough_fuel fuel (set_sock v s).
Proof. intros H. exact H. Qed.

(** With [retries >= 1] and that much fuel, the [try] block of [get_info]
    returns or raises. *)
Lemma get_info_try_ends fuel src_ip src_port :
  ends (enough_fuel fuel) (get_info_try env fuel src_ip src_port).
Proof.
  unfold get_info_try, with_socket.
  ends_tac;
    first [ apply retried_getaddrinfo_udp_ends
          | apply socket_call_ends
          | apply get_nat_type_ends
          | apply ends_put_self; intros ? Hs; exact Hs ].
Qed.

Lemma retried_loop_same_config fuel : forall host port r,
  preserves same_config (retried_loop env fuel host port r).
Proof.
  induction fuel as [| fuel IH]; intros; cbn [retried_loop]; unfold getaddrinfo, sleep.
  - preserves_tac.
  - preserves_tac. apply IH.
Qed.

Lemma keeps_self_same_config {A} (m : M A) : preserves eq m -> preserves same_config m.
Proof. intros H w. rewrite <- (H w). reflexivity. Qed.

(** The [try] block of [get_info] changes [stun_ip] and [sock] only. *)
Lemma get_info_try_same_config fuel src_ip src_port :
  preserves same_config (get_info_try env fuel src_ip src_port).
Proof.
  unfold get_info_try, with_socket, retried_getaddrinfo_udp, socket_call, get_nat_type.
  preserves_tac;
    first [ apply retried_loop_same_config
          | apply keeps_self_same_config, make_request_keeps_self
          | apply preserves_put_self; intros ?; repeat split ].
Qed.

(** [get_info] in terms of its [try] block. *)
Lemma get_info_eq fuel src_ip src_port w :
  get_info env fuel src_ip src_port w =
  match get_info_try env fuel src_ip src_port w with
  | (Ret (nat_type, ext_ip), w1) =>
      (Ret {| nat_type := nat_type; src_ip := src_ip; ext_ip := ext_ip;
              stun_host := self_host (self w1); stun_ip := self_stun_ip (self w1);
              stun_port := self_port (self w1) |},
       {| self := set_sock None (self w1); trace := trace w1 |})
  | (Raise ex, w1) =>
      (Ret {| nat_type := ERROR; src_ip := src_ip; ext_ip := "";
              stun_host := self_host (self w1); stun_ip := self_stun_ip (self w1);
              stun_port := self_port (self w1) |},
       {| self := set_sock None (self w1);
          trace := LogError "Can't get STUN info: %s" [ArgExn ex] :: trace w1 |})
  | (OutOfFuel, w1) => (OutOfFuel, w1)
  end.
Proof.
  unfold get_info.
  cbv beta iota zeta delta [bind try_finally try_except put_self get_self log_error emit ret].
  destruct (get_info_try env fuel src_ip src_port w) as [[[nat_type ext_ip] | ex |] w1];
    reflexivity.
Qed.

(** What [get_info] returns carries the configured host and port and the
    address it was called with. *)
Lemma get_info_result fuel src_ip src_port w info w' :
  get_info env fuel src_ip src_port w = (Ret info, w') ->
  stun_host info = self_host (self w)
  /\ stun_port info = self_port (self w)
  /\ Stun.src_ip info = src_ip.
Proof.
  rewrite get_info_eq.
  pose proof (get_info_try_same_config fuel src_ip src_port w) as (Hhost & Hport & _).
  destruct (get_info_try _ _ _ _ _) as [[[nat_type ext_ip] | ex' |] w1];
    cbn [snd] in *; intros Hrun; [| | discriminate]; injection Hrun as <- <-; cbn;
    (split_and!; [assumption | assumption | reflexivity]).
Qed.

(** With [retries >= 1], [get_info] returns once the resolver loop is
    followed for [retries] passes. *)
Lemma get_info_returns fuel src_ip src_port w :
  1 <= self_retries (self w) ->
  (Z.to_nat (self_retries (self w)) <= fuel)%nat ->
  exists info w', get_info env fuel src_ip src_port w = (Ret info, w').
Proof.
  intros Hr Hfuel. rewrite get_info_eq.
  destruct (get_info_try_ends fuel src_ip src_port w (conj Hr Hfuel)) as [Hends _].
  destruct (get_info_try _ _ _ _ _) as [[[nat_type ext_ip] | ex' |] w1];
    [eauto | eauto | contradiction].
Qed.



End Probe.

(* ===================================================================== *)
(** * Theorems: the dialogue, request by request                          *)
(* ===================================================================== *)

Section Classification.
Import Stun.
Context (env : Env).


End Classification.



(** The four kinds of internal failure, each on a client with two retries:
    no name service, no STUN address of the local family, a socket that
    cannot be bound, and a malformed attribute in the dialogue. *)
Lemma get_info_failures_yield_error :
  let failed stun_ip :=
    Ret {| Stun.nat_type := Stun.ERROR; Stun.src_ip := "10.0.0.2"; Stun.ext_ip := "";
           Stun.stun_host := "stun.example"; Stun.stun_ip := stun_ip;
           Stun.stun_port := 3478 |} in
  fst (Stun.get_info Scenario.no_dns 2 "10.0.0.2" 0 (Scenario.fresh 2)) = failed ""
  /\ fst (Stun.get_info Scenario.other_family 2 "10.0.0.2" 0 (Scenario.fresh 2)) = failed ""
  /\ fst (Stun.get_info Scenario.bind_fails 2 "10.0.0.2" 0 (Scenario.fresh 2))
     = failed "stun.example"
  /\ fst (Stun.get_info Scenario.truncated_attribute 2 "10.0.0.2" 0 (Scenario.fresh 2))
     = failed "stun.example".
Proof. vm_compute. split_and!; reflexivity. Qed.



(* ===================================================================== *)
(** * Theorems: the command line of the child                             *)
(* ===================================================================== *)

Section Argv.
Import Live777Runner.

Lemma list_remove_filter (x : string) (l : list string) :
  filter (fun t => t <> x) (list_remove x l) = filter (fun t => t <> x) l.
Proof.
  induction l as [| y l IH]; [reflexivity |].
  cbn [list_remove]. case_bool_decide as Hy.
  - subst y. rewrite filter_cons_False by (intros H; apply H; reflexivity). reflexivity.
  - rewrite !filter_cons_True by exact Hy. rewrite IH. reflexivity.
Qed.

Lemma list_remove_length (x : string) (l : list string) :
  x ∈ l -> S (length (list_remove x l)) = length l.
Proof.
  induction l as [| y l IH]; intros Hin; [inversion Hin |].
  cbn [list_remove]. case_bool_decide as Hy; [reflexivity |].
  cbn [length]. rewrite IH; [reflexivity |].
  apply elem_of_cons in Hin as [-> | Hin]; [contradiction | exact Hin].
Qed.

Lemma filter_absent (x : string) (l : list string) :
  x ∉ l -> filter (fun t => t <> x) l = l.
Proof.
  induction l as [| y l IH]; intros Hnot; [reflexivity |].
  rewrite not_elem_of_cons in Hnot. destruct Hnot as [Hy Hl].
  rewrite filter_cons_True by (intros ->; apply Hy; reflexivity).
  rewrite IH by exact Hl. reflexivity.
Qed.

(** The removal loop drops exactly the tokens equal to [x]; the length of the
    list is fuel enough. *)
Lemma remove_while_filter (x : string) fuel : forall l,
  (length l <= fuel)%nat ->
  remove_while fuel x l = filter (fun t => t <> x) l.
Proof.
  induction fuel as [| fuel IH]; intros l Hlen.
  - destruct l; [reflexivity | cbn in Hlen; lia].
  - cbn [remove_while]. case_bool_decide as Hin.
    + rewrite IH, list_remove_filter; [reflexivity |].
      pose proof (list_remove_length x l Hin). lia.
    + symmetry. apply filter_absent. exact Hin.
Qed.

Lemma format_all_each kw : forall parts argv,
  format_all parts kw = inr argv ->
  Forall2 (fun part arg => format part kw = inr arg) parts argv.
Proof.
  induction parts as [| part parts IH]; intros argv Hrun; cbn in Hrun.
  - injection Hrun as <-. constructor.
  - destruct (format part kw) as [e | arg] eqn:Hpart; cbn in Hrun; [discriminate |].
    destruct (format_all parts kw) as [e | args]; cbn in Hrun; [discriminate |].
    injection Hrun as <-. constructor; [exact Hpart | apply IH; reflexivity].
Qed.

Lemma append_empty (s : string) : s +:+ "" = s.
Proof.
  induction s as [| c s IH]; [reflexivity |].
  change (String c (s +:+ "") = String c s). f_equal. exact IH.
Qed.

(** A template that is one replacement field renders to the value stored
    under its name, followed by the (empty) rendering of what comes after. *)
Ltac format_field :=
  match goal with
  | |- format _ _ = inr ?v =>
      transitivity (@inr Exn string (v +:+ ""));
      [reflexivity | rewrite append_empty; reflexivity]
  end.

(** C8, as the code has it. With an empty [ext_ip] the tokens equal to
    [{o_stun_server}] are dropped from the template and the argv is the
    rendering, token by token, of the others, with [o_stun_server] set to the
    empty string: a dropped token leaves nothing behind, and when no other
    token renders to the empty string or to a [--stun-server] option, the
    argv has neither. With a non-empty [ext_ip] the template is rendered as
    it is and [{o_stun_server}] gives [--stun-server={stun_ip}:{stun_port}].
    In both cases every field of the configuration is available, through
    [str()], under its name. *)
Theorem render_cmd_stun_server (template : list string) (netcfg : Netcfg) :
  let without := <["o_stun_server" := ""]> (placeholders netcfg) in
  let kept := filter (fun t => t <> "{o_stun_server}") template in
  (ext_ip netcfg = "" ->
   render_cmd template netcfg = format_all kept without
   /\ ("{o_stun_server}" ∉ kept)
   /\ without !! "o_stun_server" = Some ""
   /\ forall argv,
        render_cmd template netcfg = inr argv ->
        Forall2 (fun part arg => format part without = inr arg) kept argv
        /\ ((forall part arg,
               part ∈ kept -> format part without = inr arg ->
               arg <> "" /\ String.prefix "--stun-server" arg = false) ->
            forall arg, arg ∈ argv -> arg <> "" /\ String.prefix "--stun-server" arg = false))
  /\ (ext_ip netcfg <> "" ->
      render_cmd template netcfg = format_all template (placeholders netcfg)
      /\ format "{o_stun_server}" (placeholders netcfg)
         = inr ("--stun-server=" +:+ stun_ip netcfg +:+ ":" +:+ str_int (stun_port netcfg)))
  /\ Forall (fun kv => format ("{" +:+ fst kv +:+ "}") (placeholders netcfg) = inr (snd kv)
                      /\ format ("{" +:+ fst kv +:+ "}") without = inr (snd kv))
       (asdict_str netcfg).
Proof.
  cbn zeta. split_and!.
  - intros Hext. unfold render_cmd. rewrite bool_decide_eq_true_2 by exact Hext.
    rewrite remove_while_filter by lia. split_and!.
    + reflexivity.
    + intros Hin. apply list_elem_of_filter in Hin as [Hne _]. apply Hne. reflexivity.
    + apply lookup_insert_eq.
    + intros argv Hrun. apply format_all_each in Hrun. split; [exact Hrun |].
      intros Hother arg Harg.
      apply list_elem_of_lookup in Harg as [i Hi].
      destruct (Forall2_lookup_r _ _ _ _ _ Hrun Hi) as (part & Hpart & Hfmt).
      apply (Hother part arg); [| exact Hfmt].
      apply list_elem_of_lookup. exists i. exact Hpart.
  - intros Hext. unfold render_cmd. rewrite bool_decide_eq_false_2 by exact Hext.
    split; [reflexivity |]. format_field.
  - unfold asdict_str.
    repeat (apply Forall_cons; split; [split; cbn [fst snd]; format_field |]).
    apply Forall_nil. exact I.
Qed.

End Argv.

(** C8 as stated fails: with an empty [ext_ip] the placeholder token is
    dropped, but a token that renders to the empty string for another reason
    stays in the argv, and so does a [--stun-server] option written in the
    template. *)
Lemma empty_token_survives_in_argv :
  Live777Runner.render_cmd ["live777"; "{o_stun_server}"; "{ext_ip}"]
    Live777Runner.Netcfg_default = inr ["live777"; ""]
  /\ Live777Runner.render_cmd ["live777"; "--stun-server={stun_ip}:{stun_port}"]
       Live777Runner.Netcfg_default = inr ["live777"; "--stun-server=:0"].
Proof. split; reflexivity. Qed.

(** The formatter at the edges of the modelled fragment: the conversion
    [!s] and the empty format spec render a string as it is; a positional
    field finds no positional argument; an index too long for any word size
    is refused; a format spec that is not empty is outside the fragment. *)
Lemma format_examples :
  Live777Runner.render_cmd ["live777"; "--from={src_ip!s}"; "{stun_host:}"; "{ext_ip!s:}"]
    RunnerScenario.reachable
  = inr ["live777"; "--from=10.0.0.2"; "stun.example"; "203.0.113.7"]
  /\ format "{}" ∅
     = inl (MkExn IndexError "Replacement index 0 out of range for positional args tuple")
  /\ format "{007}" ∅
     = inl (MkExn IndexError "Replacement index 7 out of range for positional args tuple")
  /\ format "{99999999999999999999}" ∅
     = inl (MkExn ValueError "Too many decimal digits in format string")
  /\ format "{src_ip:>12}" (<["src_ip" := "10.0.0.2"]> ∅)
     = inl (MkExn NotModelled "replacement field src_ip:>12").
Proof. split_and!; reflexivity. Qed.

(** The template of the scenario, rendered without and with an external
    address. *)
Lemma render_cmd_examples :
  Live777Runner.render_cmd (Live777Runner.cmd RunnerScenario.config)
    RunnerScenario.unreachable = inr ["live777"; "--from=10.0.0.2"]
  /\ Live777Runner.render_cmd (Live777Runner.cmd RunnerScenario.config)
       RunnerScenario.reachable
     = inr ["live777"; "--stun-server=192.0.2.1:3478"; "--from=10.0.0.2"].
Proof.
  destruct (render_cmd_stun_server (Live777Runner.cmd RunnerScenario.config)
              RunnerScenario.unreachable) as (Hempty & _ & _).
  destruct (render_cmd_stun_server (Live777Runner.cmd RunnerScenario.config)
              RunnerScenario.reachable) as (_ & Hext & _).
  split.
  - rewrite (proj1 (Hempty eq_refl)). reflexivity.
  - rewrite (proj1 (Hext ltac:(discriminate))). reflexivity.
Defined.

(* ===================================================================== *)
(** * Theorems: the supervisor                                            *)
(* ===================================================================== *)

Section Supervisor.
Import Live777Runner.
Context (env : Env) (config : Config).

(** [__stop_live777] as a function of the world. *)
Lemma stop_live777_eq w :
  stop_live777 w =
  (Ret tt,
   {| stun := stun w; live777_task := None; live777_proc := None;
      tasks := match live777_task w with
               | Some tid => filter (fun t => task_id t <> tid) (tasks w)
               | None => tasks w
               end;
      children := match live777_proc w with
                  | Some pid => filter (fun p => p <> pid) (children w)
                  | None => children w
                  end;
      next_task := next_task w;
      trace := stop_events w ++ trace w |}).
Proof. destruct w as [sw [tid |] [pid |] ts cs nt h]; reflexivity. Qed.

(** [__start_live777] as a function of the world. *)
Lemma start_live777_eq netcfg w :
  start_live777 netcfg w =
  match live777_task w with
  | Some _ =>
      (Raise (MkExn AssertionError ""),
       {| stun := stun w; live777_task := live777_task w; live777_proc := live777_proc w;
          tasks := tasks w; children := children w; next_task := next_task w;
          trace := LogInfo "Starting Live777 ..." :: Enter_start_live777 netcfg :: trace w |})
  | None =>
      (Ret tt,
       {| stun := stun w; live777_task := Some (next_task w);
          live777_proc := live777_proc w;
          tasks := {| task_id := next_task w; task_netcfg := netcfg;
                      task_tailing := false |} :: tasks w;
          children := children w; next_task := S (next_task w);
          trace := CreateTask (next_task w) netcfg :: LogInfo "Starting Live777 ..."
                     :: Enter_start_live777 netcfg :: trace w |})
  end.
Proof. destruct w as [sw [tid |] pr ts cs nt h]; reflexivity. Qed.

Lemma lifecycle_calls_app h1 h2 :
  lifecycle_calls (h1 ++ h2) = lifecycle_calls h2 ++ lifecycle_calls h1.
Proof.
  induction h1 as [| e h1 IH]; cbn [app lifecycle_calls]; [symmetry; apply app_nil_r |].
  destruct e; rewrite IH; try reflexivity; symmetry; apply app_assoc.
Qed.

Lemma lifecycle_calls_stop w : lifecycle_calls (stop_events w) = [CallStop].
Proof. unfold stop_events. destruct (live777_proc w), (live777_task w); reflexivity. Qed.

(** A configuration that differs from the remembered one and has a
    [src_ip]: the child is stopped and a new one started for it. *)
Lemma run_react_restart (prev_netcfg : option Netcfg) (netcfg : Netcfg) w :
  Some netcfg <> prev_netcfg ->
  src_ip netcfg <> "" ->
  exists new w',
    run_react prev_netcfg netcfg w = (Ret (Some netcfg), w')
    /\ trace w' = new ++ trace w
    /\ lifecycle_calls new = [CallStop; CallStart netcfg]
    /\ live777_task w' = Some (next_task w).
Proof.
  intros Hdiff Hsrc. unfold run_react.
  rewrite bool_decide_eq_true_2 by exact Hdiff.
  rewrite bool_decide_eq_false_2 by exact Hsrc. cbn [negb].
  cbv beta iota zeta delta [bind emit]. rewrite stop_live777_eq, start_live777_eq.
  cbn [live777_task].
  eexists ([CreateTask _ _; LogInfo _; Enter_start_live777 _]
             ++ stop_events _ ++ [LogInfo _]), _.
  split; [reflexivity |]. cbn [trace ret next_task live777_task]. split_and!.
  - rewrite <- !app_assoc. reflexivity.
  - rewrite !lifecycle_calls_app, lifecycle_calls_stop. reflexivity.
  - reflexivity.
Qed.

(** C4. One reaction of the main loop to the probed configuration [netcfg],
    [prev_netcfg] being the remembered one ([None] at first): the calls it
    makes are a stop followed by a start for [netcfg] iff [netcfg] differs
    from [prev_netcfg] and its [src_ip] is not empty; a stop alone iff it
    differs and its [src_ip] is empty; none iff it is equal. In the first two
    cases [netcfg] is remembered; after a restart [live777_task] is the new
    task, after a stop alone both handles are [None]. *)
Theorem run_react_restarts_iff_changed (prev_netcfg : option Netcfg) (netcfg : Netcfg) w :
  exists new prev' w',
    run_react prev_netcfg netcfg w = (Ret prev', w')
    /\ trace w' = new ++ trace w
    /\ (lifecycle_calls new = [CallStop; CallStart netcfg]
        <-> Some netcfg <> prev_netcfg /\ src_ip netcfg <> "")
    /\ (lifecycle_calls new = [CallStop]
        <-> Some netcfg <> prev_netcfg /\ src_ip netcfg = "")
    /\ (lifecycle_calls new = [] <-> Some netcfg = prev_netcfg)
    /\ prev' = (if decide (Some netcfg = prev_netcfg) then prev_netcfg else Some netcfg)
    /\ (Some netcfg <> prev_netcfg -> src_ip netcfg <> "" ->
        live777_task w' = Some (next_task w) /\ live777_proc w' = None)
    /\ (Some netcfg <> prev_netcfg -> src_ip netcfg = "" ->
        live777_task w' = None /\ live777_proc w' = None).
Proof.
  unfold run_react.
  destruct (decide (Some netcfg = prev_netcfg)) as [Hsame | Hdiff].
  - rewrite bool_decide_eq_false_2 by (intros H; apply H; exact Hsame).
    exists [], prev_netcfg, w. split_and!; try reflexivity; try tauto.
    + split; [discriminate | tauto].
    + split; [discriminate | tauto].
  - rewrite bool_decide_eq_true_2 by exact Hdiff.
    destruct (decide (src_ip netcfg = "")) as [Hempty | Hsrc].
    + rewrite bool_decide_eq_true_2 by exact Hempty. cbn [negb].
      cbv beta iota zeta delta [bind emit]. rewrite stop_live777_eq.
      eexists (stop_events _ ++ [LogError _; LogInfo _]), _, _.
      split; [reflexivity |]. cbn [trace ret]. split_and!.
      * rewrite <- app_assoc. reflexivity.
      * rewrite lifecycle_calls_app, lifecycle_calls_stop. cbn.
        split; [discriminate | tauto].
      * rewrite lifecycle_calls_app, lifecycle_calls_stop. cbn. tauto.
      * rewrite lifecycle_calls_app, lifecycle_calls_stop. cbn.
        split; [discriminate | tauto].
      * reflexivity.
      * tauto.
      * intros _ _. split; reflexivity.
    + rewrite bool_decide_eq_false_2 by exact Hsrc. cbn [negb].
      cbv beta iota zeta delta [bind emit]. rewrite stop_live777_eq.
      rewrite start_live777_eq. cbn [live777_task].
      eexists ([CreateTask _ _; LogInfo _; Enter_start_live777 _]
                 ++ stop_events _ ++ [LogInfo _]), _, _.
      split; [reflexivity |]. cbn [trace ret next_task live777_task live777_proc].
      split_and!.
      * rewrite <- !app_assoc. reflexivity.
      * rewrite !lifecycle_calls_app, lifecycle_calls_stop. cbn. tauto.
      * rewrite !lifecycle_calls_app, lifecycle_calls_stop. cbn.
        split; [discriminate | tauto].
      * rewrite !lifecycle_calls_app, lifecycle_calls_stop. cbn.
        split; [discriminate | tauto].
      * reflexivity.
      * intros _ _. split; reflexivity.
      * tauto.
Qed.

(** Address discovery returns a string, never raises, and leaves the STUN
    client alone. *)
Lemma get_default_ip_returns w :
  exists ip new,
    get_default_ip env w
    = (Ret ip,
       {| stun := stun w; live777_task := live777_task w; live777_proc := live777_proc w;
          tasks := tasks w; children := children w; next_task := next_task w;
          trace := new ++ trace w |}).
Proof.
  unfold get_default_ip. cbv beta iota zeta delta [bind emit history]. cbn [trace].
  destruct (get_default_ip_try _) as [ex | [ip |]].
  - exists "", [LogError "Can't get default IP: %s"; QueryNetifaces]. reflexivity.
  - exists ip, [QueryNetifaces]. reflexivity.
  - exists "", [QueryNetifaces]. reflexivity.
Qed.

(** The probed configuration carries the address the STUN client was given:
    the discovered one, or the wildcard when discovery came back empty. *)
Lemma get_netcfg_src_ip fuel w ip w1 netcfg w' :
  get_default_ip env w = (Ret ip, w1) ->
  get_netcfg env fuel w = (Ret netcfg, w') ->
  src_ip netcfg = (if bool_decide (ip = "") then "0.0.0.0" else ip)
  /\ trace w' = trace w1.
Proof.
  intros Hip. unfold get_netcfg. unfold bind at 1. rewrite Hip.
  unfold bind, lift_stun.
  destruct (Stun.get_info _ _ _ _ _) as [[info | ex |] sw] eqn:Hinfo; [| discriminate ..].
  unfold ret. intros Hrun. injection Hrun as <- <-.
  destruct (get_info_result _ _ _ _ _ _ _ Hinfo) as (_ & _ & Hsrc).
  split; [exact Hsrc | reflexivity].
Qed.

(** C5, as the code has it. When address discovery comes back with the empty
    string, the probe is made from the wildcard [0.0.0.0] and that is the
    [src_ip] of the configuration it yields (with [retries >= 1] the probe
    does yield one): it is not empty, so whenever this configuration differs
    from the remembered one the supervisor stops the child and starts a new
    one for it. *)
Theorem empty_discovery_yields_wildcard_src_ip fuel w :
  1 <= Stun.self_retries (Stun.self (stun w)) ->
  (Z.to_nat (Stun.self_retries (Stun.self (stun w))) <= fuel)%nat ->
  fst (get_default_ip env w) = Ret "" ->
  exists netcfg w',
    get_netcfg env fuel w = (Ret netcfg, w')
    /\ src_ip netcfg = "0.0.0.0"
    /\ forall prev_netcfg,
         prev_netcfg <> Some netcfg ->
         exists new w'',
           run_react prev_netcfg netcfg w' = (Ret (Some netcfg), w'')
           /\ trace w'' = new ++ trace w'
           /\ lifecycle_calls new = [CallStop; CallStart netcfg]
           /\ live777_task w'' = Some (next_task w').
Proof.
  intros Hretries Hfuel Hip.
  destruct (get_default_ip_returns w) as (ip & new1 & Hdisc).
  rewrite Hdisc in Hip. cbn [fst] in Hip. injection Hip as ->.
  destruct (get_netcfg env fuel w) as [o w'] eqn:Hrun.
  assert (exists netcfg, o = Ret netcfg) as [netcfg ->].
  { revert Hrun. unfold get_netcfg. unfold bind at 1. rewrite Hdisc.
    unfold bind, lift_stun. cbn [stun].
    destruct (get_info_returns (stun_env env) fuel "0.0.0.0" 0 (stun w) Hretries Hfuel)
      as (info & sw & Hinfo).
    rewrite bool_decide_eq_true_2 by reflexivity. rewrite Hinfo.
    unfold ret. intros H. injection H as <- _. eauto. }
  destruct (get_netcfg_src_ip _ _ _ _ _ _ Hdisc Hrun) as [Hsrc _].
  rewrite bool_decide_eq_true_2 in Hsrc by reflexivity.
  exists netcfg, w'. split_and!; [reflexivity | exact Hsrc |].
  intros prev_netcfg Hprev.
  apply run_react_restart; [congruence | rewrite Hsrc; discriminate].
Qed.

End Supervisor.

(** C5 as stated fails: on a host where no interface can be enumerated,
    discovery returns the empty string, yet the first pass of the main loop
    probes from [0.0.0.0], gets a configuration with that [src_ip], and starts
    a supervisory task for it, which launches the child. *)
Lemma failed_discovery_still_starts_child :
  fst (Live777Runner.get_default_ip RunnerScenario.offline RunnerScenario.fresh) = Ret ""
  /\ let '(o, w') := Live777Runner.run_iteration RunnerScenario.offline
                       RunnerScenario.config 2 None RunnerScenario.fresh in
     exists netcfg,
       o = Ret (Some netcfg)
       /\ Live777Runner.src_ip netcfg = "0.0.0.0"
       /\ Live777Runner.lifecycle_calls (Live777Runner.trace w')
          = [Live777Runner.CallStop; Live777Runner.CallStart netcfg]
       /\ Live777Runner.live777_task w' = Some 0%nat
       /\ Live777Runner.children
            (Live777Runner.step RunnerScenario.offline RunnerScenario.config
               (Live777Runner.TaskLaunch 0) w') = [4242].
Proof.
  split; [reflexivity |]. vm_compute. eexists. split_and!; reflexivity.
Qed.

(** On the offline host the probed configuration has the wildcard as
    [src_ip]. *)
Lemma empty_discovery_witness :
  exists netcfg w',
    Live777Runner.get_netcfg RunnerScenario.offline 2 RunnerScenario.fresh = (Ret netcfg, w')
    /\ Live777Runner.src_ip netcfg = "0.0.0.0".
Proof.
  destruct (empty_discovery_yields_wildcard_src_ip RunnerScenario.offline 2
              RunnerScenario.fresh ltac:(cbn; lia) ltac:(cbn; lia) eq_refl)
    as (netcfg & w' & Hrun & Hsrc & _).
  exists netcfg, w'. split; assumption.
Defined.

Section Maintains.
Import Live777Runner.
Context (P : World -> Prop).
#[local] Abbreviation maintains := (Live777Runner.maintains P).

Lemma maintains_pure {A} (o : outcome A) : maintains (fun w => (o, w)).
Proof. intros w Hw. exact Hw. Qed.

Lemma maintains_ret {A} (a : A) : maintains (ret a).
Proof. intros w Hw. exact Hw. Qed.

Lemma maintains_raise {A} e : maintains (@raise World A e).
Proof. intros w Hw. exact Hw. Qed.

Lemma maintains_lift {A} (r : result A) : maintains (lift r).
Proof. intros w Hw. exact Hw. Qed.

Lemma maintains_get : maintains get.
Proof. intros w Hw. exact Hw. Qed.

Lemma maintains_history : maintains history.
Proof. intros w Hw. exact Hw. Qed.

Lemma maintains_modify f : (forall w, P w -> P (f w)) -> maintains (modify f).
Proof. intros Hf w Hw. apply Hf. exact Hw. Qed.

Lemma maintains_bind {A B} (m : M A) (k : A -> M B) :
  maintains m -> (forall a, maintains (k a)) -> maintains (bind m k).
Proof.
  intros Hm Hk w Hw. unfold bind. specialize (Hm w Hw).
  destruct (m w) as [[a | e |] w']; cbn [snd] in *; try assumption.
  apply Hk. exact Hm.
Qed.

Lemma maintains_try_except {A} (m : M A) (h : Exn -> M A) :
  maintains m -> (forall e, maintains (h e)) -> maintains (try_except m h).
Proof.
  intros Hm Hh w Hw. unfold try_except. specialize (Hm w Hw).
  destruct (m w) as [[a | e |] w']; cbn [snd] in *; try assumption.
  apply Hh. exact Hm.
Qed.

End Maintains.

(** Decompose a goal [maintains P m] along the structure of [m]. *)
Ltac maintains_step :=
  match goal with
  | |- forall _, _ => intros ?
  | |- Live777Runner.maintains _ (bind _ _) => apply maintains_bind
  | |- Live777Runner.maintains _ (try_except _ _) => apply maintains_try_except
  | |- Live777Runner.maintains _ (ret _) => apply maintains_ret
  | |- Live777Runner.maintains _ (raise _) => apply maintains_raise
  | |- Live777Runner.maintains _ (lift _) => apply maintains_lift
  | |- Live777Runner.maintains _ Live777Runner.get => apply maintains_get
  | |- Live777Runner.maintains _ Live777Runner.history => apply maintains_history
  | |- Live777Runner.maintains _ (match ?x with _ => _ end) => destruct x
  end.

Ltac maintains_tac := repeat maintains_step.

Section Lifecycle.
Import Live777Runner.
Context (env : Env) (config : Config).

Lemma tracked_at_most_one w :
  tracked w -> (length (tasks w) <= 1)%nat /\ (length (children w) <= 1)%nat.
Proof.
  intros [Htasks Hchildren]. split.
  - rewrite <- (length_map task_id), Htasks. destruct (live777_task w); cbn; lia.
  - rewrite Hchildren. destruct (live777_proc w); cbn; lia.
Qed.

Lemma tracked_emit e : maintains tracked (emit e).
Proof. intros w Hw. exact Hw. Qed.

Lemma tracked_sleep d : maintains tracked (sleep d).
Proof. apply tracked_emit. Qed.

Lemma tracked_lift_stun {A} (m : Stun.M A) : maintains tracked (lift_stun m).
Proof. intros w Hw. unfold lift_stun. destruct (m (stun w)) as [o sw]. exact Hw. Qed.

Lemma filter_only (pid : Z) : filter (fun p => p <> pid) [pid] = [].
Proof. rewrite filter_cons_False by (intros H; apply H; reflexivity). reflexivity. Qed.

Lemma tracked_kill_live777_proc : maintains tracked kill_live777_proc.
Proof.
  intros [sw tk [pid |] ts cs nt h] [Htasks Hchildren]; cbn in *; split; cbn;
    try assumption; try reflexivity.
  subst cs. apply filter_only.
Qed.

Lemma tracked_stop_live777 : maintains tracked stop_live777.
Proof.
  intros w [Htasks Hchildren]. rewrite stop_live777_eq. cbn [snd].
  destruct w as [sw [tid |] [pid |] ts cs nt h]; cbn in *; split; cbn;
    try assumption; try reflexivity; subst;
    try apply filter_only;
    destruct ts as [| t [| t' ts]]; try discriminate; injection Htasks as Hid;
    rewrite filter_cons_False by (intros H; apply H; exact Hid); reflexivity.
Qed.

Lemma tracked_start_live777 netcfg : maintains tracked (start_live777 netcfg).
Proof.
  intros w [Htasks Hchildren]. rewrite start_live777_eq.
  destruct w as [sw [tid |] pr ts cs nt h]; cbn in *; split; cbn;
    try assumption.
  destruct ts; [reflexivity | discriminate].
Qed.

Lemma tracked_start_live777_proc netcfg :
  maintains tracked (start_live777_proc env config netcfg).
Proof.
  intros [sw tk [pid |] ts cs nt h] [Htasks Hchildren]; cbn in *.
  - split; assumption.
  - unfold start_live777_proc, bind, get, lift, run_process, modify, emit, history, ret.
    cbn. subst cs.
    destruct (child_argv _ _ _ _) as [ex | argv]; cbn;
      [split; cbn; first [assumption | reflexivity] |].
    destruct (run_process_result env _) as [ex | pid]; cbn; split; cbn;
      first [assumption | reflexivity].
Qed.

Lemma tracked_set_tailing tid b : maintains tracked (set_tailing tid b).
Proof.
  intros w [Htasks Hchildren]. split; [| exact Hchildren].
  cbn. rewrite <- Htasks, map_map. apply map_ext. intros t.
  case_bool_decide as Hid; [cbn; symmetry; exact Hid | reflexivity].
Qed.

Lemma tracked_task_handler : maintains tracked task_handler.
Proof.
  unfold task_handler. maintains_tac;
    first [apply tracked_emit | apply tracked_kill_live777_proc | apply tracked_sleep].
Qed.

Lemma tracked_live777_task_launch t : maintains tracked (live777_task_launch env config t).
Proof.
  unfold live777_task_launch. maintains_tac;
    first [ apply tracked_start_live777_proc | apply tracked_set_tailing
          | apply tracked_task_handler ].
Qed.

Lemma tracked_live777_task_died t : maintains tracked (live777_task_died t).
Proof.
  unfold live777_task_died. maintains_tac;
    first [apply tracked_set_tailing | apply tracked_task_handler].
Qed.

Lemma tracked_get_netcfg fuel : maintains tracked (get_netcfg env fuel).
Proof.
  unfold get_netcfg, get_default_ip. maintains_tac;
    first [apply tracked_emit | apply tracked_lift_stun].
Qed.

Lemma tracked_probe_loop fuel n : forall i retry netcfg,
  maintains tracked (probe_loop env config fuel n i retry netcfg).
Proof.
  induction n as [| n IH]; intros; cbn [probe_loop].
  - maintains_tac.
  - maintains_tac; first [apply tracked_get_netcfg | apply tracked_sleep | apply IH].
Qed.

Lemma tracked_run_iteration fuel prev_netcfg :
  maintains tracked (run_iteration env config fuel prev_netcfg).
Proof.
  unfold run_iteration, run_probe, run_react. maintains_tac;
    first [ apply tracked_probe_loop | apply tracked_emit | apply tracked_sleep
          | apply tracked_stop_live777 | apply tracked_start_live777 ].
Qed.

Lemma tracked_step l w : tracked w -> tracked (step env config l w).
Proof.
  intros Hw. destruct l as [fuel prev | netcfg | | tid | tid]; cbn [step].
  - apply tracked_run_iteration. exact Hw.
  - apply tracked_start_live777. exact Hw.
  - apply tracked_stop_live777. exact Hw.
  - destruct (find_task tid false w); [apply tracked_live777_task_launch |]; exact Hw.
  - destruct (find_task tid true w); [apply tracked_live777_task_died |]; exact Hw.
Qed.

Lemma tracked_steps ls : forall w, tracked w -> tracked (steps env config ls w).
Proof.
  induction ls as [| l ls IH]; intros w Hw; [exact Hw |].
  cbn. apply IH, tracked_step, Hw.
Qed.

(** C9. From a new runner, whatever the main loop and the supervisory tasks
    do and in whatever order, there is at most one unfinished supervisory
    task and at most one child process. [__stop_live777], from any state,
    returns with both handles [None], having cancelled the task
    [live777_task] referred to, if any, waited for its end, then killed the
    child [live777_proc] referred to, if any, whether or not there was a
    task; in a state reached from a new runner, no task and no child is left
    after it. *)
Theorem stop_leaves_no_task_and_no_child (ls : list Label)
    (stun_host : string) (stun_port : Z) (stun_timeout : Q) (stun_retries : Z)
    (stun_retries_delay : Q) :
  let w := steps env config ls
             (init stun_host stun_port stun_timeout stun_retries stun_retries_delay) in
  ((length (tasks w) <= 1)%nat /\ (length (children w) <= 1)%nat)
  /\ (forall w0 : World,
        exists w',
          stop_live777 w0 = (Ret tt, w')
          /\ live777_task w' = None /\ live777_proc w' = None
          /\ trace w' = stop_events w0 ++ trace w0)
  /\ (tasks (snd (stop_live777 w)) = [] /\ children (snd (stop_live777 w)) = []).
Proof.
  cbn zeta.
  assert (tracked (steps env config ls
                     (init stun_host stun_port stun_timeout stun_retries
                        stun_retries_delay))) as Hw.
  { apply tracked_steps. split; reflexivity. }
  split_and!.
  - apply tracked_at_most_one, Hw.
  - apply tracked_at_most_one, Hw.
  - intros w0. eexists. rewrite stop_live777_eq. split_and!; reflexivity.
  - pose proof (tracked_stop_live777 _ Hw) as [Htasks _].
    rewrite stop_live777_eq in *. cbn [snd live777_task tasks] in *.
    cbn [option_list] in Htasks. apply map_eq_nil in Htasks. exact Htasks.
  - pose proof (tracked_stop_live777 _ Hw) as [_ Hchildren].
    rewrite stop_live777_eq in *. cbn [snd live777_proc children] in *.
    exact Hchildren.
Qed.

End Lifecycle.

(** On the offline host: after the first pass of the main loop, the launch
    of the child and a stop, nothing is left; a stop with a child but no task
    still kills the child. *)
Lemma stop_examples :
  let w := Live777Runner.steps RunnerScenario.offline RunnerScenario.config
             [Live777Runner.DoIteration 2 None; Live777Runner.TaskLaunch 0]
             RunnerScenario.fresh in
  Live777Runner.children w = [4242]
  /\ Live777Runner.stop_events w
     = [Live777Runner.KillProcess 4242 5; Live777Runner.GatherTask 0;
        Live777Runner.CancelTask 0; Live777Runner.LogInfo "Stopping Live777 ...";
        Live777Runner.Enter_stop_live777]
  /\ Live777Runner.stop_events
       (Live777Runner.set_live777_proc (Some 7) RunnerScenario.fresh)
     = [Live777Runner.KillProcess 7 5; Live777Runner.Enter_stop_live777].
Proof. vm_compute. split_and!; reflexivity. Qed.

(* ===================================================================== *)
(** * More on the address decoder                                         *)
(* ===================================================================== *)

Section Codec.
Import Stun.

Lemma byte_of_to_N (a : byte) : byte_of_N (Byte.to_N a) = a.
Proof.
  unfold byte_of_N. pose proof (Byte.to_N_bounded a).
  rewrite N.mod_small by lia. rewrite Byte.of_to_N. reflexivity.
Qed.

Lemma to_N_byte_of_N (n : N) : Byte.to_N (byte_of_N n) = (n mod 256)%N.
Proof.
  unfold byte_of_N. destruct (Byte.of_N (n mod 256)) as [b |] eqn:Hb.
  - apply Byte.to_of_N. exact Hb.
  - apply Byte.of_N_None_iff in Hb. pose proof (N.mod_lt n 256). lia.
Qed.

Lemma lxor_byte_range (a b : N) : (a < 256)%N -> (b < 256)%N -> (N.lxor a b < 256)%N.
Proof.
  intros Ha Hb.
  destruct (N.eq_dec (N.lxor a b) 0%N) as [-> | Hnz]; [lia |].
  change 256%N with (2 ^ 8)%N. apply N.log2_lt_pow2; [lia |].
  eapply N.le_lt_trans; [apply N.log2_lxor |].
  apply N.max_lub_lt.
  - destruct (N.eq_dec a 0%N) as [-> | ?]; [cbn; lia |]. apply N.log2_lt_pow2; lia.
  - destruct (N.eq_dec b 0%N) as [-> | ?]; [cbn; lia |]. apply N.log2_lt_pow2; lia.
Qed.

Lemma byte_xor_involutive (a b : byte) : byte_xor (byte_xor a b) b = a.
Proof.
  unfold byte_xor. rewrite to_N_byte_of_N.
  pose proof (Byte.to_N_bounded a). pose proof (Byte.to_N_bounded b).
  rewrite N.mod_small by (apply lxor_byte_range; lia).
  rewrite N.lxor_assoc, N.lxor_nilpotent, N.lxor_0_r. apply byte_of_to_N.
Qed.

Lemma length_repeat_list {A} (l : list A) (n : nat) :
  length (repeat_list l n) = (n * length l)%nat.
Proof. induction n as [| n IH]; [reflexivity |]. cbn. rewrite length_app, IH. lia. Qed.

(** The mask [__trans_xor] cuts is as long as the data. *)
Lemma xor_mask_length (data key : bytes) :
  key <> [] ->
  length (take (length data) (repeat_list key (length data / length key + 1))) = length data.
Proof.
  intros Hkey. rewrite length_take, length_repeat_list.
  assert (length key <> 0)%nat as Hlen by (destruct key; [contradiction | discriminate]).
  pose proof (Nat.mul_succ_div_gt (length data) (length key) Hlen). lia.
Qed.

Lemma zip_xor_involutive : forall data mask : bytes,
  length mask = length data ->
  zip_with byte_xor (zip_with byte_xor data mask) mask = data.
Proof.
  induction data as [| a data IH]; intros [| b mask] Hlen; try discriminate; [reflexivity |].
  cbn. rewrite byte_xor_involutive, IH by (cbn in Hlen; lia). reflexivity.
Qed.

Lemma trans_xor_length (data trans_id : bytes) :
  length (trans_xor data trans_id) = length data.
Proof.
  destruct trans_id as [| t trans_id]; [reflexivity |].
  unfold trans_xor. rewrite length_zip_with, xor_mask_length; [lia | discriminate].
Qed.

Lemma trans_xor_involutive (data trans_id : bytes) :
  trans_xor (trans_xor data trans_id) trans_id = data.
Proof.
  destruct trans_id as [| t trans_id]; [reflexivity |].
  pose proof (trans_xor_length data (t :: trans_id)) as Hlen.
  unfold trans_xor in *. rewrite Hlen.
  apply zip_xor_involutive, xor_mask_length. discriminate.
Qed.

(** X1. [__trans_xor] keeps the length of the data and undoes itself:
    applied twice with the same [trans_id] it gives the data back, whatever
    the two byte strings are. *)
Theorem trans_xor_round_trip (data trans_id : bytes) :
  length (trans_xor data trans_id) = length data
  /\ trans_xor (trans_xor data trans_id) trans_id = data.
Proof. split; [apply trans_xor_length | apply trans_xor_involutive]. Qed.

Lemma byte_to_N_inj (a b : byte) : Byte.to_N a = Byte.to_N b -> a = b.
Proof.
  intros H. apply (f_equal Byte.of_N) in H. rewrite !Byte.of_to_N in H.
  injection H as ->. reflexivity.
Qed.

Lemma div_mod_digit (q r k m : N) :
  (r < k -> q mod 256 = m -> (k * q + r) / k mod 256 = m)%N.
Proof.
  intros Hr Hm. rewrite <- (N.div_unique (k * q + r) k q r) by (first [exact Hr | reflexivity]).
  exact Hm.
Qed.

Lemma quad_digits (a b c d : N) :
  (a < 256 -> b < 256 -> c < 256 -> d < 256 ->
   let n := ((((0 * 256 + a) * 256 + b) * 256 + c) * 256 + d) in
   n / 16777216 mod 256 = a /\ n / 65536 mod 256 = b
   /\ n / 256 mod 256 = c /\ n mod 256 = d)%N.
Proof.
  intros Ha Hb Hc Hd n. subst n. split_and!.
  - replace ((((0 * 256 + a) * 256 + b) * 256 + c) * 256 + d)%N
      with (16777216 * a + (b * 65536 + c * 256 + d))%N by lia.
    apply div_mod_digit; [lia | apply N.mod_small; lia].
  - replace ((((0 * 256 + a) * 256 + b) * 256 + c) * 256 + d)%N
      with (65536 * (a * 256 + b) + (c * 256 + d))%N by lia.
    apply div_mod_digit; [lia |].
    symmetry. apply (N.mod_unique _ _ a); lia.
  - replace ((((0 * 256 + a) * 256 + b) * 256 + c) * 256 + d)%N
      with (256 * ((a * 256 + b) * 256 + c) + d)%N by lia.
    apply div_mod_digit; [lia |].
    symmetry. apply (N.mod_unique _ _ (a * 256 + b)); lia.
  - symmetry. apply (N.mod_unique _ _ ((a * 256 + b) * 256 + c)); lia.
Qed.

(** The text of an IPv4 address is the dotted quad of its four bytes. *)
Lemma str_IPv4Address_bytes (a b c d : byte) :
  str_IPv4Address (int_from_bytes [a; b; c; d]) = dotted_quad a b c d.
Proof.
  unfold str_IPv4Address, dotted_quad, int_from_bytes. cbn [fold_left].
  pose proof (Byte.to_N_bounded a). pose proof (Byte.to_N_bounded b).
  pose proof (Byte.to_N_bounded c). pose proof (Byte.to_N_bounded d).
  destruct (quad_digits (Byte.to_N a) (Byte.to_N b) (Byte.to_N c) (Byte.to_N d))
    as (-> & -> & -> & ->); try lia.
  reflexivity.
Qed.

Lemma unpack_H_pair (p1 p2 : byte) :
  unpack_H [p1; p2] = inr (256 * Z.of_N (Byte.to_N p1) + Z.of_N (Byte.to_N p2)).
Proof. unfold unpack_H, int_from_bytes. cbn. f_equal. lia. Qed.

(** X2. A MAPPED-ADDRESS value for IPv4 decodes to the dotted quad of its
    bytes 4..8 and the big-endian port of its bytes 2..4; the first byte and
    whatever follows the eighth are ignored. A XOR-MAPPED-ADDRESS value whose
    port is masked with [21 12] and whose address is masked with the magic
    cookie decodes, with the [trans_id] of the request, to the same
    address. *)
Theorem parse_address_ipv4 (reserved p1 p2 a b c d : byte) (rest token : bytes) :
  let decoded :=
    inr {| ip := dotted_quad a b c d;
           port := 256 * Z.of_N (Byte.to_N p1) + Z.of_N (Byte.to_N p2) |} in
  parse_address (reserved :: Byte.x01 :: p1 :: p2 :: a :: b :: c :: d :: rest) [] = decoded
  /\ parse_address
       (reserved :: Byte.x01
          :: byte_xor p1 Byte.x21 :: byte_xor p2 Byte.x12
          :: byte_xor a Byte.x21 :: byte_xor b Byte.x12
          :: byte_xor c Byte.xa4 :: byte_xor d Byte.x42 :: rest)
       (magic ++ token) = decoded.
Proof.
  cbn zeta. split.
  - unfold parse_address. cbn [length nth].
    rewrite bool_decide_eq_false_2 by (cbn; lia).
    change (slice 2 4 (reserved :: Byte.x01 :: p1 :: p2 :: a :: b :: c :: d :: rest))
      with [p1; p2].
    change (slice 4 8 (reserved :: Byte.x01 :: p1 :: p2 :: a :: b :: c :: d :: rest))
      with [a; b; c; d].
    cbn [trans_xor]. rewrite unpack_H_pair, str_IPv4Address_bytes.
    change (Z.of_N (Byte.to_N Byte.x01)) with 1.
    rewrite (bool_decide_eq_true_2 (1 ∈ [1; 2])) by (apply elem_of_cons; auto).
    rewrite (bool_decide_eq_true_2 (1 = 1)) by reflexivity.
    rewrite bool_decide_eq_false_2 by lia. reflexivity.
  - unfold parse_address. cbn [length nth].
    rewrite bool_decide_eq_false_2 by (cbn; lia).
    match goal with |- context [slice 2 4 ?l] =>
      change (slice 2 4 l) with [byte_xor p1 Byte.x21; byte_xor p2 Byte.x12];
      change (slice 4 8 l) with [byte_xor a Byte.x21; byte_xor b Byte.x12;
                                 byte_xor c Byte.xa4; byte_xor d Byte.x42]
    end.
    change (trans_xor [byte_xor p1 Byte.x21; byte_xor p2 Byte.x12] (magic ++ token))
      with [byte_xor (byte_xor p1 Byte.x21) Byte.x21; byte_xor (byte_xor p2 Byte.x12) Byte.x12].
    change (trans_xor [byte_xor a Byte.x21; byte_xor b Byte.x12;
                       byte_xor c Byte.xa4; byte_xor d Byte.x42] (magic ++ token))
      with [byte_xor (byte_xor a Byte.x21) Byte.x21; byte_xor (byte_xor b Byte.x12) Byte.x12;
            byte_xor (byte_xor c Byte.xa4) Byte.xa4; byte_xor (byte_xor d Byte.x42) Byte.x42].
    rewrite !byte_xor_involutive, unpack_H_pair, str_IPv4Address_bytes.
    change (Z.of_N (Byte.to_N Byte.x01)) with 1.
    rewrite (bool_decide_eq_true_2 (1 ∈ [1; 2])) by (apply elem_of_cons; auto).
    rewrite (bool_decide_eq_true_2 (1 = 1)) by reflexivity.
    rewrite bool_decide_eq_false_2 by lia. reflexivity.
Qed.

Lemma slice_port_length (data : bytes) : (4 <= length data)%nat -> length (slice 2 4 data) = 2%nat.
Proof. intros H. unfold slice. rewrite length_take, length_drop. lia. Qed.

(** X3. [__parse_address] returns an address exactly when the family byte is
    1 and there are at least 8 bytes, or the family byte is 2 and there are
    at least 20; every other input raises [RuntimeError], whatever
    [trans_id] is. *)
Theorem parse_address_accepts (data trans_id : bytes) :
  ((exists a, parse_address data trans_id = inr a)
   <-> (nth 1 data Byte.x00 = Byte.x01 /\ (8 <= length data)%nat)
       \/ (nth 1 data Byte.x00 = Byte.x02 /\ (20 <= length data)%nat))
  /\ (forall e, parse_address data trans_id = inl e -> exn_class e = RuntimeError).
Proof.
  unfold parse_address.
  case_bool_decide as Hshort.
  { split; [| intros e [= <-]; reflexivity].
    split; [intros [a [=]] | intros [[_ H] | [_ H]]; lia]. }
  assert (forall b : byte, Z.of_N (Byte.to_N (nth 1 data Byte.x00)) = Z.of_N (Byte.to_N b)
                           <-> nth 1 data Byte.x00 = b) as Hfam.
  { intros b. split; [intros H; apply byte_to_N_inj; lia | intros ->; reflexivity]. }
  case_bool_decide as Hfamily; cbn [negb].
  - unfold unpack_H.
    rewrite bool_decide_eq_true_2
      by (rewrite trans_xor_length; apply slice_port_length; lia).
    cbn [rbind].
    case_bool_decide as Hv4.
    + apply (Hfam Byte.x01) in Hv4.
      case_bool_decide as Hlen; (split; [| intros e [= <-]; reflexivity]).
      * split; [intros [a [=]] |]. intros [[_ H] | [H _]]; [lia |]. congruence.
      * split; [intros _; left; split; [exact Hv4 | lia] | eauto].
    + assert (nth 1 data Byte.x00 = Byte.x02) as Hv6.
      { apply (Hfam Byte.x02). change (Z.of_N (Byte.to_N Byte.x02)) with 2.
        apply elem_of_cons in Hfamily as [H | H]; [contradiction |].
        apply elem_of_cons in H as [H | H]; [exact H | inversion H]. }
      case_bool_decide as Hlen; (split; [| intros e [= <-]; reflexivity]).
      * split; [intros [a [=]] |]. intros [[H _] | [_ H]]; [congruence | lia].
      * split; [intros _; right; split; [exact Hv6 | lia] | eauto].
  - split; [| intros e [= <-]; reflexivity].
    split; [intros [a [=]] |].
    intros [[H _] | [H _]]; exfalso; apply Hfamily; rewrite H; cbn;
      rewrite !elem_of_cons; auto.
Qed.

End Codec.

(** A MAPPED-ADDRESS value of eight bytes is accepted; a single byte is
    refused with [RuntimeError]. *)
Lemma parse_address_accepts_examples :
  (exists a,
     Stun.parse_address
       [Byte.x00; Byte.x01; Byte.x0d; Byte.x96; Byte.xcb; Byte.x00; Byte.x71; Byte.x07] []
     = inr a)
  /\ (exists e, Stun.parse_address [Byte.x00] [] = inl e /\ exn_class e = RuntimeError).
Proof.
  split.
  - apply (proj1 (parse_address_accepts _ [])). left. split; [reflexivity | cbn; lia].
  - eexists. split; [reflexivity |].
    apply (proj2 (parse_address_accepts [Byte.x00] [])). reflexivity.
Defined.


(* ===================================================================== *)
(** * More on the attribute walk                                          *)
(* ===================================================================== *)

Section AttributeWalk.
Import Stun.

Lemma int_from_bytes_be2 (n : N) : (n < 65536)%N -> int_from_bytes (be_bytes 2 n) = n.
Proof.
  intros Hn. unfold int_from_bytes. cbn [be_bytes app fold_left].
  rewrite !to_N_byte_of_N.
  assert (n / 256 < 256)%N as Hq by (apply N.Div0.div_lt_upper_bound; lia).
  rewrite (N.mod_small (n / 256)) by exact Hq.
  pose proof (N.div_mod' n 256). lia.
Qed.

Lemma length_be_bytes (w : nat) (n : N) : length (be_bytes w n) = w.
Proof.
  revert n. induction w as [| w IH]; intros n; [reflexivity |].
  cbn [be_bytes]. rewrite length_app, IH. cbn. lia.
Qed.

(** What [">HH"] unpacks from two packed 16-bit fields. *)
Lemma unpack_HH_be (a b : N) :
  (a < 65536)%N -> (b < 65536)%N ->
  unpack_HH (be_bytes 2 a ++ be_bytes 2 b) = inr (Z.of_N a, Z.of_N b).
Proof.
  intros Ha Hb. unfold unpack_HH.
  rewrite bool_decide_eq_true_2 by (rewrite length_app, !length_be_bytes; reflexivity).
  rewrite take_app_length' by (symmetry; apply length_be_bytes).
  rewrite drop_app_length' by (symmetry; apply length_be_bytes).
  rewrite !int_from_bytes_be2 by assumption. reflexivity.
Qed.

Lemma unpack_HH_nonneg bs t l : unpack_HH bs = inr (t, l) -> 0 <= l.
Proof.
  unfold unpack_HH. case_bool_decide; [| discriminate]. intros [= _ <-]. lia.
Qed.

(** The walk from [offset] reads the body from [offset] on only. *)
Lemma parse_attrs_shift fuel : forall resp trans_id offset remaining parsed,
  0 <= offset ->
  parse_attrs fuel resp trans_id offset remaining parsed
  = parse_attrs fuel (drop (Z.to_nat offset) resp) trans_id 0 remaining parsed.
Proof.
  induction fuel as [| fuel IH]; intros resp trans_id offset remaining parsed Hoff;
    [reflexivity |].
  cbn [parse_attrs]. case_bool_decide as Hrem; [| reflexivity].
  replace (slice (Z.to_nat 0) (Z.to_nat (0 + 4)) (drop (Z.to_nat offset) resp))
    with (slice (Z.to_nat offset) (Z.to_nat (offset + 4)) resp).
  2:{ unfold slice. rewrite drop_drop. f_equal; [lia | f_equal; lia]. }
  destruct (unpack_HH _) as [e | [attr_type attr_len]] eqn:Hunpack; [reflexivity |].
  apply unpack_HH_nonneg in Hunpack.
  replace (drop (Z.to_nat (0 + 4)) (drop (Z.to_nat offset) resp))
    with (drop (Z.to_nat (offset + 4)) resp)
    by (rewrite drop_drop; f_equal; lia).
  destruct (match attr_field attr_type with
            | Some _ => _
            | None => _
            end) as [e | parsed']; [reflexivity |].
  rewrite (IH resp trans_id (offset + 4 + attr_len)) by lia.
  rewrite (IH (drop (Z.to_nat offset) resp) trans_id (0 + 4 + attr_len)) by lia.
  rewrite drop_drop. do 2 f_equal. lia.
Qed.

(** Any fuel that covers what remains gives the same walk. *)
Lemma parse_attrs_fuel fuel1 : forall fuel2 resp trans_id offset remaining parsed,
  remaining <= Z.of_nat fuel1 ->
  remaining <= Z.of_nat fuel2 ->
  parse_attrs fuel1 resp trans_id offset remaining parsed
  = parse_attrs fuel2 resp trans_id offset remaining parsed.
Proof.
  induction fuel1 as [| fuel1 IH]; intros fuel2 resp trans_id offset remaining parsed H1 H2.
  - cbn [parse_attrs]. rewrite bool_decide_eq_false_2 by lia.
    destruct fuel2; cbn [parse_attrs]; rewrite bool_decide_eq_false_2 by lia; reflexivity.
  - destruct fuel2 as [| fuel2].
    + cbn [parse_attrs]. rewrite !bool_decide_eq_false_2 by lia. reflexivity.
    + cbn [parse_attrs]. case_bool_decide as Hrem; [| reflexivity].
      destruct (unpack_HH _) as [e | [attr_type attr_len]] eqn:Hunpack; [reflexivity |].
      apply unpack_HH_nonneg in Hunpack.
      destruct (match attr_field attr_type with
                | Some _ => _
                | None => _
                end) as [e | parsed']; [reflexivity |].
      apply IH; lia.
Qed.

Lemma parse_body_nil trans_id parsed : parse_body [] trans_id parsed = Ret parsed.
Proof. reflexivity. Qed.

(** The walk takes one attribute off the front of the body. *)
Lemma parse_body_cons (attr_type : N) (value rest trans_id : bytes) parsed :
  (attr_type < 65536)%N ->
  Z.of_nat (length value) < 65536 ->
  parse_body (encode_attr attr_type value ++ rest) trans_id parsed =
  match attr_field (Z.of_N attr_type) with
  | Some field =>
      match parse_address (value ++ rest) (xor_key (Z.of_N attr_type) trans_id) with
      | inl e => Raise e
      | inr a => parse_body rest trans_id (<[field := a]> parsed)
      end
  | None => parse_body rest trans_id parsed
  end.
Proof.
  intros Htype Hlen. unfold parse_body, encode_attr.
  set (header := be_bytes 2 attr_type ++ be_bytes 2 (N.of_nat (length value))).
  assert (length header = 4%nat) as Hheader
    by (unfold header; rewrite length_app, !length_be_bytes; reflexivity).
  replace (be_bytes 2 attr_type ++ be_bytes 2 (N.of_nat (length value)) ++ value)
    with (header ++ value) by (unfold header; rewrite <- app_assoc; reflexivity).
  rewrite <- !app_assoc.
  rewrite length_app, Hheader. cbn [Nat.add parse_attrs].
  rewrite bool_decide_eq_true_2 by lia.
  change (slice (Z.to_nat 0) (Z.to_nat (0 + 4)) (header ++ value ++ rest))
    with (take 4 (header ++ value ++ rest)).
  rewrite take_app_length' by (symmetry; exact Hheader).
  unfold header at 1. rewrite unpack_HH_be by lia.
  change (drop (Z.to_nat (0 + 4)) (header ++ value ++ rest))
    with (drop 4 (header ++ value ++ rest)).
  rewrite drop_app_length' by (symmetry; exact Hheader).
  assert (forall parsed',
            parse_attrs (3 + length (value ++ rest)) (header ++ value ++ rest) trans_id
              (0 + 4 + Z.of_N (N.of_nat (length value)))
              (Z.of_nat (S (S (S (S (length (value ++ rest))))))
               - (4 + Z.of_N (N.of_nat (length value)))) parsed'
            = parse_attrs (length rest) rest trans_id 0 (Z.of_nat (length rest)) parsed')
    as Hnext.
  { intros parsed'. rewrite parse_attrs_shift by lia.
    replace (Z.to_nat (0 + 4 + Z.of_N (N.of_nat (length value))))
      with (length header + length value)%nat by lia.
    rewrite app_assoc, drop_app_length' by (rewrite length_app; reflexivity).
    rewrite length_app.
    replace (Z.of_nat (S (S (S (S (length value + length rest)))))
             - (4 + Z.of_N (N.of_nat (length value))))
      with (Z.of_nat (length rest)) by lia.
    apply parse_attrs_fuel; lia. }
  unfold xor_key.
  destruct (attr_field (Z.of_N attr_type)) as [field |]; [| apply Hnext].
  destruct (parse_address _ _) as [e | a]; cbn [rbind]; [reflexivity | apply Hnext].
Qed.

(** A body, or what is left of it, of one to three bytes cannot hold an
    attribute header. *)
Lemma parse_body_fragment (resp trans_id : bytes) parsed :
  (1 <= length resp <= 3)%nat ->
  parse_body resp trans_id parsed
  = Raise (MkExn StructError "unpack requires a buffer of 4 bytes").
Proof.
  intros Hlen. unfold parse_body.
  destruct (length resp) as [| n] eqn:Hn; [lia |]. cbn [parse_attrs].
  rewrite bool_decide_eq_true_2 by lia.
  unfold unpack_HH. rewrite bool_decide_eq_false_2; [reflexivity |].
  unfold slice. rewrite length_take, length_drop. cbn. lia.
Qed.

(** X4. The attribute walk of [__make_request], attribute by attribute: an
    empty body gives the dictionary as it is; an attribute of a type that is
    not in the table is skipped by its length; an address attribute is
    decoded from its value followed by the rest of the body (its own length
    is not looked at), stored under its field, and the walk goes on after
    its value; an error of the decoder ends the walk. One to three bytes that
    cannot be a header raise [struct.error]. *)
Theorem parse_body_walk (trans_id : bytes) (parsed : gmap string StunAddress) :
  parse_body [] trans_id parsed = Ret parsed
  /\ (forall (attr_type : N) (value rest : bytes),
        (attr_type < 65536)%N ->
        Z.of_nat (length value) < 65536 ->
        parse_body (encode_attr attr_type value ++ rest) trans_id parsed =
        match attr_field (Z.of_N attr_type) with
        | Some field =>
            match parse_address (value ++ rest) (xor_key (Z.of_N attr_type) trans_id) with
            | inl e => Raise e
            | inr a => parse_body rest trans_id (<[field := a]> parsed)
            end
        | None => parse_body rest trans_id parsed
        end)
  /\ (forall resp,
        (1 <= length resp <= 3)%nat ->
        parse_body resp trans_id parsed
        = Raise (MkExn StructError "unpack requires a buffer of 4 bytes")).
Proof.
  split_and!.
  - apply parse_body_nil.
  - intros. apply parse_body_cons; assumption.
  - intros. apply parse_body_fragment. assumption.
Qed.

(** X5. When a body holds two attributes stored under the same field (a
    MAPPED-ADDRESS and a XOR-MAPPED-ADDRESS, in either order, or twice the
    same type), the later one is the one kept. *)
Theorem later_attribute_wins (type1 type2 : N) (value1 value2 trans_id : bytes)
    (field : string) (a1 a2 : StunAddress) :
  (type1 < 65536)%N -> (type2 < 65536)%N ->
  Z.of_nat (length value1) < 65536 -> Z.of_nat (length value2) < 65536 ->
  attr_field (Z.of_N type1) = Some field ->
  attr_field (Z.of_N type2) = Some field ->
  parse_address (value1 ++ encode_attr type2 value2) (xor_key (Z.of_N type1) trans_id)
    = inr a1 ->
  parse_address value2 (xor_key (Z.of_N type2) trans_id) = inr a2 ->
  exists parsed,
    parse_body (encode_attr type1 value1 ++ encode_attr type2 value2) trans_id ∅
      = Ret parsed
    /\ parsed !! field = Some a2.
Proof.
  intros Ht1 Ht2 Hl1 Hl2 Hf1 Hf2 Hp1 Hp2.
  rewrite parse_body_cons, Hf1, Hp1 by assumption.
  rewrite <- (app_nil_r (encode_attr type2 value2)).
  rewrite parse_body_cons, Hf2, app_nil_r, Hp2 by assumption.
  rewrite parse_body_nil. eexists. split; [reflexivity |].
  apply lookup_insert_eq.
Qed.

End AttributeWalk.

(** A body made of one MAPPED-ADDRESS attribute. *)
Lemma parse_body_walk_example :
  exists parsed,
    Stun.parse_body
      (Stun.encode_attr 1 [Byte.x00; Byte.x01; Byte.x0d; Byte.x96;
                           Byte.xcb; Byte.x00; Byte.x71; Byte.x07] ++ [])
      (Stun.magic ++ Scenario.tok) ∅
    = Ret parsed
    /\ parsed !! "ext" = Some {| Stun.ip := "203.0.113.7"; Stun.port := 3478 |}.
Proof.
  rewrite (proj1 (proj2 (parse_body_walk (Stun.magic ++ Scenario.tok) ∅)) 1%N
             [Byte.x00; Byte.x01; Byte.x0d; Byte.x96; Byte.xcb; Byte.x00; Byte.x71; Byte.x07]
             [] ltac:(lia) ltac:(cbn; lia)).
  eexists. split; [vm_compute; reflexivity |]. reflexivity.
Defined.

(** A MAPPED-ADDRESS for [203.0.113.7] followed by a XOR-MAPPED-ADDRESS
    for [198.51.100.9]: the second is the external address kept. *)
Lemma later_attribute_wins_example :
  exists parsed,
    Stun.parse_body
      (Stun.encode_attr 1 [Byte.x00; Byte.x01; Byte.x0d; Byte.x96;
                           Byte.xcb; Byte.x00; Byte.x71; Byte.x07]
       ++ Stun.encode_attr 32 [Byte.x00; Byte.x01; Byte.x2c; Byte.x84;
                               Byte.xe7; Byte.x21; Byte.xc0; Byte.x4b])
      (Stun.magic ++ Scenario.tok) ∅
    = Ret parsed
    /\ parsed !! "ext" = Some {| Stun.ip := "198.51.100.9"; Stun.port := 3478 |}.
Proof.
  apply (later_attribute_wins 1 32 _ _ _ "ext"
           {| Stun.ip := "203.0.113.7"; Stun.port := 3478 |});
    first [lia | cbn; lia | reflexivity | vm_compute; reflexivity].
Defined.


(* ===================================================================== *)
(** * More on the probe                                                   *)
(* ===================================================================== *)

Section ProbeMore.
Import Stun.
Context (env : Env).

(** A logical request with no retry configured makes no attempt and reports
    success with no attribute. *)
Lemma make_request_without_retries ctx addr req w :
  self_retries (self w) <= 0 ->
  make_request env ctx addr req w
  = (Ret {| ok := true; ext := None; src := None; changed := None |},
     log (TokenBytes 12) w).
Proof.
  intros Hretries. rewrite make_request_eq. cbn zeta.
  replace (Z.to_nat (self_retries (self w))) with 0%nat by lia.
  reflexivity.
Qed.

(** X6. With [retries <= 0] the dialogue sends no datagram at all: both
    logical requests make no attempt and count as answered, without an
    [ext], and the classification is Full Cone NAT. *)
Theorem no_retries_classifies_full_cone (src_ip : string) (w : World) :
  self_retries (self w) <= 0 ->
  exists w',
    get_nat_type env src_ip w
    = (Ret (FULL_CONE_NAT, {| ok := true; ext := None; src := None; changed := None |}), w')
    /\ self w' = self w
    /\ trace w' = TokenBytes 12 :: TokenBytes 12 :: trace w
    /\ sent_messages (trace w') = sent_messages (trace w).
Proof.
  intros Hretries. unfold get_nat_type.
  cbv beta iota zeta delta [bind get_self lift ret raise].
  rewrite make_request_without_retries by exact Hretries. cbn [ok negb].
  change (pack_HHI 3 4 6) with (@inr Exn bytes change_ip_and_port). cbn [of_result].
  rewrite make_request_without_retries by exact Hretries.
  cbn [ok ext ext_ip_is]. eexists. split_and!; reflexivity.
Qed.

(** A failed logical request carries no address. *)
Lemma make_request_failed ctx addr req w r w' :
  make_request env ctx addr req w = (Ret r, w') ->
  ok r = false ->
  ext r = None /\ src r = None /\ changed r = None.
Proof.
  rewrite make_request_eq. cbn zeta.
  destruct (request_loop _ _ _ _ _ _ _) as [[[resp error] | e |] w2]; [| discriminate ..].
  destruct (bool_decide (error = "")); cbn [negb].
  - destruct (parse_attrs _ _ _ _ _ _); [| discriminate ..].
    intros [= <- _]. discriminate.
  - intros [= <- _] _. auto.
Qed.

(** The types that stand for a step that failed come with the failed
    response of that step; the others with an answered one. [ERROR] is
    never the result of the dialogue. *)
Lemma get_nat_type_response src_ip w nat_type resp w' :
  get_nat_type env src_ip w = (Ret (nat_type, resp), w') ->
  (nat_type ∈ [BLOCKED; SYMMETRIC_UDP_FW; RESTRICTED_PORT_NAT; CHANGED_ADDR_ERROR]
   /\ ok resp = false /\ ext resp = None)
  \/ (nat_type ∈ [OPEN_INTERNET; FULL_CONE_NAT; RESTRICTED_NAT; SYMMETRIC_NAT]
      /\ ok resp = true).
Proof.
  unfold get_nat_type.
  cbv beta iota zeta delta [bind get_self lift ret raise].
  change (pack_HHI 3 4 6) with (@inr Exn bytes change_ip_and_port).
  change (pack_HHI 3 4 2) with (@inr Exn bytes change_port).
  cbn [of_result].
  repeat
    match goal with
    | |- context [make_request env ?c ?a ?r ?w0] =>
        let E := fresh "E" in
        let F := fresh "F" in
        destruct (make_request env c a r w0) as [[? | ? |] ?] eqn:E;
        [pose proof (make_request_failed _ _ _ _ _ _ E) as F; clear E | |]
    | |- (_, _) = (_, _) -> _ => intros [= <- <- <-]
    | |- context [negb (ok ?r)] => destruct (ok r) eqn:?; cbn [negb]
    | |- context [if ok ?r then _ else _] => destruct (ok r) eqn:?
    | |- context [if ext_ip_is ?f ?s then _ else _] => destruct (ext_ip_is f s)
    | |- context [match changed ?r with _ => _ end] => destruct (changed r)
    | |- context [bool_decide ?P] => destruct (bool_decide P)
    end;
    try discriminate;
    repeat match goal with
           | F : ?P -> _, H : ?P |- _ => specialize (F H)
           end;
    rewrite !elem_of_cons; intuition (auto; congruence).
Qed.

Lemma bind_Ret {S A B} (m : Py.M S A) (k : A -> Py.M S B) w b w' :
  bind m k w = (Ret b, w') ->
  exists a w1, m w = (Ret a, w1) /\ k a w1 = (Ret b, w').
Proof.
  unfold bind. destruct (m w) as [[a | e |] w1]; [eauto | discriminate ..].
Qed.

Lemma try_finally_Ret {S A} (body : Py.M S A) (fin : Py.M S unit) w b w' :
  try_finally body fin w = (Ret b, w') -> exists w1, body w = (Ret b, w1).
Proof.
  unfold try_finally. destruct (body w) as [[a | e |] w1]; [| | discriminate];
    destruct (fin w1) as [[[] | e' |] w2]; try discriminate.
  intros [= <- _]. eauto.
Qed.

(** What the [try] block of [get_info] returns comes from the dialogue. *)
Lemma get_info_try_Ret fuel src_ip src_port w nat_type ext_ip w' :
  get_info_try env fuel src_ip src_port w = (Ret (nat_type, ext_ip), w') ->
  exists w0 resp w1,
    get_nat_type env src_ip w0 = (Ret (nat_type, resp), w1)
    /\ ext_ip = match ext resp with
                | Some a => ip a
                | None => ""
                end.
Proof.
  unfold get_info_try, with_socket. intros H.
  apply bind_Ret in H as (src_infos & w1 & _ & H).
  destruct src_infos as [| src_info rest]; [discriminate |].
  apply bind_Ret in H as (s1 & w2 & _ & H).
  apply bind_Ret in H as (stun_infos & w3 & _ & H).
  destruct (map _ _) as [| first_ip stun_ips]; [discriminate |].
  apply bind_Ret in H as (s2 & w4 & _ & H).
  apply bind_Ret in H as (u1 & w5 & _ & H).
  apply bind_Ret in H as (u2 & w6 & _ & H).
  apply bind_Ret in H as (u3 & w7 & _ & H).
  apply try_finally_Ret in H as (w8 & H).
  apply bind_Ret in H as (u4 & w9 & _ & H).
  apply bind_Ret in H as (s3 & w10 & _ & H).
  apply bind_Ret in H as (u5 & w11 & _ & H).
  apply bind_Ret in H as (u6 & w12 & _ & H).
  apply bind_Ret in H as ([nat_type' resp] & w13 & Hdialogue & H).
  unfold ret in H. injection H as <- <- _.
  exists w12, resp, w13. split; [exact Hdialogue | reflexivity].
Qed.

(** X7. When [get_info] reports [ERROR], [BLOCKED], [SYMMETRIC_UDP_FW],
    [RESTRICTED_PORT_NAT] or [CHANGED_ADDR_ERROR], its [ext_ip] is empty: for
    these types the response kept is the one of the step that failed, which
    carries no address, even though the first probe may have learned one. *)
Theorem failed_step_leaves_ext_ip_empty fuel src_ip src_port w info w' :
  get_info env fuel src_ip src_port w = (Ret info, w') ->
  nat_type info ∈ [ERROR; BLOCKED; SYMMETRIC_UDP_FW; RESTRICTED_PORT_NAT; CHANGED_ADDR_ERROR] ->
  ext_ip info = "".
Proof.
  rewrite get_info_eq.
  destruct (get_info_try env fuel src_ip src_port w) as [[[nat_type ext_ip] | ex |] w1]
    eqn:Htry; [| | discriminate]; intros [= <- _]; cbn [Stun.nat_type Stun.ext_ip];
    [| reflexivity].
  intros Htype.
  apply get_info_try_Ret in Htry as (w0 & resp & w2 & Hdialogue & ->).
  apply get_nat_type_response in Hdialogue as [(_ & _ & ->) | (Hanswered & _)];
    [reflexivity |].
  exfalso. revert Htype Hanswered. rewrite !elem_of_cons, !elem_of_nil.
  intuition congruence.
Qed.

#[local] Instance same_stun_ip_preorder : PreOrder same_stun_ip.
Proof.
  split.
  - intros s. reflexivity.
  - intros s1 s2 s3 H1 H2. unfold same_stun_ip in *. congruence.
Qed.

Lemma retried_loop_keeps_self fuel : forall host port r,
  preserves eq (retried_loop env fuel host port r).
Proof.
  induction fuel as [| fuel IH]; intros; cbn [retried_loop]; unfold getaddrinfo, sleep.
  - preserves_tac.
  - preserves_tac. apply IH.
Qed.

Lemma retried_getaddrinfo_udp_self fuel host port w o w' :
  retried_getaddrinfo_udp env fuel host port w = (o, w') -> self w' = self w.
Proof.
  intros H.
  assert (preserves eq (retried_getaddrinfo_udp env fuel host port)) as Hkeeps.
  { unfold retried_getaddrinfo_udp. preserves_tac. apply retried_loop_keeps_self. }
  specialize (Hkeeps w). rewrite H in Hkeeps. symmetry. exact Hkeeps.
Qed.

(** Once the server address is chosen, the rest of the [try] block leaves it
    alone. *)
Lemma with_socket_same_stun_ip src_ip fam addr :
  preserves same_stun_ip
    (with_socket env fam
       (socket_call env Setsockopt;;
        s <- get_self;;
        socket_call env (Settimeout (self_timeout s));;
        socket_call env (Bind addr);;
        r <- get_nat_type env src_ip;;
        let '(nat_type, resp) := r in
        ret (nat_type, match ext resp with
                       | Some a => ip a
                       | None => ""
                       end))).
Proof.
  unfold with_socket, socket_call, get_nat_type.
  preserves_tac;
    first [ apply preserves_put_self; intros ?; reflexivity
          | intros w0; rewrite <- (make_request_keeps_self env _ _ _ w0); reflexivity ].
Qed.

Lemma sticky_choice_among remembered candidates :
  candidates <> [] -> sticky_choice remembered candidates ∈ candidates.
Proof.
  destruct candidates as [| first rest]; [contradiction |]. intros _.
  unfold sticky_choice.
  destruct (bool_decide (remembered = "")); cbn [orb]; [apply elem_of_cons; auto |].
  case_bool_decide as Hin; cbn [negb]; [exact Hin | apply elem_of_cons; auto].
Qed.

(** The server address the client remembers after the [try] block of
    [get_info], by what the two resolutions gave. *)
Lemma get_info_try_stun_ip fuel src_ip src_port w :
  self_stun_ip (self (snd (get_info_try env fuel src_ip src_port w))) =
  match retried_getaddrinfo_udp env fuel src_ip src_port w with
  | (Ret (src_info :: _), w1) =>
      match retried_getaddrinfo_udp env fuel (self_host (self w)) (self_port (self w)) w1 with
      | (Ret stun_infos, _) =>
          sticky_choice (self_stun_ip (self w))
            (stun_candidates (ai_family src_info) stun_infos)
      | _ => self_stun_ip (self w)
      end
  | _ => self_stun_ip (self w)
  end.
Proof.
  unfold get_info_try. unfold bind at 1.
  destruct (retried_getaddrinfo_udp env fuel src_ip src_port w)
    as [[[| src_info rest] | e |] w1] eqn:H1;
    pose proof (retried_getaddrinfo_udp_self _ _ _ _ _ _ H1) as S1;
    cbn [snd raise]; try (rewrite S1; reflexivity).
  unfold bind at 1, get_self at 1. unfold bind at 1. rewrite S1.
  destruct (retried_getaddrinfo_udp env fuel (self_host (self w)) (self_port (self w)) w1)
    as [[stun_infos | e |] w2] eqn:H2;
    pose proof (retried_getaddrinfo_udp_self _ _ _ _ _ _ H2) as S2;
    cbn [snd]; try (rewrite S2, S1; reflexivity).
  change (map (fun i => sa_ip (ai_addr i))
            (filter (fun i => ai_family i = ai_family src_info) stun_infos))
    with (stun_candidates (ai_family src_info) stun_infos).
  destruct (stun_candidates (ai_family src_info) stun_infos) as [| first_ip stun_ips];
    cbn [snd raise sticky_choice]; [rewrite S2, S1; reflexivity |].
  unfold bind at 1, get_self at 1. unfold bind at 1. rewrite S2, S1.
  destruct (bool_decide (self_stun_ip (self w) = "")
            || negb (bool_decide (self_stun_ip (self w) ∈ first_ip :: stun_ips))).
  - unfold put_self at 1.
    match goal with
    | |- self_stun_ip (self (snd (with_socket env ?f ?b ?w0))) = _ =>
        rewrite (with_socket_same_stun_ip src_ip f (ai_addr src_info) w0)
    end.
    reflexivity.
  - unfold ret at 1.
    match goal with
    | |- self_stun_ip (self (snd (with_socket env ?f ?b ?w0))) = _ =>
        rewrite (with_socket_same_stun_ip src_ip f (ai_addr src_info) w0)
    end.
    rewrite S2, S1. reflexivity.
Qed.

(** X8. The server address is sticky. The [stun_ip] that [get_info]
    returns, and remembers for the next probe, is: when both resolutions
    succeed and some STUN address has the family of the local one, the
    remembered address if it is not empty and is among these candidates,
    else the first candidate; in every other case the remembered address,
    unchanged. *)
Theorem get_info_sticky_stun_ip fuel src_ip src_port w info w' :
  get_info env fuel src_ip src_port w = (Ret info, w') ->
  self_stun_ip (self w') = stun_ip info
  /\ stun_ip info =
     match retried_getaddrinfo_udp env fuel src_ip src_port w with
     | (Ret (src_info :: _), w1) =>
         match retried_getaddrinfo_udp env fuel (self_host (self w)) (self_port (self w)) w1 with
         | (Ret stun_infos, _) =>
             sticky_choice (self_stun_ip (self w))
               (stun_candidates (ai_family src_info) stun_infos)
         | _ => self_stun_ip (self w)
         end
     | _ => self_stun_ip (self w)
     end
  /\ (forall candidates,
        candidates <> [] ->
        sticky_choice (self_stun_ip (self w)) candidates ∈ candidates
        /\ (self_stun_ip (self w) ∈ candidates -> self_stun_ip (self w) <> "" ->
            sticky_choice (self_stun_ip (self w)) candidates = self_stun_ip (self w))).
Proof.
  intros Hrun. rewrite <- get_info_try_stun_ip.
  rewrite get_info_eq in Hrun.
  destruct (get_info_try env fuel src_ip src_port w) as [[[nat_type ext_ip] | ex |] w1];
    [| | discriminate]; injection Hrun as <- <-; cbn;
    (split_and!; [reflexivity | reflexivity |]);
    intros candidates Hne; (split; [apply sticky_choice_among; exact Hne |]);
    intros Hin Hnonempty; destruct candidates; try contradiction; unfold sticky_choice;
    rewrite (bool_decide_eq_false_2 _ Hnonempty), (bool_decide_eq_true_2 _ Hin);
    reflexivity.
Qed.

End ProbeMore.

(** A client configured with no retry, on any network, sees a Full Cone
    NAT. *)
Lemma no_retries_example :
  fst (Stun.get_nat_type Scenario.silent "10.0.0.2" (Scenario.probing 0))
  = Ret (Stun.FULL_CONE_NAT,
         {| Stun.ok := true; Stun.ext := None; Stun.src := None; Stun.changed := None |}).
Proof.
  destruct (no_retries_classifies_full_cone Scenario.silent "10.0.0.2" (Scenario.probing 0)
              ltac:(cbn; lia)) as (w' & Hrun & _).
  rewrite Hrun. reflexivity.
Defined.

(** On the silent network the probe reports [BLOCKED], with no external
    address. *)
Lemma blocked_has_no_ext_ip :
  exists info w',
    Stun.get_info Scenario.silent 2 "10.0.0.2" 0 (Scenario.fresh 2) = (Ret info, w')
    /\ Stun.nat_type info = Stun.BLOCKED
    /\ Stun.ext_ip info = "".
Proof.
  assert (exists info w',
            Stun.get_info Scenario.silent 2 "10.0.0.2" 0 (Scenario.fresh 2) = (Ret info, w')
            /\ Stun.nat_type info = Stun.BLOCKED) as (info & w' & Hrun & Htype).
  { vm_compute. eexists _, _. split; reflexivity. }
  exists info, w'. split_and!; [exact Hrun | exact Htype |].
  apply (failed_step_leaves_ext_ip_empty Scenario.silent 2 "10.0.0.2" 0 (Scenario.fresh 2)
           info w' Hrun).
  rewrite Htype, !elem_of_cons. auto.
Defined.

(** A new client takes the first address the resolver gives for the server,
    and remembers it. *)
Lemma first_probe_picks_first_candidate :
  exists info w',
    Stun.get_info Scenario.silent 2 "10.0.0.2" 0 (Scenario.fresh 2) = (Ret info, w')
    /\ Stun.stun_ip info = "stun.example"
    /\ Stun.self_stun_ip (Stun.self w') = "stun.example".
Proof.
  assert (exists info w',
            Stun.get_info Scenario.silent 2 "10.0.0.2" 0 (Scenario.fresh 2) = (Ret info, w'))
    as (info & w' & Hrun).
  { vm_compute. eexists _, _. reflexivity. }
  destruct (get_info_sticky_stun_ip Scenario.silent 2 "10.0.0.2" 0 (Scenario.fresh 2)
              info w' Hrun) as (Hkept & Hchoice & _).
  exists info, w'. split_and!; [exact Hrun | | rewrite Hkept]; rewrite Hchoice; reflexivity.
Defined.

(* ===================================================================== *)
(** * Sockets                                                             *)
(* ===================================================================== *)

Section Relates.
Import Stun.
Context (R : World -> World -> Prop) `{!PreOrder R}.
#[local] Abbreviation relates := (Stun.relates R).

Lemma relates_pure {A} (o : outcome A) : relates (fun w => (o, w)).
Proof. intros w. reflexivity. Qed.

Lemma relates_ret {A} (a : A) : relates (ret a).
Proof. intros w. reflexivity. Qed.

Lemma relates_raise {A} e : relates (@raise World A e).
Proof. intros w. reflexivity. Qed.

Lemma relates_out_of_fuel {A} : relates (@out_of_fuel World A).
Proof. intros w. reflexivity. Qed.

Lemma relates_lift {A} (r : result A) : relates (lift r).
Proof. intros w. reflexivity. Qed.

Lemma relates_history : relates history.
Proof. intros w. reflexivity. Qed.

Lemma relates_get_self : relates get_self.
Proof. intros w. reflexivity. Qed.

Lemma relates_bind {A B} (m : M A) (k : A -> M B) :
  relates m -> (forall a, relates (k a)) -> relates (bind m k).
Proof.
  intros Hm Hk w. unfold bind. specialize (Hm w).
  destruct (m w) as [[a | e |] w']; cbn [snd] in *; try assumption.
  etransitivity; [exact Hm | apply Hk].
Qed.

Lemma relates_try_except {A} (m : M A) (h : Exn -> M A) :
  relates m -> (forall e, relates (h e)) -> relates (try_except m h).
Proof.
  intros Hm Hh w. unfold try_except. specialize (Hm w).
  destruct (m w) as [[a | e |] w']; cbn [snd] in *; try assumption.
  etransitivity; [exact Hm | apply Hh].
Qed.

End Relates.

(** Decompose a goal [relates R m] along the structure of [m]. *)
Ltac relates_step :=
  match goal with
  | |- PreOrder _ => typeclasses eauto
  | |- forall _, _ => intros ?
  | |- Stun.relates _ (bind _ _) => apply relates_bind
  | |- Stun.relates _ (try_except _ _) => apply relates_try_except
  | |- Stun.relates _ (ret _) => apply relates_ret
  | |- Stun.relates _ (raise _) => apply relates_raise
  | |- Stun.relates _ out_of_fuel => apply relates_out_of_fuel
  | |- Stun.relates _ (lift _) => apply relates_lift
  | |- Stun.relates _ Stun.history => apply relates_history
  | |- Stun.relates _ Stun.get_self => apply relates_get_self
  | |- Stun.relates _ (fun w => (_, w)) => apply relates_pure
  | |- Stun.relates _ (match ?x with _ => _ end) => destruct x
  end.

Ltac relates_tac := repeat relates_step.

Section Sockets.
Import Stun.
Context (env : Env).

#[local] Instance quiet_preorder : PreOrder quiet.
Proof.
  split.
  - intros w. exists []. split; reflexivity.
  - intros w1 w2 w3 (n1 & H1 & Q1) (n2 & H2 & Q2).
    exists (n2 ++ n1). split.
    + rewrite H2, H1. apply app_assoc.
    + rewrite forallb_app, Q1, Q2. reflexivity.
Qed.

Lemma quiet_emit e :
  is_socket_open e = false -> is_close e = false -> relates quiet (emit e).
Proof.
  intros Ho Hc w. exists [e]. split; [reflexivity |].
  cbn. rewrite Ho, Hc. reflexivity.
Qed.

Lemma quiet_put_self f : relates quiet (put_self f).
Proof. intros w. exists []. split; reflexivity. Qed.

(** A quiet stretch of history opens and closes nothing. *)
Lemma quiet_counts w w' :
  quiet w w' ->
  sockets_opened env (trace w') = sockets_opened env (trace w)
  /\ sockets_closed (trace w') = sockets_closed (trace w).
Proof.
  intros (new & -> & Hq).
  induction new as [| e new IH]; [split; reflexivity |].
  cbn [forallb] in Hq. apply andb_true_iff in Hq as [He Hq].
  apply andb_true_iff in He as [Ho Hc].
  apply negb_true_iff in Ho, Hc.
  destruct (IH Hq) as [IH1 IH2].
  cbn [app sockets_opened sockets_closed]. rewrite Ho, Hc, IH1, IH2.
  split; reflexivity.
Qed.

Lemma quiet_inner_make_request trans_id req addr :
  relates quiet (inner_make_request env trans_id req addr).
Proof.
  unfold inner_make_request, sendto, recvfrom.
  relates_tac; apply quiet_emit; reflexivity.
Qed.

Lemma quiet_request_loop n : forall trans_id req addr last,
  relates quiet (request_loop env n trans_id req addr last).
Proof.
  induction n as [| n IH]; intros; cbn [request_loop]; unfold sleep.
  - relates_tac.
  - relates_tac;
      first [ apply quiet_inner_make_request | apply IH | apply quiet_emit; reflexivity ].
Qed.

Lemma quiet_make_request ctx addr req : relates quiet (make_request env ctx addr req).
Proof.
  unfold make_request, token_bytes, log_error.
  relates_tac;
    first [ apply quiet_request_loop | apply quiet_emit; reflexivity ].
Qed.

Lemma quiet_get_nat_type src_ip : relates quiet (get_nat_type env src_ip).
Proof. unfold get_nat_type. relates_tac; apply quiet_make_request. Qed.

Lemma quiet_retried_loop fuel : forall host port r,
  relates quiet (retried_loop env fuel host port r).
Proof.
  induction fuel as [| fuel IH]; intros; cbn [retried_loop]; unfold getaddrinfo, sleep.
  - relates_tac.
  - relates_tac; first [ apply IH | apply quiet_emit; reflexivity ].
Qed.

Lemma quiet_retried_getaddrinfo_udp fuel host port :
  relates quiet (retried_getaddrinfo_udp env fuel host port).
Proof. unfold retried_getaddrinfo_udp. relates_tac. apply quiet_retried_loop. Qed.

(** The body of the [with] statement of [get_info]. *)
Lemma quiet_socket_body src_ip addr :
  relates quiet
    (socket_call env Setsockopt;;
     s <- get_self;;
     socket_call env (Settimeout (self_timeout s));;
     socket_call env (Bind addr);;
     r <- get_nat_type env src_ip;;
     let '(nat_type, resp) := r in
     ret (nat_type, match ext resp with
                    | Some a => ip a
                    | None => ""
                    end)).
Proof.
  unfold socket_call.
  relates_tac; first [ apply quiet_get_nat_type | apply quiet_emit; reflexivity ].
Qed.

Lemma quiet_balanced w w' : quiet w w' -> balanced env w w'.
Proof.
  intros Hq. destruct (quiet_counts _ _ Hq) as [Ho Hc].
  exists 0%nat. rewrite Ho, Hc. split_and!; lia.
Qed.

Lemma with_socket_balanced {A} fam (body : M A) w :
  relates quiet body ->
  fst (with_socket env fam body w) <> OutOfFuel ->
  balanced env w (snd (with_socket env fam body w)).
Proof.
  intros Hbody. unfold with_socket, socket_call.
  cbv beta iota zeta delta [bind emit history put_self try_finally raise ret].
  cbn [self trace].
  destruct (socket_result env (SocketOpen fam :: trace w)) as [ex |] eqn:Hopen.
  - intros _. cbn [snd]. exists 0%nat. cbn [trace sockets_opened sockets_closed is_socket_open is_close].
    rewrite Hopen. rewrite bool_decide_eq_false_2 by discriminate.
    split_and!; cbn; lia.
  - match goal with |- context [body ?w0] => specialize (Hbody w0); destruct (body w0) as [[a | e |] w2] end;
      cbn [fst snd] in *; intros Hends; try contradiction;
      destruct (quiet_counts _ _ Hbody) as [Ho Hc]; cbn [trace] in Ho, Hc;
      exists 1%nat; cbn [trace sockets_opened sockets_closed is_socket_open is_close andb];
      rewrite Ho, Hc; cbn [sockets_opened sockets_closed is_socket_open is_close];
      rewrite Hopen, bool_decide_eq_true_2 by reflexivity; cbn [andb];
      split_and!; lia.
Qed.

Lemma quiet_then_balanced w1 w2 w3 :
  quiet w1 w2 -> balanced env w2 w3 -> balanced env w1 w3.
Proof.
  intros Hq (k & Hk & Ho & Hc). destruct (quiet_counts _ _ Hq) as [Ho' Hc'].
  exists k. rewrite Ho, Hc, Ho', Hc'. auto.
Qed.

Lemma get_info_try_balanced fuel src_ip src_port w o w' :
  get_info_try env fuel src_ip src_port w = (o, w') ->
  o <> OutOfFuel ->
  balanced env w w'.
Proof.
  unfold get_info_try. unfold bind at 1.
  pose proof (quiet_retried_getaddrinfo_udp fuel src_ip src_port w) as Q1.
  destruct (retried_getaddrinfo_udp env fuel src_ip src_port w)
    as [[[| src_info rest] | e |] w1]; cbn [fst snd raise] in *;
    try (intros [= <- <-] _; apply quiet_balanced; exact Q1).
  unfold bind at 1, get_self at 1. unfold bind at 1.
  pose proof (quiet_retried_getaddrinfo_udp fuel (self_host (self w1)) (self_port (self w1)) w1)
    as Q2.
  destruct (retried_getaddrinfo_udp env fuel (self_host (self w1)) (self_port (self w1)) w1)
    as [[stun_infos | e |] w2]; cbn [fst snd] in *;
    try (intros [= <- <-] _; apply quiet_balanced; etransitivity; eassumption).
  destruct (map _ (filter _ stun_infos)) as [| first_ip stun_ips]; cbn [fst snd raise].
  { intros [= <- <-] _. apply quiet_balanced. etransitivity; eassumption. }
  unfold bind at 1, get_self at 1. unfold bind at 1.
  intros Hrun Hends. apply (quiet_then_balanced w w2); [etransitivity; eassumption |].
  destruct (bool_decide (self_stun_ip (self w2) = "") || _).
  - unfold put_self at 1 in Hrun.
    match type of Hrun with
    | with_socket env ?f ?b ?w0 = _ =>
        apply (quiet_then_balanced w2 w0); [exists []; split; reflexivity |];
        pose proof (with_socket_balanced f b w0 (quiet_socket_body _ _)) as Hb
    end.
    rewrite Hrun in Hb. apply Hb. exact Hends.
  - unfold ret at 1 in Hrun.
    match type of Hrun with
    | with_socket env ?f ?b ?w0 = _ =>
        pose proof (with_socket_balanced f b w0 (quiet_socket_body _ _)) as Hb
    end.
    rewrite Hrun in Hb. apply Hb. exact Hends.
Qed.

(** X9. [get_info] leaks no socket. Whatever fails on the way, when
    [get_info] returns it has opened at most one socket and closed each
    socket it opened, and the client holds no socket. *)
Theorem get_info_closes_its_socket fuel src_ip src_port w info w' :
  get_info env fuel src_ip src_port w = (Ret info, w') ->
  balanced env w w' /\ self_sock (self w') = None.
Proof.
  rewrite get_info_eq.
  destruct (get_info_try env fuel src_ip src_port w) as [[[nat_type ext_ip] | ex |] w1] eqn:Htry;
    [| | discriminate]; intros [= _ <-]; (split; [| reflexivity]);
    destruct (get_info_try_balanced _ _ _ _ _ _ Htry) as (k & Hk & Ho & Hc);
    try discriminate;
    exists k; cbn [trace sockets_opened sockets_closed is_socket_open is_close andb];
    rewrite ?Ho, ?Hc; auto.
Qed.

(** X10. A logical request on a client that holds no socket. With
    [retries >= 1] the assertion of the first attempt fails outside the
    [try] of the attempt: the request raises [AssertionError] instead of
    reporting [ok = false], after drawing its transaction id and before
    sending anything; so does the dialogue. *)
Theorem request_without_socket_raises ctx addr req src_ip w :
  self_sock (self w) = None ->
  1 <= self_retries (self w) ->
  make_request env ctx addr req w
  = (Raise (MkExn AssertionError ""), log (TokenBytes 12) w)
  /\ get_nat_type env src_ip w
     = (Raise (MkExn AssertionError ""), log (TokenBytes 12) w).
Proof.
  intros Hsock Hretries.
  assert (forall ctx addr req,
            make_request env ctx addr req w
            = (Raise (MkExn AssertionError ""), log (TokenBytes 12) w)) as Hreq.
  { intros ctx' addr' req'. rewrite make_request_eq. cbn zeta.
    destruct (Z.to_nat (self_retries (self w))) as [| n] eqn:Hn; [lia |].
    cbn [request_loop]. unfold bind at 1. unfold inner_make_request.
    unfold bind at 1, get_self at 1. cbn [log self]. rewrite Hsock. reflexivity. }
  split; [apply Hreq |].
  unfold get_nat_type. unfold bind at 1, get_self at 1. unfold bind at 1.
  rewrite Hreq. reflexivity.
Qed.

End Sockets.

(** On the silent network the probe opens one socket and closes it. *)
Lemma silent_probe_closes_its_socket :
  exists info w',
    Stun.get_info Scenario.silent 2 "10.0.0.2" 0 (Scenario.fresh 2) = (Ret info, w')
    /\ Stun.balanced Scenario.silent (Scenario.fresh 2) w'
    /\ Stun.self_sock (Stun.self w') = None.
Proof.
  assert (exists info w',
            Stun.get_info Scenario.silent 2 "10.0.0.2" 0 (Scenario.fresh 2) = (Ret info, w'))
    as (info & w' & Hrun).
  { vm_compute. eexists _, _. reflexivity. }
  exists info, w'. split; [exact Hrun |].
  exact (get_info_closes_its_socket Scenario.silent 2 "10.0.0.2" 0 (Scenario.fresh 2)
           info w' Hrun).
Defined.

(** A request on a new client, which holds no socket. *)
Lemma request_without_socket_example :
  fst (Stun.make_request Scenario.silent "First probe" (inr "192.0.2.1") []
         (Scenario.fresh 2))
  = Raise (MkExn AssertionError "").
Proof.
  rewrite (proj1 (request_without_socket_raises Scenario.silent "First probe"
                    (inr "192.0.2.1") [] "10.0.0.2" (Scenario.fresh 2)
                    eq_refl ltac:(cbn; lia))).
  reflexivity.
Defined.

(* ===================================================================== *)
(** * The shape of a logical request                                      *)
(* ===================================================================== *)

Section RequestShape.
Import Stun.
Context (env : Env).

(** One attempt with a socket open: it returns, having sent one datagram and
    slept not at all. *)
Lemma inner_make_request_shape trans_id req addr w fam :
  self_sock (self w) = Some fam ->
  Z.of_nat (length req) < 65536 ->
  exists r new,
    inner_make_request env trans_id req addr w
      = (Ret r, {| self := self w; trace := new ++ trace w |})
    /\ sent_messages new = [(request_message trans_id req, addr)]
    /\ sleeps new = [].
Proof.
  intros Hsock Hlen.
  rewrite (inner_make_request_eq _ _ _ _ _ fam) by assumption.
  cbn zeta. unfold log. cbn [trace self].
  destruct (sendto_result env _) as [ex |].
  { exists ([], exn_str ex), [Sendto (request_message trans_id req) addr]. auto. }
  destruct (recvfrom_result env _) as [ex | data].
  { exists ([], exn_str ex), [Recvfrom 2048; Sendto (request_message trans_id req) addr]. auto. }
  repeat case_bool_decide;
    (eexists _, [Recvfrom 2048; Sendto (request_message trans_id req) addr];
     split_and!; reflexivity).
Qed.

(** The retry loop: the attempts it makes are as many as the datagrams it
    sends, all the same; it either uses up its [n] attempts, sleeping after
    each, or ends with the first attempt that reports no error, having slept
    between the attempts only. *)
Lemma request_loop_shape n : forall trans_id req addr last w fam,
  self_sock (self w) = Some fam ->
  Z.of_nat (length req) < 65536 ->
  exists r new k,
    request_loop env n trans_id req addr last w
      = (Ret r, {| self := self w; trace := new ++ trace w |})
    /\ (k <= n)%nat
    /\ sent_messages new = replicate k (request_message trans_id req, addr)
    /\ ((k = n /\ (n = 0%nat -> r = last) /\ (n <> 0%nat -> snd r <> "")
         /\ sleeps new = replicate n (self_retries_delay (self w)))
        \/ ((1 <= k)%nat /\ snd r = ""
            /\ sleeps new = replicate (k - 1) (self_retries_delay (self w)))).
Proof.
  induction n as [| n IH]; intros trans_id req addr last w fam Hsock Hlen.
  - exists last, [], 0%nat. cbn. unfold ret. rewrite world_eta.
    split_and!; try reflexivity. left. split_and!; try reflexivity. congruence.
  - destruct (inner_make_request_shape trans_id req addr w fam Hsock Hlen)
      as (r1 & new1 & Hrun & Hsent & Hsleeps).
    cbn [request_loop]. unfold bind at 1. rewrite Hrun.
    case_bool_decide as Herr.
    + exists r1, new1, 1%nat. unfold ret. split_and!; [reflexivity | lia | exact Hsent |].
      right. split_and!; [lia | exact Herr | exact Hsleeps].
    + cbv beta iota zeta delta [bind get_self sleep emit]. cbn [self trace].
      destruct (IH trans_id req addr r1
                  {| self := self w;
                     trace := Sleep (self_retries_delay (self w)) :: new1 ++ trace w |}
                  fam Hsock Hlen)
        as (r & new & k & Hloop & Hk & Hsent' & Hcases).
      cbn [self trace] in *. rewrite Hloop.
      exists r, (new ++ Sleep (self_retries_delay (self w)) :: new1), (S k).
      split_and!.
      * rewrite <- app_assoc. reflexivity.
      * lia.
      * rewrite sent_messages_app. cbn [sent_messages]. rewrite Hsent', Hsent.
        apply replicate_snoc.
      * rewrite sleeps_app. cbn [sleeps]. rewrite Hsleeps.
        destruct Hcases as [(-> & Hlast & Hr & ->) | (Hone & Hr & ->)].
        -- left. split_and!; [reflexivity | discriminate | | apply (replicate_snoc n)].
           intros _. destruct n as [| n']; [rewrite Hlast by reflexivity; exact Herr |].
           apply Hr. discriminate.
        -- right. split_and!; [lia | exact Hr |].
           replace (S k - 1)%nat with (S (k - 1)) by lia. apply replicate_snoc.
Qed.

(** X11. The attempts of a logical request. With a socket open and a
    payload that fits the length field, whatever the network answers: the
    request sends at most [retries] datagrams, all of them the same message
    (one transaction id) to the same address, and leaves the client as it is.
    When it reports [ok = false] it has used up all its attempts and slept
    [retries_delay] after each, the last included; when it reports
    [ok = true], or raises on a malformed attribute, it has slept between
    the attempts only. It always ends. *)
Theorem request_attempts_bounded ctx addr req w fam o w' :
  let trans_id := magic ++ token_bytes_result env (TokenBytes 12 :: trace w) in
  let msg := request_message trans_id req in
  let dest := addr_tuple (self w) addr in
  let n := Z.to_nat (self_retries (self w)) in
  let delay := self_retries_delay (self w) in
  self_sock (self w) = Some fam ->
  Z.of_nat (length req) < 65536 ->
  make_request env ctx addr req w = (o, w') ->
  exists new k,
    trace w' = new ++ trace w
    /\ self w' = self w
    /\ (k <= n)%nat
    /\ sent_messages new = replicate k (msg, dest)
    /\ match o with
       | Ret resp =>
           if ok resp then sleeps new = replicate (k - 1) delay
           else k = n /\ sleeps new = replicate n delay
       | Raise _ => (1 <= k)%nat /\ sleeps new = replicate (k - 1) delay
       | OutOfFuel => False
       end.
Proof.
  intros trans_id msg dest n delay Hsock Hlen.
  rewrite make_request_eq. cbn zeta.
  destruct (request_loop_shape n trans_id req dest ([], "") (log (TokenBytes 12) w) fam
              Hsock Hlen) as (r & new & k & Hloop & Hk & Hsent & Hcases).
  fold n. unfold log at 1 2. cbn [trace]. fold trans_id.
  unfold log in Hloop. cbn [self trace] in Hloop, Hcases. fold dest. rewrite Hloop.
  unfold log. cbn [self trace]. destruct r as [resp error]. cbn [snd] in Hcases.
  assert (sent_messages (new ++ [TokenBytes 12]) = replicate k (msg, dest)) as Hsent1.
  { rewrite sent_messages_app, Hsent. apply app_nil_r. }
  assert (sleeps (new ++ [TokenBytes 12]) = sleeps new) as Hsleeps1.
  { rewrite sleeps_app. apply app_nil_r. }
  case_bool_decide as Herr; cbn [negb].
  - assert (sleeps new = replicate (k - 1) delay) as Hsleeps.
    { destruct Hcases as [(-> & Hlast & Hr & Hs) | (_ & _ & Hs)]; [| exact Hs].
      destruct n as [| n']; [exact Hs | exfalso; apply Hr; [discriminate | exact Herr]]. }
    assert (n <> 0%nat -> (1 <= k)%nat) as Hone.
    { intros Hn. destruct Hcases as [(_ & _ & Hr & _) | (H1 & _)]; [| exact H1].
      exfalso. apply Hr; assumption. }
    destruct (parse_attrs _ _ _ _ _ _) as [parsed | e |] eqn:Hparse; intros [= <- <-].
    + exists (new ++ [TokenBytes 12]), k. cbn [trace self ok].
      split_and!; [rewrite <- app_assoc; reflexivity | reflexivity | exact Hk | exact Hsent1 |].
      rewrite Hsleeps1. exact Hsleeps.
    + exists (new ++ [TokenBytes 12]), k. cbn [trace self].
      split_and!; [rewrite <- app_assoc; reflexivity | reflexivity | exact Hk | exact Hsent1 | |].
      * apply Hone. intros Hn. rewrite Hn in Hloop. cbn in Hloop. unfold ret in Hloop.
        injection Hloop as <- _. cbn in Hparse. discriminate.
      * rewrite Hsleeps1. exact Hsleeps.
    + exfalso. revert Hparse. apply parse_attrs_ends. lia.
  - intros [= <- <-].
    destruct Hcases as [(-> & _ & _ & Hs) | (_ & Hr & _)]; [| contradiction].
    eexists (_ :: new ++ [TokenBytes 12]), n. cbn [trace self ok].
    split_and!; [rewrite <- app_comm_cons, <- app_assoc; reflexivity | reflexivity | lia
                | cbn [sent_messages]; exact Hsent1 | reflexivity |].
    cbn [sleeps]. rewrite Hsleeps1. exact Hs.
Qed.

End RequestShape.

(** With three retries no more than three datagrams leave. *)
Lemma request_attempts_bounded_example :
  exists new,
    Stun.trace (snd (Stun.make_request Scenario.silent "First probe" (inr "192.0.2.1") []
                       (Scenario.probing 3)))
    = new ++ Stun.trace (Scenario.probing 3)
    /\ (length (Stun.sent_messages new) <= 3)%nat.
Proof.
  destruct (Stun.make_request Scenario.silent "First probe" (inr "192.0.2.1") []
              (Scenario.probing 3)) as [o w'] eqn:Hrun.
  destruct (request_attempts_bounded Scenario.silent "First probe" (inr "192.0.2.1") []
              (Scenario.probing 3) Stun.AF_INET o w' eq_refl ltac:(cbn; lia) Hrun)
    as (new & k & Htrace & _ & Hk & Hsent & _).
  exists new. split; [exact Htrace |].
  rewrite Hsent, length_replicate. exact Hk.
Defined.

(* ===================================================================== *)
(** * Local address discovery                                             *)
(* ===================================================================== *)

Section Discovery.
Import Live777Runner.

Lemma first_proto_cases {A} (d : Stun.AddressFamily -> option A) :
  match first_proto d with
  | Some Stun.AF_INET => is_Some (d Stun.AF_INET)
  | Some Stun.AF_INET6 => d Stun.AF_INET = None /\ is_Some (d Stun.AF_INET6)
  | None => d Stun.AF_INET = None /\ d Stun.AF_INET6 = None
  end.
Proof.
  unfold first_proto. cbn [List.find].
  destruct (d Stun.AF_INET) as [x |] eqn:H4.
  - rewrite bool_decide_eq_true_2 by eauto. eauto.
  - rewrite bool_decide_eq_false_2 by (intros [? ?]; discriminate).
    destruct (d Stun.AF_INET6) as [y |] eqn:H6.
    + rewrite bool_decide_eq_true_2 by eauto. eauto.
    + rewrite bool_decide_eq_false_2 by (intros [? ?]; discriminate). auto.
Qed.

(** X12. The interface scan. Interfaces whose name starts with [lo] or
    [docker] are never asked for their addresses: the scan gives what it
    gives on the list without them. An address it returns is the first
    address, IPv4 before IPv6, of an interface of the list that is not one
    of those, and every interface before that one was skipped or has neither
    an IPv4 nor an IPv6 entry. *)
Theorem scan_skips_loopback_and_docker (ni : Netifaces) (ifaces : list string) :
  scan_interfaces ni ifaces
  = scan_interfaces ni (filter (fun i => is_skipped i = false) ifaces)
  /\ forall a,
       scan_interfaces ni ifaces = inr (Some a) ->
       exists before iface after addrs proto more,
         ifaces = before ++ iface :: after
         /\ is_skipped iface = false
         /\ ifaddresses ni iface = inr addrs
         /\ first_proto addrs = Some proto
         /\ addrs proto = Some (Some a :: more)
         /\ (proto = Stun.AF_INET6 -> addrs Stun.AF_INET = None)
         /\ Forall (fun i =>
                      is_skipped i = true
                      \/ exists addrs',
                           ifaddresses ni i = inr addrs'
                           /\ addrs' Stun.AF_INET = None
                           /\ addrs' Stun.AF_INET6 = None) before.
Proof.
  split.
  - induction ifaces as [| iface rest IH]; [reflexivity |].
    cbn [scan_interfaces]. destruct (is_skipped iface) eqn:Hskip; cbn [negb].
    + rewrite filter_cons_False by congruence. exact IH.
    + rewrite filter_cons_True by exact Hskip. cbn [scan_interfaces].
      rewrite Hskip. cbn [negb].
      destruct (ifaddresses ni iface) as [e | addrs]; [reflexivity |]. cbn [rbind].
      destruct (first_proto addrs); [reflexivity | exact IH].
  - induction ifaces as [| iface rest IH]; intros a; [discriminate |].
    cbn [scan_interfaces]. destruct (is_skipped iface) eqn:Hskip; cbn [negb].
    + intros Hscan.
      destruct (IH a Hscan)
        as (before & i & after & addrs & proto & more & -> & Hi & Ha & Hp & Hfirst & H6 & Hb).
      exists (iface :: before), i, after, addrs, proto, more.
      split_and!; try assumption; [reflexivity |].
      apply Forall_cons. split; [left; exact Hskip | exact Hb].
    + destruct (ifaddresses ni iface) as [e | addrs] eqn:Haddrs; [discriminate |].
      cbn [rbind].
      pose proof (first_proto_cases addrs) as Hcases.
      destruct (first_proto addrs) as [proto |] eqn:Hproto.
      * unfold first_addr.
        destruct (addrs proto) as [[| [a' |] more] |] eqn:Hentry; cbn [rbind]; try discriminate.
        intros [= ->].
        exists [], iface, rest, addrs, proto, more.
        split_and!; try assumption; try reflexivity; [| apply Forall_nil; exact I].
        intros ->. apply Hcases.
      * intros Hscan.
        destruct (IH a Hscan)
          as (before & i & after & addrs' & proto & more & -> & Hi & Ha & Hp & Hfirst & H6 & Hb).
        exists (iface :: before), i, after, addrs', proto, more.
        split_and!; try assumption; [reflexivity |].
        apply Forall_cons. split; [| exact Hb].
        right. exists addrs. split; [exact Haddrs | exact Hcases].
Qed.

Context (env : Env).

(** X13. The default route decides. When [netifaces] reports a default
    gateway for IPv4, or else for IPv6, [__get_default_ip] returns the first
    address of that family on the interface of that gateway, and the list of
    interfaces is not consulted: when the interface has no such address, or
    cannot be queried, the error is logged and the result is the empty
    string, whatever addresses other interfaces have. *)
Theorem default_route_decides default proto iface w :
  let ni := netifaces_result env (QueryNetifaces :: trace w) in
  gateways ni = inr (Some default) ->
  first_proto default = Some proto ->
  default proto = Some iface ->
  (proto = Stun.AF_INET6 -> default Stun.AF_INET = None)
  /\ (forall addrs a more,
        ifaddresses ni iface = inr addrs ->
        addrs proto = Some (Some a :: more) ->
        get_default_ip env w
        = (Ret a,
           {| stun := stun w; live777_task := live777_task w;
              live777_proc := live777_proc w; tasks := tasks w;
              children := children w; next_task := next_task w;
              trace := QueryNetifaces :: trace w |}))
  /\ ((forall addrs, ifaddresses ni iface = inr addrs -> addrs proto = None) ->
      get_default_ip env w
      = (Ret "",
         {| stun := stun w; live777_task := live777_task w;
            live777_proc := live777_proc w; tasks := tasks w;
            children := children w; next_task := next_task w;
            trace := LogError "Can't get default IP: %s" :: QueryNetifaces :: trace w |})).
Proof.
  intros ni Hgw Hproto Hiface. split_and!.
  - intros ->. pose proof (first_proto_cases default) as Hc. rewrite Hproto in Hc. apply Hc.
  - intros addrs a more Haddrs Hentry.
    unfold get_default_ip. cbv beta iota zeta delta [bind emit history]. cbn [trace].
    fold ni. unfold get_default_ip_try. rewrite Hgw. cbn [rbind].
    rewrite Hproto, Hiface, Haddrs. cbn [rbind]. unfold first_addr. rewrite Hentry.
    reflexivity.
  - intros Hnone.
    unfold get_default_ip. cbv beta iota zeta delta [bind emit history]. cbn [trace].
    fold ni. unfold get_default_ip_try. rewrite Hgw. cbn [rbind].
    rewrite Hproto, Hiface.
    destruct (ifaddresses ni iface) as [e | addrs] eqn:Haddrs; cbn [rbind]; [reflexivity |].
    unfold first_addr. rewrite (Hnone addrs eq_refl). reflexivity.
Qed.

End Discovery.

(** On the laptop the loopback interface and the bridge are passed over and
    the address of the wireless interface is found. *)
Lemma scan_example :
  Live777Runner.scan_interfaces RunnerScenario.laptop ["lo"; "docker0"; "wlan0"]
  = Live777Runner.scan_interfaces RunnerScenario.laptop ["wlan0"]
  /\ exists iface,
       iface ∈ ["lo"; "docker0"; "wlan0"]
       /\ Live777Runner.is_skipped iface = false.
Proof.
  destruct (scan_skips_loopback_and_docker RunnerScenario.laptop ["lo"; "docker0"; "wlan0"])
    as [Hskip Hfound].
  split; [rewrite Hskip; reflexivity |].
  destruct (Hfound "10.0.0.2" eq_refl)
    as (before & iface & after & addrs & proto & more & Hsplit & Hiface & _).
  exists iface. split; [| exact Hiface].
  rewrite Hsplit. apply elem_of_app. right. apply elem_of_cons. left. reflexivity.
Defined.

(** The IPv4 default route leaves through an interface without an IPv4
    address: no address is found, although [wlan0] has one. *)
Lemma default_route_example :
  fst (Live777Runner.get_default_ip RunnerScenario.misrouted RunnerScenario.fresh) = Ret "".
Proof.
  destruct (default_route_decides RunnerScenario.misrouted
              (fun f => if bool_decide (f = Stun.AF_INET) then Some "eth0" else None)
              Stun.AF_INET "eth0" RunnerScenario.fresh eq_refl eq_refl eq_refl)
    as (_ & _ & Hnone).
  rewrite Hnone; [reflexivity |].
  intros addrs Haddrs. vm_compute in Haddrs. injection Haddrs as <-. reflexivity.
Defined.

(* ===================================================================== *)
(** * The main loop                                                       *)
(* ===================================================================== *)

Section MainLoop.
Import Live777Runner.
Context (env : Env) (config : Config).

Lemma probes_app h1 h2 : (probes (h1 ++ h2) = probes h1 + probes h2)%nat.
Proof.
  induction h1 as [| e h1 IH]; [reflexivity |].
  destruct e; cbn; rewrite ?IH; reflexivity.
Qed.

(** One probe: one query of the interfaces, no sleep, nothing logged at
    level info, and only the STUN client and the history change. *)
Lemma get_netcfg_probe fuel w netcfg w' :
  get_netcfg env fuel w = (Ret netcfg, w') ->
  probes (trace w') = S (probes (trace w))
  /\ slept (trace w') = slept (trace w)
  /\ infos (trace w') = infos (trace w)
  /\ lifecycle_calls (trace w') = lifecycle_calls (trace w).
Proof.
  unfold get_netcfg, get_default_ip.
  cbv beta iota zeta delta [bind emit history ret lift_stun]. cbn [trace].
  destruct (get_default_ip_try _) as [ex | [ip |]]; cbn [stun trace];
    destruct (Stun.get_info _ _ _ _ _) as [[info | ex' |] sw]; try discriminate;
    intros [= <- <-]; cbn; auto.
Qed.

(** The retry loop of the probe, from any value of its variables. *)
Lemma probe_loop_counts fuel n : forall i retry netcfg0 w r w',
  probe_loop env config fuel n i retry netcfg0 w = (Ret r, w') ->
  exists k,
    (k <= n)%nat
    /\ probes (trace w') = (probes (trace w) + k)%nat
    /\ infos (trace w') = infos (trace w)
    /\ ((k = n
         /\ (n = 0%nat -> r = (retry, netcfg0))
         /\ (n <> 0%nat -> ext_ip (snd r) = "" /\ fst r = (i + n - 1)%nat)
         /\ slept (trace w') = replicate n (check_retries_delay config) ++ slept (trace w))
        \/ ((1 <= k)%nat
            /\ ext_ip (snd r) <> ""
            /\ fst r = (i + k - 1)%nat
            /\ slept (trace w')
               = replicate (k - 1) (check_retries_delay config) ++ slept (trace w))).
Proof.
  induction n as [| n IH]; intros i retry netcfg0 w r w'.
  - cbn. unfold ret. intros [= <- <-]. exists 0%nat.
    split_and!; [lia | lia | reflexivity |]. left. split_and!; auto. congruence.
  - cbn [probe_loop]. unfold bind at 1.
    destruct (get_netcfg env fuel w) as [[netcfg | ex |] w1] eqn:Hget; try discriminate.
    destruct (get_netcfg_probe _ _ _ _ Hget) as (Hp & Hs & Hi & _).
    case_bool_decide as Hext; cbn [negb].
    + cbv beta iota zeta delta [bind sleep emit]. intros Hloop.
      destruct (IH _ _ _ _ _ _ Hloop) as (k & Hk & Hp' & Hi' & Hcases).
      cbn [trace probes slept infos] in Hp', Hi', Hcases.
      exists (S k). split_and!; [lia | rewrite Hp', Hp; lia | rewrite Hi', Hi; reflexivity |].
      destruct Hcases as [(-> & Hlast & Hr & Hsl) | (Hone & Hr & Hfst & Hsl)].
      * left. split_and!; [reflexivity | discriminate | |].
        -- intros _. destruct n as [| n'].
           ++ rewrite Hlast by reflexivity. cbn [fst snd]. split; [exact Hext | lia].
           ++ destruct Hr as [Hr1 Hr2]; [discriminate |]. split; [exact Hr1 | lia].
        -- rewrite Hsl, Hs. rewrite <- replicate_snoc, <- app_assoc. reflexivity.
      * right. split_and!; [lia | exact Hr | lia |].
        rewrite Hsl, Hs. replace (S k - 1)%nat with (S (k - 1)) by lia.
        rewrite <- replicate_snoc, <- app_assoc. reflexivity.
    + unfold ret. intros [= <- <-]. exists 1%nat.
      split_and!; [lia | rewrite Hp; lia | exact Hi |].
      right. cbn [fst snd]. split_and!; [lia | exact Hext | lia | exact Hs].
Qed.

(** X14. The probe of one pass of the main loop. The first pass, with no
    configuration remembered, probes the network exactly once whatever
    [check_retries] is; a later pass probes at most [check_retries] times
    and stops at the first probe that yields an external address. After
    every probe without one it sleeps [check_retries_delay], the last probe
    included; it logs that it is fine exactly when an address came after at
    least one failure. With no probe at all the pass goes on with the
    default configuration. *)
Theorem run_probe_counts fuel prev_netcfg w netcfg w' :
  let n := match prev_netcfg with
           | None => 1%nat
           | Some _ => Z.to_nat (check_retries config)
           end in
  let delay := check_retries_delay config in
  run_probe env config fuel prev_netcfg w = (Ret netcfg, w') ->
  exists k,
    (k <= n)%nat
    /\ probes (trace w') = (probes (trace w) + k)%nat
    /\ (n = 0%nat -> netcfg = Netcfg_default /\ w' = w)
    /\ if bool_decide (ext_ip netcfg = "")
       then k = n
            /\ slept (trace w') = replicate n delay ++ slept (trace w)
            /\ infos (trace w') = infos (trace w)
       else (1 <= k)%nat
            /\ slept (trace w') = replicate (k - 1) delay ++ slept (trace w)
            /\ infos (trace w')
               = (if bool_decide (2 <= k)%nat then ["I'm fine, continue working ..."] else [])
                 ++ infos (trace w).
Proof.
  intros n delay. unfold run_probe. fold n. unfold bind at 1.
  destruct (probe_loop env config fuel n 0 0 Netcfg_default w) as [[[retry nc] | ex |] w1] eqn:Hloop;
    try discriminate.
  destruct (probe_loop_counts _ _ _ _ _ _ _ _ Hloop) as (k & Hk & Hp & Hi & Hcases).
  cbn [fst snd] in Hcases.
  assert (n = 0%nat -> nc = Netcfg_default /\ retry = 0%nat /\ w1 = w) as Hzero.
  { intros Hn. rewrite Hn in Hloop. cbn in Hloop. unfold ret in Hloop.
    injection Hloop as <- <- <-. auto. }
  destruct Hcases as [(-> & Hlast & Hr & Hsl) | (Hone & Hr & Hfst & Hsl)].
  - assert (ext_ip nc = "") as Hext.
    { destruct n as [| n']; [destruct Hzero as (-> & _); reflexivity | apply Hr; discriminate]. }
    rewrite (bool_decide_eq_true_2 _ Hext), andb_false_r.
    cbv beta iota zeta delta [bind ret]. intros [= <- <-].
    exists n. rewrite bool_decide_eq_true_2 by exact Hext.
    split_and!; auto. intros Hn. destruct (Hzero Hn) as (-> & _ & ->). auto.
  - rewrite (bool_decide_eq_false_2 _ Hr). cbn [negb]. rewrite andb_true_r.
    case_bool_decide as Hretry; cbn [negb];
      cbv beta iota zeta delta [bind ret emit]; intros [= <- <-];
      exists k; rewrite (bool_decide_eq_false_2 _ Hr); cbn [trace probes slept infos];
      (split_and!; [exact Hk | exact Hp | | exact Hone | exact Hsl |]).
    + intros Hn. lia.
    + rewrite bool_decide_eq_false_2 by lia. exact Hi.
    + intros Hn. lia.
    + rewrite bool_decide_eq_true_2 by lia. rewrite Hi. reflexivity.
Qed.

(** X15. A runner configured with [check_retries <= 0]. Every pass after
    the first makes no probe and takes the default configuration, with its
    empty [src_ip], for the state of the network: the child is stopped,
    unless the remembered configuration is already the default one, and is
    not started again; the default configuration is what the pass remembers. *)
Theorem no_check_retries_never_starts fuel p w :
  check_retries config <= 0 ->
  exists new w',
    run_iteration env config fuel (Some p) w = (Ret (Some Netcfg_default), w')
    /\ trace w' = Sleep (inject_Z (check_interval config)) :: new ++ trace w
    /\ probes new = 0%nat
    /\ lifecycle_calls new = (if bool_decide (p = Netcfg_default) then [] else [CallStop])
    /\ (p <> Netcfg_default -> live777_task w' = None /\ live777_proc w' = None)
    /\ stun w' = stun w.
Proof.
  intros Hretries. unfold run_iteration, run_probe.
  replace (Z.to_nat (check_retries config)) with 0%nat by lia.
  cbn [probe_loop]. unfold bind at 1 2. unfold ret at 1. cbn [negb andb bool_decide].
  rewrite bool_decide_eq_true_2 by reflexivity. cbn [negb andb].
  unfold bind at 1 2. unfold ret at 1 2. unfold run_react.
  case_bool_decide as Hdiff.
  - rewrite (bool_decide_eq_false_2 (p = Netcfg_default))
      by (intros ->; apply Hdiff; reflexivity).
    change (src_ip Netcfg_default) with "". rewrite bool_decide_eq_true_2 by reflexivity.
    cbn [negb]. cbv beta iota zeta delta [bind emit sleep ret]. rewrite stop_live777_eq.
    eexists (stop_events _ ++ [LogError _; LogInfo _]), _. split; [reflexivity |].
    cbn [trace live777_task live777_proc stun]. split_and!.
    + rewrite <- app_assoc. reflexivity.
    + rewrite probes_app. unfold stop_events.
      destruct (live777_proc w), (live777_task w); reflexivity.
    + rewrite lifecycle_calls_app, lifecycle_calls_stop. reflexivity.
    + auto.
    + reflexivity.
  - assert (p = Netcfg_default) as -> by congruence.
    rewrite (bool_decide_eq_true_2 (Netcfg_default = Netcfg_default)) by reflexivity.
    cbv beta iota zeta delta [bind emit sleep ret].
    eexists [], _. split; [reflexivity |]. cbn [trace stun]. split_and!; try reflexivity.
    intros Hne. contradiction.
Qed.

Lemma get_info_same_config fuel src_ip src_port :
  Stun.preserves Stun.same_config (Stun.get_info (stun_env env) fuel src_ip src_port).
Proof.
  intros sw. rewrite get_info_eq.
  pose proof (get_info_try_same_config (stun_env env) fuel src_ip src_port sw) as Hsame.
  destruct (Stun.get_info_try _ _ _ _ _) as [[[nat_type ext_ip] | ex |] sw1]; exact Hsame.
Qed.

Lemma get_netcfg_returns fuel w :
  Stun.enough_fuel fuel (Stun.self (stun w)) ->
  exists netcfg w',
    get_netcfg env fuel w = (Ret netcfg, w')
    /\ Stun.enough_fuel fuel (Stun.self (stun w')).
Proof.
  intros [Hr Hfuel].
  destruct (get_default_ip_returns env w) as (ip & new & Hip).
  unfold get_netcfg. unfold bind at 1. rewrite Hip.
  unfold bind, lift_stun. cbn [stun].
  match goal with
  | |- context [Stun.get_info ?e fuel ?a 0 (stun w)] =>
      destruct (get_info_returns e fuel a 0 (stun w) Hr Hfuel) as (info & sw & Hinfo);
      pose proof (get_info_same_config fuel a 0 (stun w)) as (_ & _ & _ & Hsame & _);
      rewrite Hinfo in *
  end.
  cbn [snd] in Hsame. unfold ret. eexists _, _. split; [reflexivity |].
  cbn [stun set_stun]. unfold Stun.enough_fuel. rewrite Hsame. auto.
Qed.

Lemma probe_loop_returns fuel n : forall i retry netcfg0 w,
  Stun.enough_fuel fuel (Stun.self (stun w)) ->
  exists r w',
    probe_loop env config fuel n i retry netcfg0 w = (Ret r, w')
    /\ Stun.enough_fuel fuel (Stun.self (stun w')).
Proof.
  induction n as [| n IH]; intros i retry netcfg0 w Hfuel.
  - eexists _, _. split; [reflexivity | exact Hfuel].
  - cbn [probe_loop]. unfold bind at 1.
    destruct (get_netcfg_returns fuel w Hfuel) as (netcfg & w1 & -> & Hfuel1).
    destruct (bool_decide (ext_ip netcfg = "")); cbn [negb].
    + cbv beta iota zeta delta [bind sleep emit]. apply IH. exact Hfuel1.
    + eexists _, _. split; [reflexivity | exact Hfuel1].
Qed.

(** The reaction always returns: the start comes after a stop, so its
    assertion holds. *)
Lemma run_react_returns prev_netcfg netcfg w :
  exists w',
    run_react prev_netcfg netcfg w
    = (Ret (Some (if bool_decide (Some netcfg <> prev_netcfg) then netcfg
                  else default netcfg prev_netcfg)), w')
    /\ stun w' = stun w.
Proof.
  unfold run_react. case_bool_decide as Hdiff.
  - destruct (bool_decide (src_ip netcfg = "")); cbn [negb];
      cbv beta iota zeta delta [bind emit ret];
      rewrite stop_live777_eq; rewrite ?start_live777_eq; cbn [live777_task];
      eexists; split; reflexivity.
  - subst prev_netcfg. exists w. split; reflexivity.
Qed.

Lemma run_iteration_returns fuel prev_netcfg w :
  Stun.enough_fuel fuel (Stun.self (stun w)) ->
  exists netcfg w',
    run_iteration env config fuel prev_netcfg w = (Ret (Some netcfg), w')
    /\ Stun.enough_fuel fuel (Stun.self (stun w')).
Proof.
  intros Hfuel. unfold run_iteration, run_probe. unfold bind at 1. unfold bind at 1.
  match goal with
  | |- context [probe_loop env config fuel ?n 0 0 Netcfg_default w] =>
      destruct (probe_loop_returns fuel n 0 0 Netcfg_default w Hfuel)
        as ([retry netcfg] & w1 & -> & Hfuel1)
  end.
  assert (forall (c : bool) w0,
            exists w2, ((if c then emit (LogInfo "I'm fine, continue working ...")
                         else ret tt) w0 = (Ret tt, w2)) /\ stun w2 = stun w0) as Hlog.
  { intros [] w0; eexists; split; reflexivity. }
  match goal with
  | |- context [(if ?c then emit _ else ret tt)] =>
      destruct (Hlog c w1) as (w2 & Hw2 & Hstun2)
  end.
  unfold bind at 1. rewrite Hw2. unfold ret at 1. unfold bind at 1.
  destruct (run_react_returns prev_netcfg netcfg w2) as (w3 & -> & Hstun3).
  cbv beta iota zeta delta [bind sleep emit ret].
  eexists _, _. split; [reflexivity |]. cbn [stun]. rewrite Hstun3, Hstun2. exact Hfuel1.
Qed.

(** X16. The main loop goes on. With [retries >= 1] for the STUN client
    (and the resolver loop followed that far), every pass of [__run]
    completes: no probe raises into it, and the assertion of
    [__start_live777] cannot fail there, a stop coming first. A pass leaves a
    configuration remembered, so only the first pass is a first probe; and
    the loop has neither returned nor raised after any number of passes. *)
Theorem main_loop_goes_on fuel prev_netcfg w :
  Stun.enough_fuel fuel (Stun.self (stun w)) ->
  (exists netcfg w',
     run_iteration env config fuel prev_netcfg w = (Ret (Some netcfg), w')
     /\ Stun.enough_fuel fuel (Stun.self (stun w')))
  /\ (forall iterations,
        fst (run_loop env config iterations fuel prev_netcfg w) = OutOfFuel
        /\ fst (run env config iterations fuel w) = OutOfFuel).
Proof.
  intros Hfuel. split; [apply run_iteration_returns; exact Hfuel |].
  assert (forall iterations prev w0,
            Stun.enough_fuel fuel (Stun.self (stun w0)) ->
            fst (run_loop env config iterations fuel prev w0) = OutOfFuel) as Hloop.
  { induction iterations as [| k IH]; intros prev w0 H0; [reflexivity |].
    cbn [run_loop]. unfold bind.
    destruct (run_iteration_returns fuel prev w0 H0) as (netcfg & w1 & -> & H1).
    apply IH. exact H1. }
  intros iterations. split; [apply Hloop; exact Hfuel |].
  unfold run. cbv beta iota zeta delta [bind emit]. apply Hloop. exact Hfuel.
Qed.

End MainLoop.

(** Offline, a later pass probes three times and sleeps after each probe. *)
Lemma run_probe_counts_example :
  exists netcfg w',
    Live777Runner.run_probe RunnerScenario.offline RunnerScenario.config 2
      (Some RunnerScenario.unreachable) RunnerScenario.fresh = (Ret netcfg, w')
    /\ Live777Runner.probes (Live777Runner.trace w') = 3%nat
    /\ Live777Runner.slept (Live777Runner.trace w') = [1 # 1; 1 # 1; 1 # 1].
Proof.
  assert (exists netcfg w',
            Live777Runner.run_probe RunnerScenario.offline RunnerScenario.config 2
              (Some RunnerScenario.unreachable) RunnerScenario.fresh = (Ret netcfg, w')
            /\ Live777Runner.ext_ip netcfg = "") as (netcfg & w' & Hrun & Hext).
  { vm_compute. eexists _, _. split; reflexivity. }
  destruct (run_probe_counts RunnerScenario.offline RunnerScenario.config 2
              (Some RunnerScenario.unreachable) RunnerScenario.fresh netcfg w' Hrun)
    as (k & _ & Hprobes & _ & Hcase).
  rewrite (bool_decide_eq_true_2 _ Hext) in Hcase. destruct Hcase as (-> & Hslept & _).
  exists netcfg, w'. split_and!; [exact Hrun | rewrite Hprobes | rewrite Hslept]; reflexivity.
Defined.

(** With [check_retries = 0] a later pass takes the network to be down. *)
Lemma no_check_retries_example :
  fst (Live777Runner.run_iteration RunnerScenario.offline RunnerScenario.never_recheck 2
         (Some RunnerScenario.reachable) RunnerScenario.fresh)
  = Ret (Some Live777Runner.Netcfg_default).
Proof.
  destruct (no_check_retries_never_starts RunnerScenario.offline
              RunnerScenario.never_recheck 2 RunnerScenario.reachable RunnerScenario.fresh
              ltac:(cbn; lia)) as (new & w' & Hrun & _).
  rewrite Hrun. reflexivity.
Defined.

(** Offline, the main loop is still running after five passes. *)
Lemma main_loop_goes_on_example :
  fst (Live777Runner.run RunnerScenario.offline RunnerScenario.config 5 2
         RunnerScenario.fresh) = OutOfFuel.
Proof.
  apply (proj2 (main_loop_goes_on RunnerScenario.offline RunnerScenario.config 2 None
                  RunnerScenario.fresh ltac:(split; cbn; lia)) 5%nat).
Defined.

(* ===================================================================== *)
(** * The supervisory task                                                *)
(* ===================================================================== *)

Section Supervision.
Import Live777Runner.
Context (env : Env) (config : Config).

(** Within the modelled fragment of the formatter the argv of the child is
    the rendering of the template, and an error of the rendering is the
    error of the launch. *)
Lemma child_argv_rendered h netcfg argv :
  render_cmd (cmd config) netcfg = inr argv ->
  child_argv env config h netcfg = inr argv.
Proof. unfold child_argv. intros ->. reflexivity. Qed.

Lemma child_argv_failed h netcfg ex :
  render_cmd (cmd config) netcfg = inl ex ->
  exn_class ex <> NotModelled ->
  child_argv env config h netcfg = inl ex.
Proof.
  unfold child_argv. intros -> Hclass.
  rewrite bool_decide_eq_false_2 by exact Hclass. reflexivity.
Qed.

Lemma child_argv_outside h netcfg ex :
  render_cmd (cmd config) netcfg = inl ex ->
  exn_class ex = NotModelled ->
  child_argv env config h netcfg = format_result env h (cmd config) netcfg.
Proof.
  unfold child_argv. intros -> Hclass.
  rewrite bool_decide_eq_true_2 by exact Hclass. reflexivity.
Qed.

(** A launch from the head of the task loop, with no child held. *)
Lemma live777_task_launch_eq t w :
  live777_proc w = None ->
  live777_task_launch env config t w =
  let failed h :=
    (Ret tt,
     {| stun := stun w; live777_task := live777_task w; live777_proc := None;
        tasks := tasks w; children := children w; next_task := next_task w;
        trace := Sleep 1 :: LogError "Can't start Live777" :: h |}) in
  match child_argv env config (trace w) (task_netcfg t) with
  | inl _ => failed (trace w)
  | inr argv =>
      let h := RunProcess argv (child_environ (task_netcfg t)) :: trace w in
      match run_process_result env h with
      | inl _ => failed h
      | inr pid =>
          (Ret tt,
           {| stun := stun w; live777_task := live777_task w; live777_proc := Some pid;
              tasks := map (fun t' => if bool_decide (task_id t' = task_id t)
                                      then {| task_id := task_id t;
                                              task_netcfg := task_netcfg t';
                                              task_tailing := true |}
                                      else t') (tasks w);
              children := pid :: children w; next_task := next_task w;
              trace := LogInfo "Started Live777 pid=%d: %s" :: h |})
      end
  end.
Proof.
  destruct w as [sw tk pr ts cs nt h]. cbn [live777_proc]. intros ->.
  unfold live777_task_launch, start_live777_proc, task_handler, kill_live777_proc,
    run_process, set_tailing, sleep.
  cbv beta iota zeta delta [try_except bind get lift modify emit history ret raise of_result].
  cbn [live777_proc trace].
  destruct (child_argv env config h (task_netcfg t)) as [ex | argv]; [reflexivity |].
  cbn [of_result trace].
  destruct (run_process_result env _) as [ex | pid]; reflexivity.
Qed.

(** The pass of the task loop after the child died. *)
Lemma live777_task_died_eq t w pid :
  live777_proc w = Some pid ->
  live777_task_died t w =
  (Ret tt,
   {| stun := stun w; live777_task := live777_task w; live777_proc := None;
      tasks := map (fun t' => if bool_decide (task_id t' = task_id t)
                              then {| task_id := task_id t;
                                      task_netcfg := task_netcfg t';
                                      task_tailing := false |}
                              else t') (tasks w);
      children := filter (fun p => p <> pid) (children w); next_task := next_task w;
      trace := Sleep 1 :: KillProcess pid 5
                 :: LogError "Unexpected Live777 error: pid=%d" :: trace w |}).
Proof.
  destruct w as [sw tk pr ts cs nt h]. cbn [live777_proc]. intros ->. reflexivity.
Qed.

Lemma find_task_spec tid b w t :
  find_task tid b w = Some t ->
  t ∈ tasks w /\ task_id t = tid /\ task_tailing t = b.
Proof.
  unfold find_task. intros Hfind. apply List.find_some in Hfind as [Hin Hp].
  apply andb_true_iff in Hp as [Hid Hb].
  apply bool_decide_eq_true_1 in Hid, Hb.
  split_and!; [apply list_elem_of_In; exact Hin | exact Hid | exact Hb].
Qed.

(** In a supervised world a task of the loop is the only one, and the one
    the runner refers to. *)
Lemma supervised_task w t :
  supervised w -> t ∈ tasks w ->
  tasks w = [t] /\ live777_task w = Some (task_id t).
Proof.
  intros ([Htasks _] & _ & _) Hin.
  destruct (tasks w) as [| t0 [| t1 ts]] eqn:Hts.
  - apply elem_of_nil in Hin. contradiction.
  - apply list_elem_of_singleton in Hin as ->.
    destruct (live777_task w) as [tid |]; [| discriminate].
    cbn in Htasks. injection Htasks as ->. auto.
  - destruct (live777_task w); discriminate.
Qed.

Lemma supervised_emit e : maintains supervised (emit e).
Proof. intros w Hw. exact Hw. Qed.

Lemma supervised_lift_stun {A} (m : Stun.M A) : maintains supervised (lift_stun m).
Proof. intros w Hw. unfold lift_stun. destruct (m (stun w)) as [o sw]. exact Hw. Qed.

Lemma supervised_get_netcfg fuel : maintains supervised (get_netcfg env fuel).
Proof.
  unfold get_netcfg, get_default_ip. maintains_tac;
    first [apply supervised_emit | apply supervised_lift_stun].
Qed.

Lemma supervised_probe_loop fuel n : forall i retry netcfg,
  maintains supervised (probe_loop env config fuel n i retry netcfg).
Proof.
  induction n as [| n IH]; intros; cbn [probe_loop]; unfold sleep.
  - maintains_tac.
  - maintains_tac; first [apply supervised_get_netcfg | apply supervised_emit | apply IH].
Qed.

Lemma supervised_stop_live777 : maintains supervised stop_live777.
Proof.
  intros w Hw. pose proof (tracked_stop_live777 w (proj1 Hw)) as Htracked.
  rewrite stop_live777_eq in *. cbn [snd] in *.
  split_and!; [exact Htracked | reflexivity |].
  destruct Htracked as [Htasks _]. cbn [tasks live777_task option_list] in Htasks.
  apply map_eq_nil in Htasks. cbn [tasks]. rewrite Htasks.
  intros t Hin. apply elem_of_nil in Hin. contradiction.
Qed.

Lemma supervised_start_live777 netcfg : maintains supervised (start_live777 netcfg).
Proof.
  intros w Hw. pose proof (tracked_start_live777 netcfg w (proj1 Hw)) as Htracked.
  rewrite start_live777_eq in *. destruct Hw as (_ & Hheld & Htail).
  destruct (live777_task w) as [tid |] eqn:Htask; cbn [snd] in *.
  - split_and!; [exact Htracked | discriminate | exact Htail].
  - split_and!; [exact Htracked | discriminate |].
    cbn [tasks live777_proc]. intros t Hin. apply elem_of_cons in Hin as [-> | Hin].
    + rewrite (Hheld eq_refl). reflexivity.
    + apply Htail. exact Hin.
Qed.

Lemma supervised_run_iteration fuel prev_netcfg :
  maintains supervised (run_iteration env config fuel prev_netcfg).
Proof.
  unfold run_iteration, run_probe, run_react, sleep. maintains_tac;
    first [ apply supervised_probe_loop | apply supervised_emit
          | apply supervised_stop_live777 | apply supervised_start_live777 ].
Qed.

Lemma supervised_live777_task_launch t w :
  supervised w -> t ∈ tasks w -> task_tailing t = false ->
  supervised (snd (live777_task_launch env config t w)).
Proof.
  intros Hw Hin Htailing.
  pose proof (tracked_live777_task_launch env config t w (proj1 Hw)) as Htracked.
  destruct (supervised_task w t Hw Hin) as [Hts Htask].
  destruct Hw as (_ & Hheld & Htail).
  assert (live777_proc w = None) as Hproc.
  { specialize (Htail t Hin). rewrite Htailing in Htail.
    destruct (live777_proc w); [| reflexivity].
    rewrite bool_decide_eq_true_2 in Htail by eauto. discriminate. }
  rewrite live777_task_launch_eq in * by exact Hproc. cbn zeta in *.
  destruct (child_argv _ _ _ _) as [ex | argv]; cbn [snd] in *.
  { split_and!; [exact Htracked | auto |]. cbn [tasks live777_proc].
    rewrite Hproc in Htail. exact Htail. }
  destruct (run_process_result env _) as [ex | pid]; cbn [snd] in *.
  { split_and!; [exact Htracked | auto |]. cbn [tasks live777_proc].
    rewrite Hproc in Htail. exact Htail. }
  split_and!; [exact Htracked | cbn [live777_task]; rewrite Htask; discriminate |].
  cbn [tasks live777_proc]. rewrite Hts. cbn [map].
  rewrite bool_decide_eq_true_2 by reflexivity.
  intros t' Hin'. apply list_elem_of_singleton in Hin' as ->. cbn [task_tailing].
  rewrite bool_decide_eq_true_2 by eauto. reflexivity.
Qed.

Lemma supervised_live777_task_died t w :
  supervised w -> t ∈ tasks w -> task_tailing t = true ->
  supervised (snd (live777_task_died t w)).
Proof.
  intros Hw Hin Htailing.
  pose proof (tracked_live777_task_died t w (proj1 Hw)) as Htracked.
  destruct (supervised_task w t Hw Hin) as [Hts Htask].
  destruct Hw as (_ & Hheld & Htail).
  assert (exists pid, live777_proc w = Some pid) as [pid Hproc].
  { specialize (Htail t Hin). rewrite Htailing in Htail.
    destruct (live777_proc w) as [pid |]; [eauto |].
    rewrite bool_decide_eq_false_2 in Htail by (intros [? ?]; discriminate). discriminate. }
  rewrite (live777_task_died_eq t w pid Hproc) in *. cbn [snd] in *.
  split_and!; [exact Htracked | auto |].
  cbn [tasks live777_proc]. rewrite Hts. cbn [map].
  rewrite bool_decide_eq_true_2 by reflexivity.
  intros t' Hin'. apply list_elem_of_singleton in Hin' as ->. cbn [task_tailing].
  rewrite bool_decide_eq_false_2 by (intros [? ?]; discriminate). reflexivity.
Qed.

Lemma supervised_step l w : supervised w -> supervised (step env config l w).
Proof.
  intros Hw. destruct l as [fuel prev | netcfg | | tid | tid]; cbn [step].
  - apply supervised_run_iteration. exact Hw.
  - apply supervised_start_live777. exact Hw.
  - apply supervised_stop_live777. exact Hw.
  - destruct (find_task tid false w) as [t |] eqn:Hfind; [| exact Hw].
    apply find_task_spec in Hfind as (Hin & _ & Htailing).
    apply supervised_live777_task_launch; assumption.
  - destruct (find_task tid true w) as [t |] eqn:Hfind; [| exact Hw].
    apply find_task_spec in Hfind as (Hin & _ & Htailing).
    apply supervised_live777_task_died; assumption.
Qed.

Lemma supervised_steps ls : forall w, supervised w -> supervised (steps env config ls w).
Proof.
  induction ls as [| l ls IH]; intros w Hw; [exact Hw |].
  cbn. apply IH, supervised_step, Hw.
Qed.

(** X17. A launch of the child by the supervisory task, no child being
    held, for a template within the modelled fragment of the formatter.
    When the command line renders and the process starts, the runner holds
    the new process, started with that command line and the environment of
    the task's configuration. When the rendering raises (a stray brace, an
    unknown or a positional field: [ValueError], [KeyError], [IndexError]),
    or the process cannot be started, nothing is raised out of the task: it
    logs that it cannot start Live777, kills nothing, sleeps one second and
    is back at the head of its loop with the world as it was. A template
    outside the fragment, whose rendering is [NotModelled], is no failure:
    nothing is said of it here. *)
Theorem launch_failure_is_retried t w :
  live777_proc w = None ->
  let environ := child_environ (task_netcfg t) in
  let rendered := render_cmd (cmd config) (task_netcfg t) in
  (forall argv pid,
     rendered = inr argv ->
     run_process_result env (RunProcess argv environ :: trace w) = inr pid ->
     exists w',
       live777_task_launch env config t w = (Ret tt, w')
       /\ live777_proc w' = Some pid
       /\ children w' = pid :: children w
       /\ trace w' = LogInfo "Started Live777 pid=%d: %s"
                       :: RunProcess argv environ :: trace w)
  /\ (forall attempt,
        (attempt = []
         /\ exists ex, rendered = inl ex /\ exn_class ex <> NotModelled)
        \/ (exists argv ex,
              attempt = [RunProcess argv environ]
              /\ rendered = inr argv
              /\ run_process_result env (attempt ++ trace w) = inl ex) ->
        exists w',
          live777_task_launch env config t w = (Ret tt, w')
          /\ live777_proc w' = None
          /\ live777_task w' = live777_task w
          /\ tasks w' = tasks w
          /\ children w' = children w
          /\ trace w' = Sleep 1 :: LogError "Can't start Live777" :: attempt ++ trace w).
Proof.
  intros Hproc environ rendered. split.
  - intros argv pid Hargv Hpid.
    rewrite live777_task_launch_eq by exact Hproc. cbn zeta.
    rewrite (child_argv_rendered _ _ _ Hargv). fold environ. rewrite Hpid.
    eexists. split_and!; reflexivity.
  - intros attempt [(-> & ex & Hfail & Hclass) | (argv & ex & -> & Hargv & Hfail)];
      rewrite live777_task_launch_eq by exact Hproc; cbn zeta.
    + rewrite (child_argv_failed _ _ _ Hfail Hclass). eexists. split_and!; reflexivity.
    + rewrite (child_argv_rendered _ _ _ Hargv). fold environ. cbn [app] in Hfail.
      rewrite Hfail. eexists. split_and!; reflexivity.
Qed.

(** X18. The death of the child. In a supervised world, when the child a
    task waits on dies, the task logs the unexpected error, has the dead
    process killed and reaped, sleeps one second and is back at the head of
    its loop: the runner holds no child and no child is left, the task is
    still the one the runner refers to, and its next launch runs the command
    line of the configuration the task was created for. *)
Theorem died_child_is_relaunched tid t w :
  supervised w ->
  find_task tid true w = Some t ->
  exists pid,
    live777_proc w = Some pid
    /\ let w1 := step env config (TaskDied tid) w in
       trace w1 = Sleep 1 :: KillProcess pid 5
                    :: LogError "Unexpected Live777 error: pid=%d" :: trace w
       /\ live777_proc w1 = None
       /\ children w1 = []
       /\ live777_task w1 = Some tid
       /\ find_task tid false w1
          = Some {| task_id := tid; task_netcfg := task_netcfg t; task_tailing := false |}
       /\ forall argv,
            render_cmd (cmd config) (task_netcfg t) = inr argv ->
            exists rest,
              trace (step env config (TaskLaunch tid) w1)
              = rest ++ RunProcess argv (child_environ (task_netcfg t)) :: trace w1.
Proof.
  intros Hw Hfind. cbn [step]. rewrite Hfind.
  apply find_task_spec in Hfind as (Hin & Hid & Htailing).
  destruct (supervised_task w t Hw Hin) as [Hts Htask].
  pose proof Hw as ([_ Hchildren] & _ & Htail).
  assert (exists pid, live777_proc w = Some pid) as [pid Hproc].
  { specialize (Htail t Hin). rewrite Htailing in Htail.
    destruct (live777_proc w) as [pid |]; [eauto |].
    rewrite bool_decide_eq_false_2 in Htail by (intros [? ?]; discriminate). discriminate. }
  exists pid. split; [exact Hproc |].
  rewrite (live777_task_died_eq t w pid Hproc). cbn [snd]. cbn zeta.
  cbn [trace live777_proc children live777_task].
  rewrite Hchildren, Hproc, Hts, Htask, Hid. cbn [option_list map].
  rewrite bool_decide_eq_true_2 by exact Hid.
  assert (forall w1,
            tasks w1 = [{| task_id := tid; task_netcfg := task_netcfg t;
                           task_tailing := false |}] ->
            find_task tid false w1
            = Some {| task_id := tid; task_netcfg := task_netcfg t;
                      task_tailing := false |}) as Hhead.
  { intros w1 Hw1. unfold find_task. rewrite Hw1. cbn.
    rewrite !bool_decide_eq_true_2 by reflexivity. reflexivity. }
  split_and!; try reflexivity.
  - apply filter_only.
  - apply Hhead. reflexivity.
  - intros argv Hargv. rewrite Hhead by reflexivity.
    rewrite live777_task_launch_eq by reflexivity. cbn zeta. cbn [task_netcfg trace].
    rewrite (child_argv_rendered _ _ _ Hargv).
    destruct (run_process_result env _) as [ex | pid']; cbn [snd trace].
    + exists [Sleep 1; LogError "Can't start Live777"]. reflexivity.
    + exists [LogInfo "Started Live777 pid=%d: %s"]. reflexivity.
Qed.

(** X19. The assertions of the task loop hold. From a new runner, whatever
    the main loop and the supervisory tasks do and in whatever order, the
    world stays supervised: a task at the head of its loop finds no child
    held and none left over, so the assertion of [__start_live777_proc]
    cannot fail; and a task that waits on the output of a child is the task
    the runner refers to, its child the one the runner holds and the only
    one there is. *)
Theorem task_loop_assertions_hold (ls : list Label)
    (stun_host : string) (stun_port : Z) (stun_timeout : Q) (stun_retries : Z)
    (stun_retries_delay : Q) :
  let w := steps env config ls
             (init stun_host stun_port stun_timeout stun_retries stun_retries_delay) in
  supervised w
  /\ (forall tid t,
        find_task tid false w = Some t ->
        live777_proc w = None /\ children w = [] /\ live777_task w = Some tid)
  /\ (forall tid t,
        find_task tid true w = Some t ->
        exists pid,
          live777_proc w = Some pid /\ children w = [pid] /\ live777_task w = Some tid).
Proof.
  cbn zeta.
  assert (supervised (steps env config ls
                        (init stun_host stun_port stun_timeout stun_retries
                           stun_retries_delay))) as Hw.
  { apply supervised_steps. split_and!; [split; reflexivity | reflexivity |].
    intros t Hin. apply elem_of_nil in Hin. contradiction. }
  split; [exact Hw |].
  set (w := steps _ _ _ _) in *.
  split; intros tid t Hfind; apply find_task_spec in Hfind as (Hin & Hid & Htailing);
    destruct (supervised_task w t Hw Hin) as [_ Htask];
    destruct Hw as ([_ Hchildren] & _ & Htail);
    specialize (Htail t Hin); rewrite Htailing in Htail;
    rewrite Hchildren, Htask, Hid;
    destruct (live777_proc w) as [pid |].
  - rewrite bool_decide_eq_true_2 in Htail by eauto. discriminate.
  - auto.
  - exists pid. auto.
  - rewrite bool_decide_eq_false_2 in Htail by (intros [? ?]; discriminate). discriminate.
Qed.

(** X20. Stopping twice. After [__stop_live777] a second call cancels no
    task and kills no process: it returns with the world as the first call
    left it. On a runner that holds neither a task nor a child the call does
    nothing either. *)
Theorem stop_is_idempotent w :
  let w1 := snd (stop_live777 w) in
  stop_live777 w1
  = (Ret tt,
     {| stun := stun w1; live777_task := None; live777_proc := None;
        tasks := tasks w1; children := children w1; next_task := next_task w1;
        trace := Enter_stop_live777 :: trace w1 |})
  /\ stop_events w1 = [Enter_stop_live777]
  /\ next_task w1 = next_task w
  /\ stun w1 = stun w.
Proof.
  cbn zeta. rewrite !stop_live777_eq. cbn [snd]. split_and!; reflexivity.
Qed.

End Supervision.

(** On a host without the binary the launch fails and the task goes on. *)
Lemma launch_failure_example :
  exists w',
    Live777Runner.live777_task_launch RunnerScenario.no_binary RunnerScenario.config
      {| Live777Runner.task_id := 0; Live777Runner.task_netcfg := RunnerScenario.unreachable;
         Live777Runner.task_tailing := false |} RunnerScenario.fresh
    = (Ret tt, w')
    /\ Live777Runner.live777_proc w' = None
    /\ Live777Runner.children w' = [].
Proof.
  destruct (proj2 (launch_failure_is_retried RunnerScenario.no_binary RunnerScenario.config
                     {| Live777Runner.task_id := 0;
                        Live777Runner.task_netcfg := RunnerScenario.unreachable;
                        Live777Runner.task_tailing := false |}
                     RunnerScenario.fresh eq_refl)
              [Live777Runner.RunProcess ["live777"; "--from=10.0.0.2"]
                 (Live777Runner.child_environ RunnerScenario.unreachable)])
    as (w' & Hrun & Hproc & _ & _ & Hchildren & _).
  - right. eexists _, _. split_and!; reflexivity.
  - exists w'. split_and!; [exact Hrun | exact Hproc | exact Hchildren].
Defined.

(** Offline, after the first pass of the main loop and the launch of the
    child: when the child dies it is reaped and the task is back at the head
    of its loop. *)
Lemma died_child_example :
  let w := Live777Runner.steps RunnerScenario.offline RunnerScenario.config
             [Live777Runner.DoIteration 2 None; Live777Runner.TaskLaunch 0]
             RunnerScenario.fresh in
  let w1 := Live777Runner.step RunnerScenario.offline RunnerScenario.config
              (Live777Runner.TaskDied 0) w in
  Live777Runner.live777_proc w = Some 4242
  /\ Live777Runner.live777_proc w1 = None
  /\ Live777Runner.children w1 = [].
Proof.
  cbn zeta.
  set (w := Live777Runner.steps _ _ _ _).
  assert (Live777Runner.supervised w) as Hw.
  { apply supervised_steps. split_and!; [split; reflexivity | reflexivity |].
    intros t Hin. apply elem_of_nil in Hin. contradiction. }
  destruct (Live777Runner.find_task 0 true w) as [t |] eqn:Hfind;
    [| vm_compute in Hfind; discriminate].
  destruct (died_child_is_relaunched RunnerScenario.offline RunnerScenario.config 0 t w
              Hw Hfind) as (pid & Hproc & _ & Hnone & Hchildren & _).
  split_and!; [vm_compute; reflexivity | exact Hnone | exact Hchildren].
Defined.

(** Offline, after the first pass of the main loop and the launch of the
    child, the world is supervised. *)
Lemma supervised_example :
  Live777Runner.supervised
    (Live777Runner.steps RunnerScenario.offline RunnerScenario.config
       [Live777Runner.DoIteration 2 None; Live777Runner.TaskLaunch 0]
       RunnerScenario.fresh).
Proof.
  exact (proj1 (task_loop_assertions_hold RunnerScenario.offline RunnerScenario.config
                  [Live777Runner.DoIteration 2 None; Live777Runner.TaskLaunch 0]
                  "stun.example" 3478 (5 # 1) 2 (1 # 1))).
Defined.


(* ===================================================================== *)
(** * What a report of [ERROR] means                                      *)
(* ===================================================================== *)

Section ErrorReport.
Import Stun.
Context (env : Env).

(** X21. [get_info] reports [ERROR] exactly when its [try] block raised:
    the dialogue itself never classifies a network as [ERROR]. In that case
    the exception is logged, once, and nothing else is added to what the
    block did; otherwise [get_info] logs nothing of its own. *)
Theorem error_means_logged_failure fuel src_ip src_port w info w' :
  get_info env fuel src_ip src_port w = (Ret info, w') ->
  let tried := get_info_try env fuel src_ip src_port w in
  (nat_type info = ERROR <-> exists ex, fst tried = Raise ex)
  /\ (forall ex,
        fst tried = Raise ex ->
        trace w' = LogError "Can't get STUN info: %s" [ArgExn ex] :: trace (snd tried))
  /\ (nat_type info <> ERROR -> trace w' = trace (snd tried)).
Proof.
  cbn zeta. rewrite get_info_eq.
  destruct (get_info_try env fuel src_ip src_port w) as [[[nt ext_ip] | ex |] w1] eqn:Htry;
    [| | discriminate]; intros [= <- <-]; cbn [fst snd Stun.nat_type trace].
  - apply get_info_try_Ret in Htry as (w0 & resp & w2 & Hdialogue & _).
    assert (nt <> ERROR) as Hnt.
    { apply get_nat_type_response in Hdialogue as [(Hin & _) | (Hin & _)];
        revert Hin; rewrite !elem_of_cons, !elem_of_nil; intuition congruence. }
    split_and!.
    + split; [intros H; contradiction | intros [ex [=]]].
    + intros ex [=].
    + reflexivity.
  - split_and!.
    + split; [eauto | reflexivity].
    + intros ex' [= <-]. reflexivity.
    + intros H. exfalso. apply H. reflexivity.
Qed.

End ErrorReport.

(** On the silent network the probe is classified, not failed. *)
Lemma blocked_is_not_an_error :
  exists info w',
    Stun.get_info Scenario.silent 2 "10.0.0.2" 0 (Scenario.fresh 2) = (Ret info, w')
    /\ Stun.nat_type info <> Stun.ERROR
    /\ Stun.trace w'
       = Stun.trace (snd (Stun.get_info_try Scenario.silent 2 "10.0.0.2" 0 (Scenario.fresh 2))).
Proof.
  assert (exists info w',
            Stun.get_info Scenario.silent 2 "10.0.0.2" 0 (Scenario.fresh 2) = (Ret info, w')
            /\ Stun.nat_type info = Stun.BLOCKED) as (info & w' & Hrun & Htype).
  { vm_compute. eexists _, _. split; reflexivity. }
  assert (Stun.nat_type info <> Stun.ERROR) as Hne by (rewrite Htype; discriminate).
  exists info, w'. split_and!; [exact Hrun | exact Hne |].
  exact (proj2 (proj2 (error_means_logged_failure Scenario.silent 2 "10.0.0.2" 0
                         (Scenario.fresh 2) info w' Hrun)) Hne).
Defined.

(* ===================================================================== *)
(** * A pass of the main loop that probes                                 *)
(* ===================================================================== *)

Section ProbingPass.
Import Live777Runner.
Context (env : Env) (config : Config).

(** A probed configuration always has a source address. *)
Lemma get_netcfg_has_src_ip fuel w netcfg w' :
  get_netcfg env fuel w = (Ret netcfg, w') -> src_ip netcfg <> "".
Proof.
  intros Hrun.
  destruct (get_default_ip_returns env w) as (ip & new & Hip).
  destruct (get_netcfg_src_ip env fuel w ip _ netcfg w' Hip Hrun) as [-> _].
  case_bool_decide; [discriminate | assumption].
Qed.

Lemma probe_loop_has_src_ip fuel n : forall i retry netcfg0 w r w',
  probe_loop env config fuel n i retry netcfg0 w = (Ret r, w') ->
  (n = 0%nat -> src_ip netcfg0 <> "") ->
  src_ip (snd r) <> "".
Proof.
  induction n as [| n IH]; intros i retry netcfg0 w r w'.
  - cbn. unfold ret. intros [= <- _] H0. apply H0. reflexivity.
  - cbn [probe_loop]. unfold bind at 1.
    destruct (get_netcfg env fuel w) as [[netcfg | ex |] w1] eqn:Hget; try discriminate.
    pose proof (get_netcfg_has_src_ip _ _ _ _ Hget) as Hsrc.
    destruct (bool_decide (ext_ip netcfg = "")); cbn [negb].
    + cbv beta iota zeta delta [bind sleep emit]. intros Hloop _.
      apply (IH _ _ _ _ _ _ Hloop). intros _. exact Hsrc.
    + unfold ret. intros [= <- _] _. exact Hsrc.
Qed.

Lemma run_probe_lifecycle fuel prev_netcfg w netcfg w' :
  run_probe env config fuel prev_netcfg w = (Ret netcfg, w') ->
  lifecycle_calls (trace w') = lifecycle_calls (trace w)
  /\ live777_task w' = live777_task w /\ live777_proc w' = live777_proc w
  /\ tasks w' = tasks w /\ children w' = children w /\ next_task w' = next_task w.
Proof.
  unfold run_probe. unfold bind at 1.
  match goal with
  | |- context [probe_loop env config fuel ?n 0 0 Netcfg_default w] => generalize n
  end.
  intros n.
  assert (forall n i retry netcfg0 w0 r w1,
            probe_loop env config fuel n i retry netcfg0 w0 = (Ret r, w1) ->
            lifecycle_calls (trace w1) = lifecycle_calls (trace w0)
            /\ live777_task w1 = live777_task w0 /\ live777_proc w1 = live777_proc w0
            /\ tasks w1 = tasks w0 /\ children w1 = children w0
            /\ next_task w1 = next_task w0) as Hloop.
  { clear. induction n as [| n IH]; intros i retry netcfg0 w0 r w1.
    - cbn. unfold ret. intros [= _ <-]. auto 10.
    - cbn [probe_loop]. unfold bind at 1.
      destruct (get_netcfg env fuel w0) as [[netcfg | ex |] w2] eqn:Hget; try discriminate.
      assert (lifecycle_calls (trace w2) = lifecycle_calls (trace w0)
              /\ live777_task w2 = live777_task w0 /\ live777_proc w2 = live777_proc w0
              /\ tasks w2 = tasks w0 /\ children w2 = children w0
              /\ next_task w2 = next_task w0) as (H1 & H2 & H3 & H4 & H5 & H6).
      { revert Hget. unfold get_netcfg, get_default_ip.
        cbv beta iota zeta delta [bind emit history ret lift_stun]. cbn [trace].
        destruct (get_default_ip_try _) as [ex | [ip |]]; cbn [stun trace];
          destruct (Stun.get_info _ _ _ _ _) as [[info | ex' |] sw]; try discriminate;
          intros [= _ <-]; cbn; auto 10. }
      destruct (bool_decide (ext_ip netcfg = "")); cbn [negb].
      + cbv beta iota zeta delta [bind sleep emit]. intros Hrest.
        destruct (IH _ _ _ _ _ _ Hrest) as (K1 & K2 & K3 & K4 & K5 & K6).
        cbn in K1, K2, K3, K4, K5, K6.
        rewrite K1, K2, K3, K4, K5, K6. auto 10.
      + unfold ret. intros [= _ <-]. auto 10. }
  destruct (probe_loop env config fuel n 0 0 Netcfg_default w) as [[[retry nc] | ex |] w1] eqn:Hl;
    try discriminate.
  destruct (Hloop _ _ _ _ _ _ _ Hl) as (H1 & H2 & H3 & H4 & H5 & H6).
  destruct (negb (bool_decide (retry = 0%nat)) && negb (bool_decide (ext_ip nc = "")));
    cbv beta iota zeta delta [bind ret emit]; intros [= _ <-]; cbn; auto 10.
Qed.

(** X22. A pass that probes never just stops the child. On the first pass,
    and on any pass of a runner with [check_retries >= 1], the configuration
    the pass works with comes from a probe and its [src_ip] is not empty
    (the wildcard stands in for a failed discovery). So when it differs from
    the remembered one the pass calls a stop and then a start for it; when
    it is the same it calls neither; the branch that stops without starting
    is not taken. In a tracked world the new task is then the only task,
    at the head of its loop for the new configuration, and no child is
    left. *)
Theorem probing_pass_restarts fuel prev_netcfg w prev' w' :
  prev_netcfg = None \/ 1 <= check_retries config ->
  run_iteration env config fuel prev_netcfg w = (Ret prev', w') ->
  exists netcfg,
    prev' = Some netcfg
    /\ src_ip netcfg <> ""
    /\ lifecycle_calls (trace w')
       = lifecycle_calls (trace w)
         ++ (if bool_decide (Some netcfg = prev_netcfg) then []
             else [CallStop; CallStart netcfg])
    /\ (tracked w -> Some netcfg <> prev_netcfg ->
        tasks w' = [{| task_id := next_task w; task_netcfg := netcfg;
                       task_tailing := false |}]
        /\ live777_task w' = Some (next_task w)
        /\ live777_proc w' = None
        /\ children w' = []).
Proof.
  intros Hprobes. unfold run_iteration. unfold bind at 1.
  destruct (run_probe env config fuel prev_netcfg w) as [[netcfg | ex |] w1] eqn:Hprobe;
    try discriminate.
  destruct (run_probe_lifecycle _ _ _ _ _ Hprobe) as (Hcalls & Htask & Hproc & Hts & Hcs & Hnt).
  assert (src_ip netcfg <> "") as Hsrc.
  { revert Hprobe. unfold run_probe. unfold bind at 1.
    destruct (probe_loop _ _ _ _ _ _ _ _) as [[[retry nc] | ex |] w0] eqn:Hloop;
      try discriminate.
    intros Hrest.
    assert (nc = netcfg) as <-.
    { revert Hrest.
      destruct (negb (bool_decide (retry = 0%nat)) && negb (bool_decide (ext_ip nc = "")));
        cbv beta iota zeta delta [bind ret emit]; intros [= <- _]; reflexivity. }
    apply (probe_loop_has_src_ip _ _ _ _ _ _ _ _ Hloop).
    intros Hn. exfalso. destruct prev_netcfg as [p |]; [| discriminate].
    destruct Hprobes as [? | ?]; [discriminate | lia]. }
  unfold bind at 1. unfold run_react. case_bool_decide as Hdiff.
  - rewrite bool_decide_eq_false_2 by exact Hsrc. cbn [negb].
    cbv beta iota zeta delta [bind emit sleep ret].
    rewrite stop_live777_eq, start_live777_eq. cbn [live777_task].
    intros [= <- <-]. exists netcfg.
    rewrite bool_decide_eq_false_2 by exact Hdiff.
    split_and!; [reflexivity | exact Hsrc | |].
    + cbn [trace lifecycle_calls].
      rewrite lifecycle_calls_app, lifecycle_calls_stop. cbn [lifecycle_calls].
      rewrite Hcalls, <- app_assoc. reflexivity.
    + intros Htracked _.
      pose proof (tracked_stop_live777 w1) as Hstop.
      rewrite stop_live777_eq in Hstop. cbn [snd] in Hstop.
      destruct Hstop as [Hstasks Hschildren].
      { destruct Htracked as [T1 T2]. split; congruence. }
      cbn [tasks live777_task children live777_proc option_list] in Hstasks, Hschildren.
      apply map_eq_nil in Hstasks.
      cbn [tasks live777_task live777_proc children next_task].
      rewrite Hstasks, Hschildren, Hnt. auto.
  - cbv beta iota zeta delta [bind emit sleep ret]. intros [= <- <-].
    assert (Some netcfg = prev_netcfg) as Hsame.
    { destruct (decide (Some netcfg = prev_netcfg)); [assumption | contradiction]. }
    exists netcfg. rewrite bool_decide_eq_true_2 by exact Hsame.
    split_and!; [symmetry; exact Hsame | exact Hsrc | |].
    + cbn [trace lifecycle_calls]. rewrite Hcalls, app_nil_r. reflexivity.
    + intros _ Hne. contradiction.
Qed.

End ProbingPass.

(** Offline, the first pass of the main loop starts the child for the
    wildcard address. *)
Lemma first_pass_starts_child :
  exists netcfg w',
    Live777Runner.run_iteration RunnerScenario.offline RunnerScenario.config 2 None
      RunnerScenario.fresh = (Ret (Some netcfg), w')
    /\ Live777Runner.src_ip netcfg <> ""
    /\ Live777Runner.lifecycle_calls (Live777Runner.trace w')
       = [Live777Runner.CallStop; Live777Runner.CallStart netcfg].
Proof.
  assert (exists prev' w',
            Live777Runner.run_iteration RunnerScenario.offline RunnerScenario.config 2 None
              RunnerScenario.fresh = (Ret prev', w')) as (prev' & w' & Hrun).
  { vm_compute. eexists _, _. reflexivity. }
  destruct (probing_pass_restarts RunnerScenario.offline RunnerScenario.config 2 None
              RunnerScenario.fresh prev' w' (or_introl eq_refl) Hrun)
    as (netcfg & -> & Hsrc & Hcalls & _).
  exists netcfg, w'. split_and!; [exact Hrun | exact Hsrc |].
  rewrite Hcalls. rewrite bool_decide_eq_false_2 by discriminate. reflexivity.
Defined.
